(** * The dataset service layer of uvlhub, embedded in Rocq

    Source: [app/modules/dataset/services.py].

    The service layer mediates between request handlers, form objects and a
    relational persistence layer.  The embedding keeps the shape of the source:
    rows and tables for the database, a session with a committed and a working
    view, a small state-and-exception monad for the two workflow methods, a
    directory tree for the file system.

    The file has three parts: the model (data, collaborators, services), the
    vocabulary in which the properties are stated, and the properties with
    their proofs. *)

From stdpp Require Import gmap strings list pretty.
From Stdlib Require Import ZArith Lia.

#[local] Set Warnings "-register-all".
Open Scope string_scope.
Open Scope list_scope.
Open Scope nat_scope.

(** ** Human-readable sizes *)

Module SizeService.

(** [round(num / den, 2)] as Python computes it, in hundredths.  For
    [0 <= num < 2^53] and [den] a power of two the float quotient is exact,
    and [round] with two digits rounds that exact value to the nearest
    hundredth, ties to even. *)
Definition round2 (num den : Z) : Z :=
  let q := (100 * num / den)%Z in
  let r := (100 * num mod den)%Z in
  if (2 * r <? den)%Z then q
  else if (den <? 2 * r)%Z then (q + 1)%Z
  else if Z.even q then q else (q + 1)%Z.

(** [str] of the float nearest to [h / 100]: the shortest decimal that reads
    back as the same float, with at least one digit after the point. *)
Definition float_str (h : Z) : string :=
  let ip := (h / 100)%Z in
  let fr := (h mod 100)%Z in
  pretty ip +:+ "." +:+
    (if (fr mod 10 =? 0)%Z then pretty (fr / 10)%Z
     else pretty (fr / 10)%Z +:+ pretty (fr mod 10)%Z).

Definition get_human_readable_size (size : Z) : string :=
  if (size <? 1024)%Z then pretty size +:+ " bytes"
  else if (size <? 1024 ^ 2)%Z then float_str (round2 size 1024) +:+ " KB"
  else if (size <? 1024 ^ 3)%Z then float_str (round2 size (1024 ^ 2)) +:+ " MB"
  else float_str (round2 size (1024 ^ 3)) +:+ " GB".


End SizeService.

(** ** Data model

    The ORM models ([models.py] of the dataset, feature-model and hubfile
    modules) are column declarations; the rows below carry the columns that the
    service layer reads and writes. *)

Definition path := list string.

(** The keyword dictionary of one author, as the forms hand it to
    [AuthorRepository.create]. *)
Record AuthorData := {
  ad_name : string;
  ad_affiliation : string;
  ad_orcid : string;
}.

Record AuthorRow := {
  author_id : nat;
  author_name : string;
  author_affiliation : string;
  author_orcid : string;
  author_ds_meta_data_id : option nat;
  author_fm_meta_data_id : option nat;
}.

(** The keyword dictionary returned by [DataSetForm.get_dsmetadata]. *)
Record DSMetaDataFields := {
  dsf_title : string;
  dsf_description : string;
  dsf_publication_type : string;
  dsf_publication_doi : string;
  dsf_dataset_doi : string;
  dsf_tags : string;
  dsf_dataset_anonymous : bool;
}.

Record DSMetaDataRow := {
  dsmd_id : nat;
  dsmd_fields : DSMetaDataFields;
}.

(** The keyword dictionary returned by [FeatureModelForm.get_fmmetadata]. *)
Record FMMetaDataFields := {
  fmf_uvl_filename : string;
  fmf_title : string;
  fmf_description : string;
  fmf_publication_type : string;
  fmf_publication_doi : string;
  fmf_tags : string;
  fmf_uvl_version : string;
}.

Record FMMetaDataRow := {
  fmmd_id : nat;
  fmmd_fields : FMMetaDataFields;
}.

Record DataSetRow := {
  ds_id : nat;
  ds_user_id : nat;
  ds_ds_meta_data_id : nat;
}.

Record FeatureModelRow := {
  fm_id : nat;
  fm_data_set_id : nat;
  fm_fm_meta_data_id : nat;
}.

Record HubfileRow := {
  hf_id : nat;
  hf_name : string;
  hf_checksum : string;
  hf_size : nat;
  hf_feature_model_id : nat;
}.

(** A download or view record: dataset, client token, timestamp. *)
Record TrackingRow := {
  tr_id : nat;
  tr_dataset_id : nat;
  tr_date : nat;
  tr_cookie : string;
}.

Inductive Row :=
| RowDSMetaData (r : DSMetaDataRow)
| RowFMMetaData (r : FMMetaDataRow)
| RowAuthor (r : AuthorRow)
| RowDataSet (r : DataSetRow)
| RowFeatureModel (r : FeatureModelRow)
| RowHubfile (r : HubfileRow)
| RowDSDownloadRecord (r : TrackingRow)
| RowDSViewRecord (r : TrackingRow).

Record Store := {
  ds_meta_data_tbl : list DSMetaDataRow;
  fm_meta_data_tbl : list FMMetaDataRow;
  author_tbl : list AuthorRow;
  data_set_tbl : list DataSetRow;
  feature_model_tbl : list FeatureModelRow;
  file_tbl : list HubfileRow;
  ds_download_record_tbl : list TrackingRow;
  ds_view_record_tbl : list TrackingRow;
}.

Definition empty_store : Store :=
  {| ds_meta_data_tbl := []; fm_meta_data_tbl := []; author_tbl := [];
     data_set_tbl := []; feature_model_tbl := []; file_tbl := [];
     ds_download_record_tbl := []; ds_view_record_tbl := [] |}.

(** The database as one session sees it: what is committed (visible to
    everybody) and the session's working view (committed rows plus its own
    pending writes). *)
Record Db := {
  committed : Store;
  session : Store;
}.

(** *** Loaded objects

    What the ORM hands out when relationships are followed: a dataset with its
    metadata, authors, feature models and files. *)

Record DSMetaData := {
  dsmd_row : DSMetaDataRow;
  dsmd_authors : list AuthorRow;
}.

Record FMMetaData := {
  fmmd_row : FMMetaDataRow;
  fmmd_authors : list AuthorRow;
}.

Record FeatureModel := {
  fm_row : FeatureModelRow;
  fm_meta_data : FMMetaData;
  fm_files : list HubfileRow;
}.

Record DataSet := {
  ds_row : DataSetRow;
  ds_meta_data : DSMetaData;
  feature_models : list FeatureModel;
}.

(** *** Users and forms *)

Record UserProfile := {
  profile_name : string;
  profile_surname : string;
  profile_affiliation : string;
  profile_orcid : string;
}.

Record User := {
  user_id : nat;
  profile : UserProfile;
}.

Record AuthorForm := {
  af_name : string;
  af_affiliation : string;
  af_orcid : string;
}.

Record FeatureModelForm := {
  fmform_uvl_filename : string;
  fmform_title : string;
  fmform_desc : string;
  fmform_publication_type : string;
  fmform_publication_doi : string;
  fmform_tags : string;
  fmform_version : string;
  fmform_authors : list AuthorForm;
}.

Record DataSetForm := {
  form_title : string;
  form_desc : string;
  form_publication_type : string;
  form_publication_doi : string;
  form_dataset_doi : string;
  form_tags : string;
  form_dataset_anonymous : bool;
  form_authors : list AuthorForm;
  form_feature_models : list FeatureModelForm;
}.

(** *** The file system *)

Inductive fdata :=
| Raw (bytes : string)
| Archive (entries : list (list string * string)).

Inductive node :=
| File (d : fdata)
| Dir (entries : list (string * node)).

(** *** Exceptions and the log *)

Inductive Exn :=
| AttributeError (attr : string)
| FileNotFoundError (p : path)
| IsADirectoryError (p : path)
| NotADirectoryError (p : path)
| FileExistsError (p : path)
| IntegrityError (r : Row).

Inductive LogEntry :=
| LogCreating (fields : DSMetaDataFields)
| LogUpdating (fields : DSMetaDataFields)
| LogCreateException (exc : Exn)
| LogUpdateException (exc : Exn).

Inductive result (A : Type) :=
| Ok (a : A)
| Raise (exc : Exn).
Arguments Ok {A} a.
Arguments Raise {A} exc.

(** ** Collaborators

    What the service layer takes from outside the file: the hash function,
    the user's staging folder, the form's anonymous-author accessor, the
    publication-type enumeration, the status predicate of a synchronized
    dataset, the constraints the database enforces on a write, the byte
    encoding of an archive, and the value of the [commit] flag of a repository
    write when the caller does not pass one. *)

Class Collaborators := {
  md5_hexdigest : string → string;
  temp_folder : User → path;
  get_anonymous_authors : DataSetForm → list AuthorData;
  convert_publication_type : string → string;
  publication_type_value : string → string;
  is_synchronized : DSMetaDataRow → bool;
  db_accepts : Row → bool;
  archive_bytes : list (path * string) → string;
  default_commit : bool;
}.

(** ** The state-and-exception monad of the workflow *)

Record World := {
  db : Db;
  log : list LogEntry;
}.

Definition M (A : Type) : Type := World → result A * World.

Definition ret {A} (a : A) : M A := λ w, (Ok a, w).

Definition bind {A B} (m : M A) (k : A → M B) : M B :=
  λ w, match m w with
       | (Ok a, w') => k a w'
       | (Raise exc, w') => (Raise exc, w')
       end.

Definition raise {A} (exc : Exn) : M A := λ w, (Raise exc, w).

Definition lift {A} (r : result A) : M A := λ w, (r, w).

(** [try: body except Exception as exc: handler exc]. *)
Definition try_except {A} (body : M A) (handler : Exn → M A) : M A :=
  λ w, match body w with
       | (Ok a, w') => (Ok a, w')
       | (Raise exc, w') => handler exc w'
       end.

Notation "x <- m ;; k" := (bind m (λ x, k))
  (at level 100, m at next level, right associativity).
Notation "m ;; k" := (bind m (λ _, k))
  (at level 100, right associativity).

(** [for x in l: body x]. *)
Fixpoint for_each {A} (l : list A) (body : A → M unit) : M unit :=
  match l with
  | [] => ret tt
  | x :: l' => body x ;; for_each l' body
  end.

Definition logger_info (entry : LogEntry) : M unit :=
  λ w, (Ok tt, {| db := db w; log := log w ++ [entry] |}).

(** ** Tables *)

Record Table (R : Type) := {
  rows : Store → list R;
  set_rows : list R → Store → Store;
  row_id : R → nat;
  to_row : R → Row;
}.
Arguments rows {R} _ _.
Arguments set_rows {R} _ _ _.
Arguments row_id {R} _ _.
Arguments to_row {R} _ _.

Definition ds_meta_data_table : Table DSMetaDataRow :=
  {| rows := ds_meta_data_tbl;
     set_rows := λ l s,
       {| ds_meta_data_tbl := l; fm_meta_data_tbl := fm_meta_data_tbl s;
          author_tbl := author_tbl s; data_set_tbl := data_set_tbl s;
          feature_model_tbl := feature_model_tbl s; file_tbl := file_tbl s;
          ds_download_record_tbl := ds_download_record_tbl s;
          ds_view_record_tbl := ds_view_record_tbl s |};
     row_id := dsmd_id; to_row := RowDSMetaData |}.

Definition fm_meta_data_table : Table FMMetaDataRow :=
  {| rows := fm_meta_data_tbl;
     set_rows := λ l s,
       {| ds_meta_data_tbl := ds_meta_data_tbl s; fm_meta_data_tbl := l;
          author_tbl := author_tbl s; data_set_tbl := data_set_tbl s;
          feature_model_tbl := feature_model_tbl s; file_tbl := file_tbl s;
          ds_download_record_tbl := ds_download_record_tbl s;
          ds_view_record_tbl := ds_view_record_tbl s |};
     row_id := fmmd_id; to_row := RowFMMetaData |}.

Definition author_table : Table AuthorRow :=
  {| rows := author_tbl;
     set_rows := λ l s,
       {| ds_meta_data_tbl := ds_meta_data_tbl s;
          fm_meta_data_tbl := fm_meta_data_tbl s;
          author_tbl := l; data_set_tbl := data_set_tbl s;
          feature_model_tbl := feature_model_tbl s; file_tbl := file_tbl s;
          ds_download_record_tbl := ds_download_record_tbl s;
          ds_view_record_tbl := ds_view_record_tbl s |};
     row_id := author_id; to_row := RowAuthor |}.

Definition data_set_table : Table DataSetRow :=
  {| rows := data_set_tbl;
     set_rows := λ l s,
       {| ds_meta_data_tbl := ds_meta_data_tbl s;
          fm_meta_data_tbl := fm_meta_data_tbl s;
          author_tbl := author_tbl s; data_set_tbl := l;
          feature_model_tbl := feature_model_tbl s; file_tbl := file_tbl s;
          ds_download_record_tbl := ds_download_record_tbl s;
          ds_view_record_tbl := ds_view_record_tbl s |};
     row_id := ds_id; to_row := RowDataSet |}.

Definition feature_model_table : Table FeatureModelRow :=
  {| rows := feature_model_tbl;
     set_rows := λ l s,
       {| ds_meta_data_tbl := ds_meta_data_tbl s;
          fm_meta_data_tbl := fm_meta_data_tbl s;
          author_tbl := author_tbl s; data_set_tbl := data_set_tbl s;
          feature_model_tbl := l; file_tbl := file_tbl s;
          ds_download_record_tbl := ds_download_record_tbl s;
          ds_view_record_tbl := ds_view_record_tbl s |};
     row_id := fm_id; to_row := RowFeatureModel |}.

Definition file_table : Table HubfileRow :=
  {| rows := file_tbl;
     set_rows := λ l s,
       {| ds_meta_data_tbl := ds_meta_data_tbl s;
          fm_meta_data_tbl := fm_meta_data_tbl s;
          author_tbl := author_tbl s; data_set_tbl := data_set_tbl s;
          feature_model_tbl := feature_model_tbl s; file_tbl := l;
          ds_download_record_tbl := ds_download_record_tbl s;
          ds_view_record_tbl := ds_view_record_tbl s |};
     row_id := hf_id; to_row := RowHubfile |}.

Definition ds_download_record_table : Table TrackingRow :=
  {| rows := ds_download_record_tbl;
     set_rows := λ l s,
       {| ds_meta_data_tbl := ds_meta_data_tbl s;
          fm_meta_data_tbl := fm_meta_data_tbl s;
          author_tbl := author_tbl s; data_set_tbl := data_set_tbl s;
          feature_model_tbl := feature_model_tbl s; file_tbl := file_tbl s;
          ds_download_record_tbl := l;
          ds_view_record_tbl := ds_view_record_tbl s |};
     row_id := tr_id; to_row := RowDSDownloadRecord |}.

Definition ds_view_record_table : Table TrackingRow :=
  {| rows := ds_view_record_tbl;
     set_rows := λ l s,
       {| ds_meta_data_tbl := ds_meta_data_tbl s;
          fm_meta_data_tbl := fm_meta_data_tbl s;
          author_tbl := author_tbl s; data_set_tbl := data_set_tbl s;
          feature_model_tbl := feature_model_tbl s; file_tbl := file_tbl s;
          ds_download_record_tbl := ds_download_record_tbl s;
          ds_view_record_tbl := l |};
     row_id := tr_id; to_row := RowDSViewRecord |}.

(** ** The session *)

Definition commit (d : Db) : Db :=
  {| committed := session d; session := session d |}.

Definition rollback (d : Db) : Db :=
  {| committed := committed d; session := committed d |}.

Definition session_commit : M unit :=
  λ w, (Ok tt, {| db := commit (db w); log := log w |}).

Definition session_rollback : M unit :=
  λ w, (Ok tt, {| db := rollback (db w); log := log w |}).

(** A write to the working view; with [commit_flag] the session is committed
    right after it, otherwise the write stays pending (flushed only). *)
Definition write (commit_flag : bool) (s' : Store) (w : World) : World :=
  let d' := {| committed := committed (db w); session := s' |} in
  {| db := if commit_flag then commit d' else d'; log := log w |}.

(** The next value of a table's auto-increment key. *)
Definition next_id {R} (T : Table R) (s : Store) : nat :=
  S (max_list (row_id T <$> rows T s)).

Section Services.
Context `{Collaborators}.

(** ** Repositories *)

(** Modelled from the spec: [BaseRepository.create] ([core/repositories] is not
    part of the file).  "A single-row write with optional deferred-commit
    flag": the row gets the next key, the database checks it, it is added to
    the session, and the session is committed unless [commit=False] was
    passed. *)
Definition create {R} (T : Table R) (commit_flag : bool) (mk : nat → R) : M R :=
  λ w, let s := session (db w) in
       let r := mk (next_id T s) in
       if db_accepts (to_row T r)
       then (Ok r, write commit_flag (set_rows T (rows T s ++ [r]) s) w)
       else (Raise (IntegrityError (to_row T r)), w).

(** Modelled from the spec: [BaseRepository.get_by_id], a read returning zero
    or one row. *)
Definition get_by_id {R} (T : Table R) (id : nat) : M (option R) :=
  λ w, (Ok (List.find (λ r, Nat.eqb (row_id T r) id) (rows T (session (db w)))), w).

(** Modelled from the spec: [BaseRepository.update] on the dataset metadata
    table, a single-row write without a deferred-commit flag: the columns of
    the row with key [id] are overwritten in place and the row returned; no
    such row, no write and [None]. *)
Definition dsmetadata_update (id : nat) (fields : DSMetaDataFields)
  : M (option DSMetaDataRow) :=
  λ w, let s := session (db w) in
       match List.find (λ r, Nat.eqb (dsmd_id r) id) (ds_meta_data_tbl s) with
       | Some _ =>
           let r' := {| dsmd_id := id; dsmd_fields := fields |} in
           let tbl := (λ r, if Nat.eqb (dsmd_id r) id then r' else r) <$> ds_meta_data_tbl s in
           (Ok (Some r'), write default_commit (set_rows ds_meta_data_table tbl s) w)
       | None => (Ok None, w)
       end.

(** Modelled from the spec: [AuthorRepository.delete_by_column], which removes
    every author row whose column [column_name] holds [value]. *)
Definition author_delete_by_column (column_name : string) (value : nat) : M unit :=
  λ w, let s := session (db w) in
       let keep (col : AuthorRow → option nat) :=
         List.filter (λ a, negb (bool_decide (col a = Some value))) (author_tbl s) in
       if String.eqb column_name "ds_meta_data_id" then
         (Ok tt, write default_commit (set_rows author_table (keep author_ds_meta_data_id) s) w)
       else if String.eqb column_name "fm_meta_data_id" then
         (Ok tt, write default_commit (set_rows author_table (keep author_fm_meta_data_id) s) w)
       else if String.eqb column_name "id" then
         (Ok tt, write default_commit (set_rows author_table (keep (λ a, Some (author_id a))) s) w)
       else (Raise (AttributeError column_name), w).

(** ** Form accessors *)

Definition get_author (a : AuthorForm) : AuthorData :=
  {| ad_name := af_name a; ad_affiliation := af_affiliation a; ad_orcid := af_orcid a |}.

(** Modelled from the spec: [DataSetForm.get_dsmetadata] ([forms.py] is not
    part of the file), the dataset-level fields of the form as the keyword
    dictionary of a metadata row. *)
Definition get_dsmetadata (form : DataSetForm) : DSMetaDataFields :=
  {| dsf_title := form_title form;
     dsf_description := form_desc form;
     dsf_publication_type := convert_publication_type (form_publication_type form);
     dsf_publication_doi := form_publication_doi form;
     dsf_dataset_doi := form_dataset_doi form;
     dsf_tags := form_tags form;
     dsf_dataset_anonymous := form_dataset_anonymous form |}.

(** Modelled from the spec: [DataSetForm.get_authors], the explicit co-authors
    in submission order. *)
Definition get_authors (form : DataSetForm) : list AuthorData :=
  get_author <$> form_authors form.

(** Modelled from the spec: [FeatureModelForm.get_fmmetadata]. *)
Definition get_fmmetadata (fm : FeatureModelForm) : FMMetaDataFields :=
  {| fmf_uvl_filename := fmform_uvl_filename fm;
     fmf_title := fmform_title fm;
     fmf_description := fmform_desc fm;
     fmf_publication_type := convert_publication_type (fmform_publication_type fm);
     fmf_publication_doi := fmform_publication_doi fm;
     fmf_tags := fmform_tags fm;
     fmf_uvl_version := fmform_version fm |}.

(** Modelled from the spec: [FeatureModelForm.get_authors]. *)
Definition fm_get_authors (fm : FeatureModelForm) : list AuthorData :=
  get_author <$> fmform_authors fm.

(** ** Reading the file system *)

Definition child (n : node) (name : string) : option node :=
  match n with
  | Dir entries => snd <$> List.find (λ e, String.eqb (fst e) name) entries
  | File _ => None
  end.

Fixpoint lookup_node (n : node) (p : path) : option node :=
  match p with
  | [] => Some n
  | name :: p' =>
      match child n name with
      | Some n' => lookup_node n' p'
      | None => None
      end
  end.

Definition content_bytes (d : fdata) : string :=
  match d with
  | Raw bytes => bytes
  | Archive entries => archive_bytes entries
  end.

Definition calculate_checksum_and_size (fs : node) (file_path : path)
  : result (string * nat) :=
  match lookup_node fs file_path with
  | None => Raise (FileNotFoundError file_path)
  | Some (Dir _) => Raise (IsADirectoryError file_path)
  | Some (File d) =>
      let content := content_bytes d in
      Ok (md5_hexdigest content, String.length content)
  end.

(** ** DataSetService: the workflow *)

Definition main_author_of (current_user : User) : AuthorData :=
  {| ad_name := profile_surname (profile current_user) +:+ ", "
                +:+ profile_name (profile current_user);
     ad_affiliation := profile_affiliation (profile current_user);
     ad_orcid := profile_orcid (profile current_user) |}.

Definition new_author (ds_meta_data_id fm_meta_data_id : option nat)
    (author_data : AuthorData) (id : nat) : AuthorRow :=
  {| author_id := id;
     author_name := ad_name author_data;
     author_affiliation := ad_affiliation author_data;
     author_orcid := ad_orcid author_data;
     author_ds_meta_data_id := ds_meta_data_id;
     author_fm_meta_data_id := fm_meta_data_id |}.

(** The author list of a submission, as both workflow methods compute it. *)
Definition author_list_of (form : DataSetForm) (main_author : AuthorData)
  : list AuthorData :=
  let dsmetadata_info := get_dsmetadata form in
  let is_anonymous := dsf_dataset_anonymous dsmetadata_info in
  if is_anonymous then get_anonymous_authors form
  else
    let other_authors := get_authors form in
    match other_authors with
    | _ :: _ => other_authors
    | [] => [main_author]
    end.

(** The body of the loop over [form.feature_models]. *)
Definition create_feature_model (fs : node) (current_user : User)
    (dataset : DataSetRow) (feature_model : FeatureModelForm) : M unit :=
  let uvl_filename := fmform_uvl_filename feature_model in
  fmmetadata <- create fm_meta_data_table false
    (λ id, {| fmmd_id := id; fmmd_fields := get_fmmetadata feature_model |}) ;;
  for_each (fm_get_authors feature_model) (λ author_data,
    create author_table false
      (new_author None (Some (fmmd_id fmmetadata)) author_data) ;;
    ret tt) ;;
  fm <- create feature_model_table false
    (λ id, {| fm_id := id; fm_data_set_id := ds_id dataset;
              fm_fm_meta_data_id := fmmd_id fmmetadata |}) ;;
  let file_path := temp_folder current_user ++ [uvl_filename] in
  cs <- lift (calculate_checksum_and_size fs file_path) ;;
  create file_table false
    (λ id, {| hf_id := id; hf_name := uvl_filename; hf_checksum := cs.1;
              hf_size := cs.2; hf_feature_model_id := fm_id fm |}) ;;
  ret tt.

(** The [try] block of [create_from_form]. *)
Definition create_from_form_try (fs : node) (form : DataSetForm)
    (current_user : User) : M DataSetRow :=
  let main_author := main_author_of current_user in
  logger_info (LogCreating (get_dsmetadata form)) ;;
  dsmetadata <- create ds_meta_data_table default_commit
    (λ id, {| dsmd_id := id; dsmd_fields := get_dsmetadata form |}) ;;
  let author_list := author_list_of form main_author in
  for_each author_list (λ author_data,
    create author_table false
      (new_author (Some (dsmd_id dsmetadata)) None author_data) ;;
    ret tt) ;;
  dataset <- create data_set_table false
    (λ id, {| ds_id := id; ds_user_id := user_id current_user;
              ds_ds_meta_data_id := dsmd_id dsmetadata |}) ;;
  for_each (form_feature_models form)
    (create_feature_model fs current_user dataset) ;;
  session_commit ;;
  ret dataset.

Definition create_from_form (fs : node) (form : DataSetForm) (current_user : User)
  : M DataSetRow :=
  try_except
    (create_from_form_try fs form current_user)
    (λ exc,
       logger_info (LogCreateException exc) ;;
       session_rollback ;;
       raise exc).

(** [dsmetadata.id] where [dsmetadata] may be [None]. *)
Definition id_of (dsmetadata : option DSMetaDataRow) : M nat :=
  match dsmetadata with
  | Some r => ret (dsmd_id r)
  | None => raise (AttributeError "id")
  end.

(** The [try] block of [update_from_form]. *)
Definition update_from_form_try (form : DataSetForm) (current_user : User)
    (dataset : DataSet) : M unit :=
  let main_author := main_author_of current_user in
  let ds_meta_data_id := dsmd_id (dsmd_row (ds_meta_data dataset)) in
  logger_info (LogUpdating (get_dsmetadata form)) ;;
  dsmetadata <- dsmetadata_update ds_meta_data_id (get_dsmetadata form) ;;
  author_delete_by_column "ds_meta_data_id" ds_meta_data_id ;;
  let author_list := author_list_of form main_author in
  for_each author_list (λ author_data,
    md_id <- id_of dsmetadata ;;
    create author_table false (new_author (Some md_id) None author_data) ;;
    ret tt) ;;
  session_commit.

Definition update_from_form (form : DataSetForm) (current_user : User)
    (dataset : DataSet) : M (option DataSetRow) :=
  try_except
    (update_from_form_try form current_user dataset)
    (λ exc,
       logger_info (LogUpdateException exc) ;;
       session_rollback ;;
       raise exc) ;;
  get_by_id data_set_table (ds_id (ds_row dataset)).

(** ** Following relationships

    Modelled from the spec: the relationships of the ORM models ([models.py] is
    not part of the file).  A dataset owns one metadata row, the metadata row
    an ordered collection of authors, the dataset an ordered collection of
    feature models, each with its metadata, authors and files; children come
    in insertion order. *)

Definition load_ds_meta_data (s : Store) (id : nat) : option DSMetaData :=
  r ← List.find (λ r, Nat.eqb (dsmd_id r) id) (ds_meta_data_tbl s);
  Some {| dsmd_row := r;
          dsmd_authors :=
            List.filter (λ a, bool_decide (author_ds_meta_data_id a = Some id))
                        (author_tbl s) |}.

Definition load_fm_meta_data (s : Store) (id : nat) : option FMMetaData :=
  r ← List.find (λ r, Nat.eqb (fmmd_id r) id) (fm_meta_data_tbl s);
  Some {| fmmd_row := r;
          fmmd_authors :=
            List.filter (λ a, bool_decide (author_fm_meta_data_id a = Some id))
                        (author_tbl s) |}.

Definition load_feature_model (s : Store) (r : FeatureModelRow) : option FeatureModel :=
  md ← load_fm_meta_data s (fm_fm_meta_data_id r);
  Some {| fm_row := r;
          fm_meta_data := md;
          fm_files :=
            List.filter (λ f, Nat.eqb (hf_feature_model_id f) (fm_id r)) (file_tbl s) |}.

Definition load_dataset (s : Store) (r : DataSetRow) : option DataSet :=
  md ← load_ds_meta_data s (ds_ds_meta_data_id r);
  fms ← mapM (load_feature_model s)
         (List.filter (λ fm, Nat.eqb (fm_data_set_id fm) (ds_id r))
                      (feature_model_tbl s));
  Some {| ds_row := r; ds_meta_data := md; feature_models := fms |}.

(** ** DataSetService: the form mapper *)





(** ** DataSetService: the DOI link *)

Definition getenv (environ : gmap string string) (key default : string) : string :=
  match environ !! key with
  | Some v => v
  | None => default
  end.

Definition get_uvlhub_doi (environ : gmap string string) (dataset : DataSet) : string :=
  let domain := getenv environ "DOMAIN" "localhost" in
  "http://" +:+ domain +:+ "/doi/"
  +:+ dsf_dataset_doi (dsmd_fields (dsmd_row (ds_meta_data dataset))).

(** ** The trackers *)

(** Modelled from the spec: [the_record_exists] of the record repositories,
    "true if a TrackingRecord already exists for that (dataset, token) pair". *)
Definition the_record_exists (T : Table TrackingRow) (dataset : DataSet)
    (user_cookie : string) : M (option TrackingRow) :=
  λ w, (Ok (List.find
              (λ r, Nat.eqb (tr_dataset_id r) (ds_id (ds_row dataset))
                    && String.eqb (tr_cookie r) user_cookie)
              (rows T (session (db w)))), w).

(** Modelled from the spec: [create_new_record] of the record repositories,
    which "inserts a new record" for the dataset and the token, stamped with
    the current time. *)
Definition create_new_record (T : Table TrackingRow) (now : nat) (dataset : DataSet)
    (user_cookie : string) : M TrackingRow :=
  create T default_commit
    (λ id, {| tr_id := id; tr_dataset_id := ds_id (ds_row dataset);
              tr_date := now; tr_cookie := user_cookie |}).

(** The body shared by the two [create_cookie] methods.  [cookies] is
    [request.cookies]; [uuid4] is the string that [str(uuid.uuid4())] yields if
    it is evaluated in this call. *)
Definition create_cookie_on (T : Table TrackingRow) (cookie_name : string)
    (cookies : gmap string string) (uuid4 : string) (now : nat)
    (dataset : DataSet) : M string :=
  let user_cookie := cookies !! cookie_name in
  let user_cookie :=
    match user_cookie with
    | Some (String c rest) => String c rest
    | Some EmptyString | None => uuid4
    end in
  existing_record <- the_record_exists T dataset user_cookie ;;
  match existing_record with
  | None => create_new_record T now dataset user_cookie ;; ret tt
  | Some _ => ret tt
  end ;;
  ret user_cookie.

(** The record [r] is one of [dataset] and [token]. *)
Definition tracks (dataset : DataSet) (token : string) (r : TrackingRow) : bool :=
  Nat.eqb (tr_dataset_id r) (ds_id (ds_row dataset)) && String.eqb (tr_cookie r) token.

Definition DSDownloadRecordService_create_cookie :=
  create_cookie_on ds_download_record_table "download_cookie".

Definition DSViewRecordService_create_cookie :=
  create_cookie_on ds_view_record_table "view_cookie".

Inductive TrackerKind := DownloadTracker | ViewTracker.

Definition tracker_table (k : TrackerKind) : Table TrackingRow :=
  match k with
  | DownloadTracker => ds_download_record_table
  | ViewTracker => ds_view_record_table
  end.

Definition tracker_cookie_name (k : TrackerKind) : string :=
  match k with
  | DownloadTracker => "download_cookie"
  | ViewTracker => "view_cookie"
  end.

Definition create_cookie (k : TrackerKind) :=
  match k with
  | DownloadTracker => DSDownloadRecordService_create_cookie
  | ViewTracker => DSViewRecordService_create_cookie
  end.

(** The records of one dataset in a tracker's table. *)
Definition records_of (k : TrackerKind) (dataset : DataSet) (w : World)
  : list TrackingRow :=
  List.filter (λ r, Nat.eqb (tr_dataset_id r) (ds_id (ds_row dataset)))
              (rows (tracker_table k) (session (db w))).

(** ** DataSetService: the statistics *)

Inductive Repository :=
| DataSetRepository
| FeatureModelRepository
| AuthorRepository
| DSMetaDataRepository
| FMMetaDataRepository
| DSDownloadRecordRepository
| HubfileDownloadRecordRepository
| HubfileRepository
| DSViewRecordRepository
| HubfileViewRecordRepository.

(** A service object: its instance attributes by name. *)
Definition setattr (self : gmap string Repository) (name : string) (v : Repository)
  : gmap string Repository := <[name := v]> self.

Definition getattr (self : gmap string Repository) (name : string)
  : result Repository :=
  match self !! name with
  | Some v => Ok v
  | None => Raise (AttributeError name)
  end.

(** Modelled from the spec: [BaseService.__init__] ([core/services] is not part
    of the file) keeps the repository it is given as [self.repository]. *)
Definition BaseService_init (repository : Repository) : gmap string Repository :=
  setattr ∅ "repository" repository.

Definition DataSetService_init : gmap string Repository :=
  let self := BaseService_init DataSetRepository in
  let self := setattr self "feature_model_repository" FeatureModelRepository in
  let self := setattr self "author_repository" AuthorRepository in
  let self := setattr self "dsmetadata_repository" DSMetaDataRepository in
  let self := setattr self "fmmetadata_repository" FMMetaDataRepository in
  let self := setattr self "dsdownloadrecord_repository" DSDownloadRecordRepository in
  let self := setattr self "hubfiledownloadrecord_repository" HubfileDownloadRecordRepository in
  let self := setattr self "hubfilerepository" HubfileRepository in
  let self := setattr self "dsviewrecord_repostory" DSViewRecordRepository in
  setattr self "hubfileviewrecord_repository" HubfileViewRecordRepository.

Inductive Method :=
| count_m
| count_synchronized_datasets_m
| count_feature_models_m
| total_dataset_downloads_m
| total_dataset_views_m.

Definition method_name (m : Method) : string :=
  match m with
  | count_m => "count"
  | count_synchronized_datasets_m => "count_synchronized_datasets"
  | count_feature_models_m => "count_feature_models"
  | total_dataset_downloads_m => "total_dataset_downloads"
  | total_dataset_views_m => "total_dataset_views"
  end.

(** Modelled from the spec: the aggregate queries of the repositories, "count
    of fully-synchronized datasets, count of feature models, count of authors,
    count of metadata rows, total download-record count, total view-record
    count".  A repository without the method raises [AttributeError]; the
    record tables of the hubfile module are not part of the store and nothing
    in the file counts them. *)
Definition call (r : Repository) (m : Method) (s : Store) : result nat :=
  match r, m with
  | DataSetRepository, count_m => Ok (length (data_set_tbl s))
  | DataSetRepository, count_synchronized_datasets_m =>
      Ok (length (List.filter
                    (λ d, match List.find (λ r, Nat.eqb (dsmd_id r) (ds_ds_meta_data_id d))
                                          (ds_meta_data_tbl s) with
                          | Some md => is_synchronized md
                          | None => false
                          end)
                    (data_set_tbl s)))
  | FeatureModelRepository, count_m => Ok (length (feature_model_tbl s))
  | FeatureModelRepository, count_feature_models_m => Ok (length (feature_model_tbl s))
  | AuthorRepository, count_m => Ok (length (author_tbl s))
  | DSMetaDataRepository, count_m => Ok (length (ds_meta_data_tbl s))
  | FMMetaDataRepository, count_m => Ok (length (fm_meta_data_tbl s))
  | HubfileRepository, count_m => Ok (length (file_tbl s))
  | DSDownloadRecordRepository, count_m => Ok (length (ds_download_record_tbl s))
  | DSDownloadRecordRepository, total_dataset_downloads_m =>
      Ok (length (ds_download_record_tbl s))
  | DSViewRecordRepository, count_m => Ok (length (ds_view_record_tbl s))
  | DSViewRecordRepository, total_dataset_views_m =>
      Ok (length (ds_view_record_tbl s))
  | _, _ => Raise (AttributeError (method_name m))
  end.

(** [self.<attr>.<method>()], read against the session's view. *)
Definition call_on (self : gmap string Repository) (attr : string) (m : Method)
    (w : World) : result nat * World :=
  match getattr self attr with
  | Ok r => (call r m (session (db w)), w)
  | Raise exc => (Raise exc, w)
  end.

Definition count_synchronized_datasets (self : gmap string Repository) : M nat :=
  call_on self "repository" count_synchronized_datasets_m.

Definition count_feature_models (self : gmap string Repository) : M nat :=
  call_on self "feature_model_service" count_feature_models_m.

Definition count_authors (self : gmap string Repository) : M nat :=
  call_on self "author_repository" count_m.

Definition count_dsmetadata (self : gmap string Repository) : M nat :=
  call_on self "dsmetadata_repository" count_m.

Definition total_dataset_downloads (self : gmap string Repository) : M nat :=
  call_on self "dsdownloadrecord_repository" total_dataset_downloads_m.

Definition total_dataset_views (self : gmap string Repository) : M nat :=
  call_on self "dsviewrecord_repostory" total_dataset_views_m.

(** ** DataSetService: the archive exporter

    Paths are lists of components: [os.path.join] appends components,
    [os.path.basename] is the last one, a relative path is read from the
    working directory [cwd]. *)

Definition is_dir (n : node) : bool :=
  match n with
  | Dir _ => true
  | File _ => false
  end.

Definition put_child (n : node) (name : string) (c : node) : option node :=
  match n with
  | Dir entries =>
      Some (Dir (if existsb (λ e, String.eqb (fst e) name) entries
                 then (λ e, if String.eqb (fst e) name then (name, c) else e) <$> entries
                 else entries ++ [(name, c)]))
  | File _ => None
  end.

(** Create or replace the node at [p]; the parent has to be a directory. *)
Fixpoint put_node (n : node) (p : path) (c : node) : option node :=
  match p with
  | [] => Some c
  | name :: p' =>
      match p' with
      | [] => put_child n name c
      | _ :: _ =>
          match child n name with
          | Some n' =>
              match put_node n' p' c with
              | Some n'' => put_child n name n''
              | None => None
              end
          | None => None
          end
      end
  end.

(** [tempfile.mkdtemp()]: the candidate names are tried in turn until one is
    free in the temporary area [tmpdir]; [names] is the random sequence of
    candidates of this call. *)
Fixpoint mkdtemp (tmpdir : path) (names : list string) (fs : node)
  : result path * node :=
  match names with
  | [] => (Raise (FileExistsError tmpdir), fs)
  | name :: names' =>
      match lookup_node fs tmpdir with
      | Some (Dir entries) =>
          match child (Dir entries) name with
          | Some _ => mkdtemp tmpdir names' fs
          | None =>
              match put_node fs (tmpdir ++ [name]) (Dir []) with
              | Some fs' => (Ok (tmpdir ++ [name]), fs')
              | None => (Raise (FileNotFoundError tmpdir), fs)
              end
          end
      | Some (File _) => (Raise (NotADirectoryError tmpdir), fs)
      | None => (Raise (FileNotFoundError tmpdir), fs)
      end
  end.

Definition dirnames (entries : list (string * node)) : list string :=
  fst <$> List.filter (λ e, is_dir (snd e)) entries.

Definition filenames (entries : list (string * node)) : list string :=
  fst <$> List.filter (λ e, negb (is_dir (snd e))) entries.

(** [os.walk(top)], top-down, from the node found at [top]: one triple
    [(dirpath, dirnames, filenames)] per directory; what is not a directory
    yields nothing. *)
Fixpoint walk_node (top : path) (n : node) {struct n}
  : list (path * list string * list string) :=
  match n with
  | File _ => []
  | Dir entries =>
      (top, dirnames entries, filenames entries) ::
      (fix walk_entries (es : list (string * node)) :=
         match es with
         | [] => []
         | e :: es' => walk_node (top ++ [fst e]) (snd e) ++ walk_entries es'
         end) entries
  end.

Definition os_walk (fs : node) (cwd top : path)
  : list (path * list string * list string) :=
  match lookup_node fs (cwd ++ top) with
  | Some n => walk_node top n
  | None => []
  end.

Fixpoint common_prefix (l1 l2 : path) : path :=
  match l1, l2 with
  | x :: l1', y :: l2' => if String.eqb x y then x :: common_prefix l1' l2' else []
  | _, _ => []
  end.

(** [os.path.relpath(p, start)]. *)
Definition relpath (cwd p start : path) : path :=
  let start_list := cwd ++ start in
  let path_list := cwd ++ p in
  let i := length (common_prefix start_list path_list) in
  let rel_list := replicate (length start_list - i) ".." ++ drop i path_list in
  match rel_list with
  | [] => ["."]
  | _ :: _ => rel_list
  end.

Definition basename (p : path) : string := List.last p "".

(** [p[:-n]] on the string of a path whose last component has more than [n]
    characters: they are cut from that component. *)
Definition drop_end (n : nat) (p : path) : path :=
  match p with
  | [] => []
  | _ :: _ =>
      let s := List.last p "" in
      removelast p ++ [String.substring 0 (String.length s - n) s]
  end.

(** [zipf.write(full_path, arcname=...)]: the entry that is added. *)
Definition zip_write (fs : node) (cwd full_path arcname : path)
  : result (path * string) :=
  match lookup_node fs (cwd ++ full_path) with
  | Some (File d) => Ok (arcname, content_bytes d)
  | Some (Dir _) => Ok (arcname ++ [""], "")
  | None => Raise (FileNotFoundError full_path)
  end.

Definition result_bind {A B} (r : result A) (k : A → result B) : result B :=
  match r with
  | Ok a => k a
  | Raise exc => Raise exc
  end.

(** A loop whose body adds entries to the archive or raises. *)
Fixpoint collect {A B} (l : list A) (body : A → result (list B)) : result (list B) :=
  match l with
  | [] => Ok []
  | x :: l' =>
      result_bind (body x) (λ ys,
      result_bind (collect l' body) (λ yss, Ok (ys ++ yss)))
  end.

Definition upload_dir (dataset : DataSet) : path :=
  ["uploads";
   "user_" +:+ pretty (ds_user_id (ds_row dataset));
   "dataset_" +:+ pretty (ds_id (ds_row dataset))].

Definition zip_name (dataset : DataSet) : string :=
  "dataset_" +:+ pretty (ds_id (ds_row dataset)) +:+ ".zip".

Definition zip_dataset (cwd tmpdir : path) (names : list string)
    (dataset : DataSet) (fs : node) : result path * node :=
  let file_path := upload_dir dataset in
  match mkdtemp tmpdir names fs with
  | (Raise exc, fs1) => (Raise exc, fs1)
  | (Ok temp_dir, fs1) =>
      let zip_path := temp_dir ++ [zip_name dataset] in
      match put_node fs1 zip_path (File (Archive [])) with
      | None => (Raise (FileNotFoundError zip_path), fs1)
      | Some fs2 =>
          let written :=
            collect (os_walk fs2 cwd file_path) (λ '(subdir, dirs, files),
              collect files (λ file,
                let full_path := subdir ++ [file] in
                let relative_path := relpath cwd full_path file_path in
                result_bind
                  (zip_write fs2 cwd full_path
                     ([basename (drop_end 4 zip_path)] ++ relative_path))
                  (λ entry, Ok [entry]))) in
          match written with
          | Ok entries =>
              match put_node fs2 zip_path (File (Archive entries)) with
              | Some fs3 => (Ok temp_dir, fs3)
              | None => (Raise (FileNotFoundError zip_path), fs2)
              end
          | Raise exc => (Raise exc, fs2)
          end
      end
  end.

(** ** DataSetService: filing the uploads

    [move_feature_models] makes the upload directory of the dataset and moves
    the staged file of every feature model into it.  A path string is read by
    its components: it is cut at the separators, empty components and [.] are
    dropped, and a string that does not start with a separator is read from
    the working directory; [..] and links are not interpreted. *)

Fixpoint split_sep (s cur : string) : list string :=
  match s with
  | EmptyString => [cur]
  | String c s' =>
      if String.eqb (String c EmptyString) "/" then cur :: split_sep s' ""
      else split_sep s' (cur +:+ String c EmptyString)
  end.

Definition components (s : string) : path :=
  List.filter (λ c, negb (String.eqb c "") && negb (String.eqb c "."))
    (split_sep s "").

Definition isabs (s : string) : bool :=
  match s with
  | String c _ => String.eqb (String c EmptyString) "/"
  | EmptyString => false
  end.

(** Where the relative names of a path string are read from. *)
Definition start_of (cwd : path) (s : string) : path :=
  if isabs s then [] else cwd.

(** The error of a path that does not resolve: a file on the way, or a name
    that is not there. *)
Fixpoint path_error (n : node) (p full : path) : Exn :=
  match p with
  | [] => FileNotFoundError full
  | name :: p' =>
      match n with
      | File _ => NotADirectoryError full
      | Dir _ =>
          match child n name with
          | Some n' => path_error n' p' full
          | None => FileNotFoundError full
          end
      end
  end.

(** [os.mkdir(p)]. *)
Definition mkdir (p : path) (fs : node) : result unit * node :=
  match lookup_node fs p with
  | Some _ => (Raise (FileExistsError p), fs)
  | None =>
      match put_node fs p (Dir []) with
      | Some fs' => (Ok tt, fs')
      | None => (Raise (path_error fs p p), fs)
      end
  end.

(** [os.makedirs(start/rest, exist_ok=True)], the names of [rest] taken in
    turn below [start]: a directory that is there is entered, a name that is
    not there is made, a file in the way is an error. *)
Fixpoint makedirs (start rest : path) (fs : node) : result unit * node :=
  match rest with
  | [] => (Ok tt, fs)
  | name :: rest' =>
      let here := start ++ [name] in
      match lookup_node fs here with
      | Some (Dir _) => makedirs here rest' fs
      | Some (File _) =>
          match rest' with
          | [] => (Raise (FileExistsError here), fs)
          | next :: _ => (Raise (NotADirectoryError (here ++ [next])), fs)
          end
      | None =>
          match mkdir here fs with
          | (Ok _, fs1) => makedirs here rest' fs1
          | (Raise exc, fs1) => (Raise exc, fs1)
          end
      end
  end.

Definition remove_child (n : node) (name : string) : node :=
  match n with
  | Dir entries => Dir (List.filter (λ e, negb (String.eqb (fst e) name)) entries)
  | File d => File d
  end.

(** Take the node at [p] out of the tree. *)
Fixpoint remove_node (n : node) (p : path) : node :=
  match p with
  | [] => n
  | name :: p' =>
      match p' with
      | [] => remove_child n name
      | _ :: _ =>
          match child n name with
          | Some n' =>
              match put_child n name (remove_node n' p') with
              | Some n'' => n''
              | None => n
              end
          | None => n
          end
      end
  end.

(** The two messages of [shutil.Error] that a move can end with. *)
Inductive ShutilError :=
| DestinationExists (real_dst : path)
| MoveIntoItself (src dst : path).

Inductive outcome :=
| Returned
| Raised (exc : Exn)
| RaisedShutil (err : ShutilError).

(** [shutil.move(src, dst)] for [dst] an existing directory, which is how
    [move_feature_models] calls it once [os.makedirs] has returned, on one
    file system: moving a directory onto itself does nothing, a taken name in
    [dst] and a directory moved below itself are errors of [shutil], a
    missing [src] is the error of the copy that is tried after the failed
    rename; otherwise the node is renamed to [dst/basename(src)]. *)
Definition shutil_move (src dst : path) (fs : node) : outcome * node :=
  if bool_decide (src = dst) then (Returned, fs)
  else
    let real_dst := dst ++ [basename src] in
    match lookup_node fs real_dst with
    | Some _ => (RaisedShutil (DestinationExists real_dst), fs)
    | None =>
        match lookup_node fs src with
        | None => (Raised (path_error fs src src), fs)
        | Some n =>
            if bool_decide (src `prefix_of` dst)
            then (RaisedShutil (MoveIntoItself src dst), fs)
            else
              match put_node (remove_node fs src) real_dst n with
              | Some fs' => (Returned, fs')
              | None => (Raised (FileNotFoundError real_dst), fs)
              end
        end
    end.

(** A loop whose body works on the file system and may raise. *)
Fixpoint move_each {A} (l : list A) (body : A → node → outcome * node) (fs : node)
  : outcome * node :=
  match l with
  | [] => (Returned, fs)
  | x :: l' =>
      match body x fs with
      | (Returned, fs1) => move_each l' body fs1
      | (o, fs1) => (o, fs1)
      end
  end.

Definition uvl_filename_of (feature_model : FeatureModel) : string :=
  fmf_uvl_filename (fmmd_fields (fmmd_row (fm_meta_data feature_model))).

(** The names of [dest_dir] below the place where [working_dir] is read
    from. *)
Definition dest_names (working_dir : string) (current_user : User)
    (dataset : DataSet) : path :=
  components working_dir
  ++ ["uploads";
      "user_" +:+ pretty (user_id current_user);
      "dataset_" +:+ pretty (ds_id (ds_row dataset))].

(** Modelled from the spec: [get_authenticated_user] of the authentication
    service ([auth/services.py] is not part of the file), the "current-user
    provider": the user of the session, [None] when nobody is logged in. *)
Definition get_authenticated_user (session_user : option User) : option User :=
  session_user.

(** [move_feature_models]; [current_user.temp_folder()] on [None] is an
    [AttributeError]. *)
Definition move_feature_models (environ : gmap string string) (cwd : path)
    (session_user : option User) (dataset : DataSet) (fs : node)
  : outcome * node :=
  match get_authenticated_user session_user with
  | None => (Raised (AttributeError "temp_folder"), fs)
  | Some current_user =>
      let source_dir := temp_folder current_user in
      let working_dir := getenv environ "WORKING_DIR" "" in
      let start := start_of cwd working_dir in
      let names := dest_names working_dir current_user dataset in
      let dest_dir := start ++ names in
      match makedirs start names fs with
      | (Raise exc, fs1) => (Raised exc, fs1)
      | (Ok _, fs1) =>
          move_each (feature_models dataset) (λ feature_model,
            let uvl_filename := uvl_filename_of feature_model in
            shutil_move (source_dir ++ [uvl_filename]) dest_dir) fs1
      end
  end.

End Services.

(** * Vocabulary of the properties *)

(** Every run of [m] leaves the committed view and the log as they were. *)
Definition keeps_committed {A} (m : M A) : Prop :=
  ∀ w r w', m w = (r, w') →
    committed (db w') = committed (db w) ∧ log w' = log w.

(** The same, asked only of the runs of [m] that raise. *)
Definition raises_clean {A} (m : M A) : Prop :=
  ∀ w exc w', m w = (Raise exc, w') →
    committed (db w') = committed (db w) ∧ log w' = log w.

(** The metadata row that [create_from_form] inserts first. *)
Definition new_dsmetadata `{Collaborators} (form : DataSetForm) (w : World) : DSMetaDataRow :=
  {| dsmd_id := next_id ds_meta_data_table (session (db w));
     dsmd_fields := get_dsmetadata form |}.

(** Collaborators to run the services on examples: every write is accepted,
    the hash is the identity, the staging folder is [uploads/temp/<user id>]. *)
Definition example_collaborators (commit_by_default : bool) : Collaborators :=
  {| md5_hexdigest := λ content, content;
     temp_folder := λ u, ["uploads"; "temp"; pretty (user_id u)];
     get_anonymous_authors := λ _,
       [{| ad_name := "Anonymous"; ad_affiliation := ""; ad_orcid := "" |}];
     convert_publication_type := λ v, v;
     publication_type_value := λ v, v;
     is_synchronized := λ md, negb (String.eqb (dsf_dataset_doi (dsmd_fields md)) "");
     db_accepts := λ _, true;
     archive_bytes := λ _, "";
     default_commit := commit_by_default |}.

Definition example_user : User :=
  {| user_id := 7;
     profile := {| profile_name := "Ada"; profile_surname := "Lovelace";
                   profile_affiliation := "Analytical Engines";
                   profile_orcid := "0000-0001-2345-6789" |} |}.

Definition example_feature_model : FeatureModelForm :=
  {| fmform_uvl_filename := "model.uvl"; fmform_title := "Model";
     fmform_desc := "A feature model"; fmform_publication_type := "none";
     fmform_publication_doi := ""; fmform_tags := "uvl"; fmform_version := "1.0";
     fmform_authors :=
       [{| af_name := "Babbage, Charles"; af_affiliation := "Cambridge";
           af_orcid := "" |}] |}.

(** A submission without explicit co-authors. *)
Definition example_form : DataSetForm :=
  {| form_title := "Dataset"; form_desc := "A dataset";
     form_publication_type := "none"; form_publication_doi := "";
     form_dataset_doi := ""; form_tags := "uvl";
     form_dataset_anonymous := false; form_authors := [];
     form_feature_models := [example_feature_model] |}.

Definition empty_world : World :=
  {| db := {| committed := empty_store; session := empty_store |}; log := [] |}.

Definition author_data_of (r : AuthorRow) : AuthorData :=
  {| ad_name := author_name r; ad_affiliation := author_affiliation r;
     ad_orcid := author_orcid r |}.

(** [r] is the row of [author_data] under the given owners. *)
Definition author_row_of (ds_fk fm_fk : option nat) (author_data : AuthorData)
    (r : AuthorRow) : Prop :=
  author_data_of r = author_data
  ∧ author_ds_meta_data_id r = ds_fk
  ∧ author_fm_meta_data_id r = fm_fk.

(** Authors and files point below the next keys of the feature-model tables. *)
Definition fm_fk_bounded (s : Store) : Prop :=
  (∀ a i, In a (author_tbl s) → author_fm_meta_data_id a = Some i →
          i < next_id fm_meta_data_table s)
  ∧ (∀ f, In f (file_tbl s) → hf_feature_model_id f < next_id feature_model_table s).

(** The loaded feature model [obj] carries what the form entry [f] submitted. *)
Definition fm_matches `{Collaborators} (f : FeatureModelForm) (obj : FeatureModel) : Prop :=
  fmmd_fields (fmmd_row (fm_meta_data obj)) = get_fmmetadata f
  ∧ author_data_of <$> fmmd_authors (fm_meta_data obj) = fm_get_authors f
  ∧ hf_name <$> fm_files obj = [fmform_uvl_filename f].

(** What the loop over the feature models of a form has done to the session
    when it ends without an exception. *)
Record fm_loop_post `{Collaborators} (dsid : nat) (fms : list FeatureModelForm)
    (s s' : Store) : Prop := {
  flp_ds_meta : ds_meta_data_tbl s' = ds_meta_data_tbl s;
  flp_data_set : data_set_tbl s' = data_set_tbl s;
  flp_download : ds_download_record_tbl s' = ds_download_record_tbl s;
  flp_view : ds_view_record_tbl s' = ds_view_record_tbl s;
  flp_fm_meta : ∃ new, fm_meta_data_tbl s' = fm_meta_data_tbl s ++ new;
  flp_authors :
    ∃ new, author_tbl s' = author_tbl s ++ new
           ∧ Forall (λ a, author_ds_meta_data_id a = None
                          ∧ ∃ i, author_fm_meta_data_id a = Some i
                                 ∧ next_id fm_meta_data_table s ≤ i) new;
  flp_files :
    ∃ new, file_tbl s' = file_tbl s ++ new
           ∧ Forall (λ f, next_id feature_model_table s ≤ hf_feature_model_id f) new;
  flp_fms :
    ∃ new objs, feature_model_tbl s' = feature_model_tbl s ++ new
                ∧ Forall (λ r, fm_data_set_id r = dsid) new
                ∧ mapM (load_feature_model s') new = Some objs
                ∧ Forall2 fm_matches fms objs;
  flp_bounded : fm_fk_bounded s';
}.

(** Authors and feature models point below the next keys of the dataset
    tables. *)
Definition ds_fk_bounded (s : Store) : Prop :=
  (∀ a i, In a (author_tbl s) → author_ds_meta_data_id a = Some i →
          i < next_id ds_meta_data_table s)
  ∧ (∀ fm, In fm (feature_model_tbl s) → fm_data_set_id fm < next_id data_set_table s).

(** Every foreign key of the store names an existing row. *)
Definition referential_integrity (s : Store) : Prop :=
  (∀ a i, In a (author_tbl s) → author_ds_meta_data_id a = Some i →
          ∃ md, In md (ds_meta_data_tbl s) ∧ dsmd_id md = i)
  ∧ (∀ a i, In a (author_tbl s) → author_fm_meta_data_id a = Some i →
            ∃ md, In md (fm_meta_data_tbl s) ∧ fmmd_id md = i)
  ∧ (∀ fm, In fm (feature_model_tbl s) →
           ∃ d, In d (data_set_tbl s) ∧ ds_id d = fm_data_set_id fm)
  ∧ (∀ f, In f (file_tbl s) →
          ∃ fm, In fm (feature_model_tbl s) ∧ fm_id fm = hf_feature_model_id f).

(** The author rows attached to the dataset metadata with key [id]. *)
Definition persisted_authors (s : Store) (id : nat) : list AuthorRow :=
  List.filter (λ a, bool_decide (author_ds_meta_data_id a = Some id)) (author_tbl s).

(** An author row that belongs to a feature model does not belong to a
    dataset as well. *)
Definition exclusive_owner (s : Store) : Prop :=
  ∀ a, In a (author_tbl s) → is_Some (author_fm_meta_data_id a) →
       author_ds_meta_data_id a = None.

Definition other_owner (id : nat) (a : AuthorRow) : bool :=
  negb (bool_decide (author_ds_meta_data_id a = Some id)).

(** [s'] differs from [s] at most in the metadata row with key [id] and in the
    authors attached to it. *)
Definition frame (id : nat) (s s' : Store) : Prop :=
  feature_model_tbl s' = feature_model_tbl s
  ∧ fm_meta_data_tbl s' = fm_meta_data_tbl s
  ∧ file_tbl s' = file_tbl s
  ∧ data_set_tbl s' = data_set_tbl s
  ∧ ds_download_record_tbl s' = ds_download_record_tbl s
  ∧ ds_view_record_tbl s' = ds_view_record_tbl s
  ∧ List.filter (other_owner id) (author_tbl s') = List.filter (other_owner id) (author_tbl s)
  ∧ List.filter (λ r, negb (Nat.eqb (dsmd_id r) id)) (ds_meta_data_tbl s')
    = List.filter (λ r, negb (Nat.eqb (dsmd_id r) id)) (ds_meta_data_tbl s)
  ∧ (∀ a, In a (author_tbl s') →
          In a (author_tbl s) ∨ author_fm_meta_data_id a = None).

Definition framed (id : nat) (s0 : Store) (w : World) : Prop :=
  frame id s0 (session (db w)) ∧ frame id s0 (committed (db w)).

Definition keeps_frame {A} (id : nat) (m : M A) : Prop :=
  ∀ s0 w r w', m w = (r, w') → framed id s0 w → framed id s0 w'.

(** [persisted] is the author list that a successful [create_from_form] or
    [update_from_form] of [form] by [current_user] has left attached to the
    dataset's metadata. *)
Definition persisted_by `{Collaborators} (form : DataSetForm) (current_user : User)
    (persisted : list AuthorData) : Prop :=
  (∃ fs w dataset w' agg,
      referential_integrity (session (db w))
      ∧ create_from_form fs form current_user w = (Ok dataset, w')
      ∧ load_dataset (session (db w')) dataset = Some agg
      ∧ persisted = author_data_of <$> dsmd_authors (ds_meta_data agg))
  ∨ (∃ dataset w r w',
        update_from_form form current_user dataset w = (Ok r, w')
        ∧ persisted
          = author_data_of
              <$> persisted_authors (session (db w'))
                    (dsmd_id (dsmd_row (ds_meta_data dataset)))).

Definition example_fs : node :=
  Dir [("uploads",
        Dir [("temp",
              Dir [("7", Dir [("model.uvl", File (Raw "features A"))])])])].





(** The paths part ways at some component: neither lies under the other. *)
Definition diverge (p q : path) : Prop :=
  ∃ common a b p' q', p = common ++ a :: p' ∧ q = common ++ b :: q' ∧ a ≠ b.


(** The world after the example submission has been created. *)
Definition example_world : World := Eval vm_compute in
    snd (@create_from_form (example_collaborators true) example_fs example_form
           example_user empty_world).

(** The dataset of the example submission, as loaded after its creation. *)
Definition example_dataset : DataSet := Eval vm_compute in
    {| ds_row := {| ds_id := 1; ds_user_id := 7; ds_ds_meta_data_id := 1 |};
       ds_meta_data :=
         {| dsmd_row :=
              {| dsmd_id := 1;
                 dsmd_fields := @get_dsmetadata (example_collaborators true) example_form |};
            dsmd_authors := persisted_authors (session (db example_world)) 1 |};
       feature_models := [] |}.

(** A second submission for the same dataset, with two explicit co-authors. *)
Definition example_update_form : DataSetForm :=
  {| form_title := "Dataset, revised"; form_desc := "A dataset";
     form_publication_type := "none"; form_publication_doi := "";
     form_dataset_doi := "10.1234/example"; form_tags := "uvl";
     form_dataset_anonymous := false;
     form_authors :=
       [{| af_name := "Hopper, Grace"; af_affiliation := "Yale"; af_orcid := "" |};
        {| af_name := "Turing, Alan"; af_affiliation := "Manchester"; af_orcid := "" |}];
     form_feature_models := [] |}.

(** An upload area with one file at the top and one in a subdirectory, next
    to an empty temporary area. *)
Definition example_uploads : node :=
  Dir [("uploads",
        Dir [("user_7",
              Dir [("dataset_1",
                    Dir [("model.uvl", File (Raw "features A"));
                         ("extra", Dir [("notes.txt", File (Raw "notes"))])])])]);
       ("tmp", Dir [])].

(** The pair that identifies a tracking record within its table. *)
Definition tracking_key (r : TrackingRow) : nat * string :=
  (tr_dataset_id r, tr_cookie r).

(** No two records of the table are of the same dataset and token, and no two
    have the same key. *)
Definition unique_tracking (l : list TrackingRow) : Prop :=
  NoDup (tracking_key <$> l) ∧ NoDup (tr_id <$> l).

(** The token that a [create_cookie] call works with. *)
Definition resolved_cookie (k : TrackerKind) (cookies : gmap string string)
    (uuid4 : string) : string :=
  match cookies !! tracker_cookie_name k with
  | Some (String c rest) => String c rest
  | _ => uuid4
  end.

Definition other_tracker (k : TrackerKind) : TrackerKind :=
  match k with
  | DownloadTracker => ViewTracker
  | ViewTracker => DownloadTracker
  end.

(** The file row [file] records the upload of the form entry [f] as it lies in
    the staging folder of [current_user]: its name, the checksum and the size
    of its bytes. *)
Definition staged `{Collaborators} (fs : node) (current_user : User)
    (f : FeatureModelForm) (file : HubfileRow) : Prop :=
  ∃ d, lookup_node fs (temp_folder current_user ++ [fmform_uvl_filename f])
       = Some (File d)
       ∧ hf_name file = fmform_uvl_filename f
       ∧ hf_checksum file = md5_hexdigest (content_bytes d)
       ∧ hf_size file = String.length (content_bytes d).

(** The rows that one feature-model entry of a form gives rise to. *)
Record fm_rows `{Collaborators} (fs : node) (current_user : User) (dsid : nat)
    (f : FeatureModelForm) (m : FMMetaDataRow) (r : FeatureModelRow)
    (file : HubfileRow) : Prop := {
  fmr_fields : fmmd_fields m = get_fmmetadata f;
  fmr_data_set : fm_data_set_id r = dsid;
  fmr_meta : fm_fm_meta_data_id r = fmmd_id m;
  fmr_file : hf_feature_model_id file = fm_id r;
  fmr_staged : staged fs current_user f file;
}.

(** The rows of a list of feature-model entries, entry by entry. *)
Inductive fm_rows_list `{Collaborators} (fs : node) (current_user : User) (dsid : nat)
  : list FeatureModelForm → list FMMetaDataRow → list FeatureModelRow
    → list HubfileRow → Prop :=
| fm_rows_nil : fm_rows_list fs current_user dsid [] [] [] []
| fm_rows_cons f fms m mds r rows file files :
    fm_rows fs current_user dsid f m r file →
    fm_rows_list fs current_user dsid fms mds rows files →
    fm_rows_list fs current_user dsid (f :: fms) (m :: mds) (r :: rows) (file :: files).

(** The number of author entries of the feature models of a form. *)
Definition fm_author_count (fms : list FeatureModelForm) : nat :=
  sum_list (length ∘ fmform_authors <$> fms).


(** The metadata table after the row with key [id] has been overwritten. *)
Definition overwrite_fields (id : nat) (fields : DSMetaDataFields)
    (tbl : list DSMetaDataRow) : list DSMetaDataRow :=
  (λ r, if Nat.eqb (dsmd_id r) id then {| dsmd_id := id; dsmd_fields := fields |} else r)
    <$> tbl.

(** No file lies on the way from [start] down the names of [rest]. *)
Definition no_file_on (fs : node) (start rest : path) : Prop :=
  ∀ p d, p `prefix_of` rest → lookup_node fs (start ++ p) ≠ Some (File d).

(** The staged node of every name is there, and the name is free in [D]. *)
Definition movable (fs : node) (S D : path) (names : list string) : Prop :=
  ∀ f, In f names →
       is_Some (lookup_node fs (S ++ [f])) ∧ lookup_node fs (D ++ [f]) = None.

(** From [fs] to [fs'], the node staged under the name [f] has gone from [S]
    to [D]. *)
Definition moved (fs fs' : node) (S D : path) (f : string) : Prop :=
  ∃ n, lookup_node fs (S ++ [f]) = Some n
       ∧ lookup_node fs' (D ++ [f]) = Some n
       ∧ lookup_node fs' (S ++ [f]) = None.

(** The value of [WORKING_DIR] that [move_feature_models] reads. *)
Definition working_dir_of (environ : gmap string string) : string :=
  getenv environ "WORKING_DIR" "".

(** The directory [dest_dir] of [move_feature_models], from the root. *)
Definition dest_dir_of (environ : gmap string string) (cwd : path)
    (current_user : User) (dataset : DataSet) : path :=
  start_of cwd (working_dir_of environ)
  ++ dest_names (working_dir_of environ) current_user dataset.

(** The names under which the feature models of a dataset are staged. *)
Definition staged_names (dataset : DataSet) : list string :=
  uvl_filename_of <$> feature_models dataset.

(** [os.makedirs] can make [dest_dir]: the place it starts from is a
    directory and no file lies on the way down. *)
Definition dest_dir_makeable (environ : gmap string string) (cwd : path)
    (current_user : User) (dataset : DataSet) (fs : node) : Prop :=
  (∃ es, lookup_node fs (start_of cwd (working_dir_of environ)) = Some (Dir es))
  ∧ no_file_on fs (start_of cwd (working_dir_of environ))
      (dest_names (working_dir_of environ) current_user dataset).

(** The dataset of the example submission with its feature model, as the
    relationships give it after the creation. *)
Definition example_aggregate : DataSet := Eval vm_compute in
  default example_dataset
    (load_dataset (session (db example_world))
       {| ds_id := 1; ds_user_id := 7; ds_ds_meta_data_id := 1 |}).


(** * Properties *)

(** ** The size formatter *)

Module SizeFacts.
Import SizeService.




End SizeFacts.

(** ** The DOI link *)

(** C10. [get_uvlhub_doi] is "http://" + domain + "/doi/" + the dataset's DOI,
    where the domain is the value of DOMAIN in the environment, and
    "localhost" when DOMAIN is not set. *)
Theorem get_uvlhub_doi_domain (environ : gmap string string) (domain : string)
    (dataset : DataSet) :
  get_uvlhub_doi (<["DOMAIN" := domain]> environ) dataset
  = "http://" +:+ domain +:+ "/doi/"
    +:+ dsf_dataset_doi (dsmd_fields (dsmd_row (ds_meta_data dataset)))
  ∧ get_uvlhub_doi (delete "DOMAIN" environ) dataset
    = "http://localhost/doi/"
      +:+ dsf_dataset_doi (dsmd_fields (dsmd_row (ds_meta_data dataset))).
Proof.
  unfold get_uvlhub_doi, getenv. split.
  - by rewrite lookup_insert_eq.
  - by rewrite lookup_delete_eq.
Qed.

(** ** The statistics *)

Section StatisticsFacts.
Context `{Collaborators}.

Lemma count_authors_ok (w : World) :
  count_authors DataSetService_init w = (Ok (length (author_tbl (session (db w)))), w).
Proof. reflexivity. Qed.

Lemma count_dsmetadata_ok (w : World) :
  count_dsmetadata DataSetService_init w
  = (Ok (length (ds_meta_data_tbl (session (db w)))), w).
Proof. reflexivity. Qed.

Lemma total_dataset_downloads_ok (w : World) :
  total_dataset_downloads DataSetService_init w
  = (Ok (length (ds_download_record_tbl (session (db w)))), w).
Proof. reflexivity. Qed.

Lemma total_dataset_views_ok (w : World) :
  total_dataset_views DataSetService_init w
  = (Ok (length (ds_view_record_tbl (session (db w)))), w).
Proof. reflexivity. Qed.

Lemma count_synchronized_datasets_ok (w : World) :
  ∃ n, count_synchronized_datasets DataSetService_init w = (Ok n, w)
       ∧ n ≤ length (data_set_tbl (session (db w))).
Proof.
  eexists. split; [reflexivity|]. apply filter_length_le.
Qed.

(** The attribute that [count_feature_models] reads is never assigned. *)
Lemma feature_model_service_unset :
  DataSetService_init !! "feature_model_service" = None.
Proof. reflexivity. Qed.

(** C9. [count_feature_models] does not return the number of feature models:
    [__init__] assigns [feature_model_repository] and the method reads
    [feature_model_service], so on every database the call raises
    [AttributeError] and leaves the database as it was. *)
Theorem count_feature_models_raises (w : World) :
  count_feature_models DataSetService_init w
  = (Raise (AttributeError "feature_model_service"), w).
Proof.
  unfold count_feature_models, call_on, getattr.
  by rewrite feature_model_service_unset.
Qed.

(** Had the method read the attribute that [__init__] assigns, it would count
    the feature models. *)
Lemma count_feature_models_repaired (w : World) :
  call_on DataSetService_init "feature_model_repository" count_feature_models_m w
  = (Ok (length (feature_model_tbl (session (db w)))), w).
Proof. reflexivity. Qed.

End StatisticsFacts.

(** ** The trackers *)

Section TrackerFacts.
Context `{Collaborators}.


Lemma String_eqb_refl (s : string) : String.eqb s s = true.
Proof. by apply String.eqb_eq. Qed.




End TrackerFacts.

(** ** The workflow: failures *)

Section WorkflowFacts.
Context `{Collaborators}.

Lemma bind_ok {A B} (m : M A) (k : A → M B) w b w' :
  bind m k w = (Ok b, w') →
  ∃ a w1, m w = (Ok a, w1) ∧ k a w1 = (Ok b, w').
Proof.
  unfold bind. destruct (m w) as [[a|exc] w1]; [|done]. eauto.
Qed.

Lemma bind_raise {A B} (m : M A) (k : A → M B) w exc w' :
  bind m k w = (Raise exc, w') →
  m w = (Raise exc, w') ∨ ∃ a w1, m w = (Ok a, w1) ∧ k a w1 = (Raise exc, w').
Proof.
  unfold bind. destruct (m w) as [[a|exc0] w1]; [eauto|].
  intros [= <- <-]. by left.
Qed.

Lemma create_ok {R} (T : Table R) flag (mk : nat → R) w r w' :
  create T flag mk w = (Ok r, w') →
  r = mk (next_id T (session (db w)))
  ∧ db_accepts (to_row T r) = true
  ∧ w' = write flag (set_rows T (rows T (session (db w)) ++ [r]) (session (db w))) w.
Proof.
  unfold create. destruct (db_accepts _) eqn:Hacc; [|done].
  intros [= <- <-]. done.
Qed.

Lemma create_raise {R} (T : Table R) flag (mk : nat → R) w exc w' :
  create T flag mk w = (Raise exc, w') →
  w' = w ∧ db_accepts (to_row T (mk (next_id T (session (db w))))) = false.
Proof.
  unfold create. destruct (db_accepts _) eqn:Hacc; [done|].
  intros [= <- <-]. done.
Qed.

Lemma keeps_raises_clean {A} (m : M A) : keeps_committed m → raises_clean m.
Proof. intros Hm w exc w' Hrun. by apply Hm in Hrun. Qed.

Lemma keeps_ret {A} (a : A) : keeps_committed (ret a).
Proof. by intros w r w' [= <- <-]. Qed.

Lemma keeps_raise {A} exc : keeps_committed (@raise A exc).
Proof. by intros w r w' [= <- <-]. Qed.

Lemma keeps_lift {A} (x : result A) : keeps_committed (lift x).
Proof. by intros w r w' [= <- <-]. Qed.

Lemma keeps_bind {A B} (m : M A) (k : A → M B) :
  keeps_committed m → (∀ a, keeps_committed (k a)) → keeps_committed (bind m k).
Proof.
  intros Hm Hk w r w'. unfold bind.
  destruct (m w) as [[a|exc] w1] eqn:Hrun; apply Hm in Hrun as [Hc Hl].
  - intros Hrun'. apply Hk in Hrun' as [Hc' Hl']. split; congruence.
  - by intros [= <- <-].
Qed.

Lemma raises_clean_bind {A B} (m : M A) (k : A → M B) :
  keeps_committed m → (∀ a, raises_clean (k a)) → raises_clean (bind m k).
Proof.
  intros Hm Hk w exc w' Hrun.
  apply bind_raise in Hrun as [Hrun|(a & w1 & Hrun & Hrun')].
  - by apply Hm in Hrun.
  - apply Hm in Hrun as [Hc Hl]. apply Hk in Hrun' as [Hc' Hl']. split; congruence.
Qed.

Lemma keeps_create_deferred {R} (T : Table R) (mk : nat → R) :
  keeps_committed (create T false mk).
Proof.
  intros w r w'. unfold create. destruct (db_accepts _); by intros [= <- <-].
Qed.

Lemma keeps_for_each {A} (l : list A) (body : A → M unit) :
  (∀ x, keeps_committed (body x)) → keeps_committed (for_each l body).
Proof.
  intros Hbody. induction l as [|x l IH]; simpl.
  - apply keeps_ret.
  - apply keeps_bind; [apply Hbody|done].
Qed.

Lemma keeps_create_feature_model fs current_user dataset feature_model :
  keeps_committed (create_feature_model fs current_user dataset feature_model).
Proof.
  unfold create_feature_model.
  repeat first
    [ apply keeps_bind; [|intros ?]
    | apply keeps_for_each; intros ?
    | apply keeps_create_deferred
    | apply keeps_lift
    | apply keeps_ret ].
Qed.

Lemma raises_clean_commit_ret {A} (a : A) : raises_clean (session_commit ;; ret a).
Proof. intros w exc w'. by unfold bind, session_commit, ret. Qed.

(** What follows the creation of the metadata row in the [try] block. *)
Lemma create_from_form_rest_clean fs (form : DataSetForm) current_user
    (dsmetadata : DSMetaDataRow) :
  raises_clean
    (for_each (author_list_of form (main_author_of current_user)) (λ author_data,
       create author_table false
         (new_author (Some (dsmd_id dsmetadata)) None author_data) ;;
       ret tt) ;;
     dataset <- create data_set_table false
       (λ id, {| ds_id := id; ds_user_id := user_id current_user;
                 ds_ds_meta_data_id := dsmd_id dsmetadata |}) ;;
     for_each (form_feature_models form)
       (create_feature_model fs current_user dataset) ;;
     session_commit ;;
     ret dataset).
Proof.
  apply raises_clean_bind.
  { apply keeps_for_each. intros ?. apply keeps_bind; [apply keeps_create_deferred|].
    intros ?. apply keeps_ret. }
  intros _. apply raises_clean_bind; [apply keeps_create_deferred|].
  intros dataset. apply raises_clean_bind.
  { apply keeps_for_each. intros ?. apply keeps_create_feature_model. }
  intros _. apply raises_clean_commit_ret.
Qed.


Lemma create_from_form_ok_inv fs form current_user w dataset w' :
  create_from_form fs form current_user w = (Ok dataset, w') →
  create_from_form_try fs form current_user w = (Ok dataset, w').
Proof.
  unfold create_from_form, try_except.
  destruct (create_from_form_try _ _ _ w) as [[a|exc] w0]; [done|].
  by unfold bind, logger_info, session_rollback, raise.
Qed.


Lemma create_from_form_raise_inv fs form current_user w exc w' :
  create_from_form fs form current_user w = (Raise exc, w') →
  ∃ w0, create_from_form_try fs form current_user w = (Raise exc, w0)
        ∧ w' = {| db := rollback (db w0); log := log w0 ++ [LogCreateException exc] |}.
Proof.
  unfold create_from_form, try_except.
  destruct (create_from_form_try _ _ _ w) as [[a|exc0] w0]; [done|].
  unfold bind, logger_info, session_rollback, raise. intros [= <- <-]. eauto.
Qed.

Lemma next_id_fresh {R} (T : Table R) (s : Store) (r : R) :
  In r (rows T s) → row_id T r < next_id T s.
Proof.
  intros Hin. unfold next_id.
  assert (row_id T r ≤ max_list (row_id T <$> rows T s)); [|lia].
  apply max_list_elem_of_le, list_elem_of_fmap.
  exists r. split; [done|]. by apply list_elem_of_In.
Qed.

(** With writes deferred by default, a failure of [create_from_form] leaves no
    trace in the committed view, and nothing pending in the session. *)
Lemma create_from_form_atomic_when_deferred fs form current_user w exc w' :
  default_commit = false →
  create_from_form fs form current_user w = (Raise exc, w') →
  committed (db w') = committed (db w)
  ∧ session (db w') = committed (db w)
  ∧ log w' = log w ++ [LogCreating (get_dsmetadata form); LogCreateException exc].
Proof.
  intros Hdef Hrun.
  apply create_from_form_raise_inv in Hrun as (w0 & Hrun & ->). simpl.
  unfold create_from_form_try in Hrun.
  apply bind_raise in Hrun as [Hrun|(u & w1 & Hlog & Hrun)]; [done|].
  unfold logger_info in Hlog. simplify_eq.
  rewrite Hdef in Hrun.
  apply bind_raise in Hrun as [Hrun|(md & w2 & Hmd & Hrun)].
  - apply create_raise in Hrun as [-> _]. simpl. by rewrite <- app_assoc.
  - apply keeps_create_deferred in Hmd as [Hc Hl].
    apply create_from_form_rest_clean in Hrun as [Hc' Hl'].
    simpl in *. rewrite Hc', Hc, Hl', Hl, <- app_assoc. done.
Qed.

(** C1. A failure of [create_from_form] is logged, the session is rolled back
    and the same exception is raised, but the call is not atomic: the metadata
    row is created without [commit=False], so when writes commit by default and
    a later step of the [try] block raises, the rollback finds that row (and
    nothing else of the call) already committed, and it stays visible. *)
Theorem create_from_form_leaves_metadata fs form current_user w exc w' :
  default_commit = true →
  db_accepts (RowDSMetaData (new_dsmetadata form w)) = true →
  create_from_form fs form current_user w = (Raise exc, w') →
  committed (db w')
  = set_rows ds_meta_data_table
      (ds_meta_data_tbl (session (db w)) ++ [new_dsmetadata form w]) (session (db w))
  ∧ In (new_dsmetadata form w) (ds_meta_data_tbl (committed (db w')))
  ∧ ¬ In (new_dsmetadata form w) (ds_meta_data_tbl (session (db w)))
  ∧ session (db w') = committed (db w')
  ∧ log w' = log w ++ [LogCreating (get_dsmetadata form); LogCreateException exc].
Proof.
  intros Hdef Hacc Hrun.
  apply create_from_form_raise_inv in Hrun as (w0 & Hrun & ->). simpl.
  unfold create_from_form_try in Hrun.
  apply bind_raise in Hrun as [Hrun|(u & w1 & Hlog & Hrun)]; [done|].
  unfold logger_info in Hlog. simplify_eq.
  rewrite Hdef in Hrun.
  apply bind_raise in Hrun as [Hrun|(md & w2 & Hmd & Hrun)].
  { apply create_raise in Hrun as [_ Hrej]. simpl in Hrej.
    unfold new_dsmetadata in Hacc. congruence. }
  apply create_ok in Hmd as (-> & _ & ->).
  apply create_from_form_rest_clean in Hrun as [-> ->]. simpl.
  fold (new_dsmetadata form w).
  repeat split.
  - apply in_or_app. right. by left.
  - intros Hin. apply (next_id_fresh ds_meta_data_table) in Hin. simpl in Hin. lia.
  - by rewrite <- app_assoc.
Qed.

End WorkflowFacts.

Lemma create_from_form_leaves_metadata_witness :
  In {| dsmd_id := 1;
        dsmd_fields := @get_dsmetadata (example_collaborators true) example_form |}
     (ds_meta_data_tbl
        (committed (db (snd (@create_from_form (example_collaborators true)
                               (Dir []) example_form example_user empty_world))))).
Proof.
  eapply (@create_from_form_leaves_metadata (example_collaborators true)
            (Dir []) example_form example_user empty_world
            (FileNotFoundError ["uploads"; "temp"; "7"; "model.uvl"])).
  - reflexivity.
  - reflexivity.
  - reflexivity.
Defined.

(** ** The workflow: the author loop *)

Section LoopFacts.
Context `{Collaborators}.

Lemma max_list_app (l k : list nat) :
  max_list (l ++ k) = max_list l `max` max_list k.
Proof. induction l as [|n l IH]; simpl; lia. Qed.

Lemma next_id_app {R} (T : Table R) (l : list R) (r : R) :
  S (max_list (row_id T <$> (l ++ [r])))
  = S (max_list (row_id T <$> l)) `max` S (row_id T r).
Proof.
  rewrite fmap_app, max_list_app. simpl. lia.
Qed.

(** The loop that attaches a list of authors to one owner. *)
Lemma author_loop_ok ds_fk fm_fk (l : list AuthorData) w w' :
  for_each l (λ author_data,
    create author_table false (new_author ds_fk fm_fk author_data) ;; ret tt) w
  = (Ok tt, w') →
  ∃ new,
    w' = write false (set_rows author_table (author_tbl (session (db w)) ++ new)
                        (session (db w))) w
    ∧ Forall2 (author_row_of ds_fk fm_fk) l new.
Proof.
  revert w w'. induction l as [|a l IH]; intros w w'; simpl.
  - intros [= <-]. exists []. split; [|constructor].
    destruct w as [[c s] lg]. destruct s. simpl. by rewrite app_nil_r.
  - intros Hrun.
    apply bind_ok in Hrun as (u & w1 & Hstep & Hrun).
    apply bind_ok in Hstep as (r & w2 & Hcreate & [= <- <-]).
    apply create_ok in Hcreate as (Hr & _ & ->).
    apply IH in Hrun as (new & -> & Hnew).
    exists (r :: new). split.
    + unfold write. simpl. by rewrite <- app_assoc.
    + constructor; [|done]. subst r. by destruct a.
Qed.


(** One round of the loop over the feature models of the form. *)
Lemma create_feature_model_ok fs current_user dataset f w w' :
  create_feature_model fs current_user dataset f w = (Ok tt, w') →
  let s := session (db w) in
  let m := {| fmmd_id := next_id fm_meta_data_table s;
              fmmd_fields := get_fmmetadata f |} in
  let fmrow := {| fm_id := next_id feature_model_table s;
                  fm_data_set_id := ds_id dataset;
                  fm_fm_meta_data_id := fmmd_id m |} in
  ∃ auths file,
    Forall2 (author_row_of None (Some (fmmd_id m))) (fm_get_authors f) auths
    ∧ hf_name file = fmform_uvl_filename f
    ∧ hf_feature_model_id file = fm_id fmrow
    ∧ w' = write false
             {| ds_meta_data_tbl := ds_meta_data_tbl s;
                fm_meta_data_tbl := fm_meta_data_tbl s ++ [m];
                author_tbl := author_tbl s ++ auths;
                data_set_tbl := data_set_tbl s;
                feature_model_tbl := feature_model_tbl s ++ [fmrow];
                file_tbl := file_tbl s ++ [file];
                ds_download_record_tbl := ds_download_record_tbl s;
                ds_view_record_tbl := ds_view_record_tbl s |} w.
Proof.
  unfold create_feature_model. intros Hrun.
  apply bind_ok in Hrun as (m & w1 & Hm & Hrun).
  apply create_ok in Hm as (-> & _ & ->).
  apply bind_ok in Hrun as ([] & w2 & Hauth & Hrun).
  apply author_loop_ok in Hauth as (auths & -> & Hauths).
  apply bind_ok in Hrun as (fmrow & w3 & Hfm & Hrun).
  apply create_ok in Hfm as (-> & _ & ->).
  apply bind_ok in Hrun as (cs & w4 & Hcs & Hrun).
  unfold lift in Hcs. injection Hcs as Hcs <-.
  apply bind_ok in Hrun as (file & w5 & Hfile & [= <-]).
  apply create_ok in Hfile as (-> & _ & ->).
  exists auths. eexists. split; [exact Hauths|].
  split; [|split; [|reflexivity]]; reflexivity.
Qed.

End LoopFacts.

(** ** Loading feature models *)

Section LoadFacts.
Context `{Collaborators}.

Lemma filter_none {A} (f : A → bool) (l : list A) :
  (∀ x, In x l → f x = false) → List.filter f l = [].
Proof.
  induction l as [|x l IH]; simpl; [done|]. intros Hl.
  rewrite (Hl x) by auto. apply IH. auto.
Qed.

Lemma filter_all {A} (f : A → bool) (l : list A) :
  (∀ x, In x l → f x = true) → List.filter f l = l.
Proof.
  induction l as [|x l IH]; simpl; [done|]. intros Hl.
  rewrite (Hl x) by auto. f_equal. apply IH. auto.
Qed.

Lemma find_app_l {A} (f : A → bool) (l k : list A) (x : A) :
  List.find f l = Some x → List.find f (l ++ k) = Some x.
Proof.
  induction l as [|y l IH]; simpl; [done|]. by destruct (f y).
Qed.

Lemma find_app_r {A} (f : A → bool) (l k : list A) :
  (∀ x, In x l → f x = false) → List.find f (l ++ k) = List.find f k.
Proof.
  induction l as [|y l IH]; simpl; [done|]. intros Hl.
  rewrite (Hl y) by auto. apply IH. auto.
Qed.

(** Rows added for other owners do not change what a feature model loads. *)
Lemma load_feature_model_stable (s s' : Store) (r : FeatureModelRow) obj
    (new_md : list FMMetaDataRow) (new_a : list AuthorRow) (new_f : list HubfileRow) :
  load_feature_model s r = Some obj →
  fm_meta_data_tbl s' = fm_meta_data_tbl s ++ new_md →
  author_tbl s' = author_tbl s ++ new_a →
  Forall (λ a, author_fm_meta_data_id a ≠ Some (fm_fm_meta_data_id r)) new_a →
  file_tbl s' = file_tbl s ++ new_f →
  Forall (λ f, hf_feature_model_id f ≠ fm_id r) new_f →
  load_feature_model s' r = Some obj.
Proof.
  unfold load_feature_model, load_fm_meta_data.
  intros Hload Hmd Ha Hna Hf Hnf.
  destruct (List.find _ (fm_meta_data_tbl s)) as [m|] eqn:Hfind; [|done].
  simpl in Hload. injection Hload as <-.
  rewrite Hmd, (find_app_l _ _ _ _ Hfind). simpl.
  rewrite Ha, Hf, !List.filter_app.
  rewrite (filter_none _ new_a), (filter_none _ new_f), !app_nil_r; [done| |].
  - intros f Hin. rewrite Forall_forall in Hnf. apply Nat.eqb_neq.
    apply Hnf. by apply list_elem_of_In.
  - intros a Hin. rewrite Forall_forall in Hna. apply bool_decide_eq_false.
    apply Hna. by apply list_elem_of_In.
Qed.

End LoadFacts.

(** ** The workflow: the feature-model loop *)

Section FmLoopFacts.
Context `{Collaborators}.

Ltac next_id_lia :=
  unfold next_id in *; simpl in *;
  rewrite ?fmap_app, ?max_list_app in *; simpl in *; lia.

Lemma write_deferred_id (w : World) : write false (session (db w)) w = w.
Proof. by destruct w as [[c s] lg]. Qed.

Lemma write_deferred_twice (s1 s2 : Store) (w : World) :
  write false s2 (write false s1 w) = write false s2 w.
Proof. done. Qed.

Lemma author_rows_data ds_fk fm_fk (l : list AuthorData) (rows : list AuthorRow) :
  Forall2 (author_row_of ds_fk fm_fk) l rows →
  author_data_of <$> rows = l
  ∧ Forall (λ r, author_ds_meta_data_id r = ds_fk ∧ author_fm_meta_data_id r = fm_fk) rows.
Proof.
  induction 1 as [|a r l rows (Hd & Hds & Hfm) _ [IH1 IH2]]; csimpl.
  - by split.
  - split; [by rewrite Hd, IH1|]. by constructor.
Qed.

Lemma fm_loop_ok fs current_user dataset (fms : list FeatureModelForm) w w' :
  for_each fms (create_feature_model fs current_user dataset) w = (Ok tt, w') →
  fm_fk_bounded (session (db w)) →
  ∃ s', w' = write false s' w
        ∧ fm_loop_post (ds_id dataset) fms (session (db w)) s'.
Proof.
  revert w w'. induction fms as [|f fms IH]; intros w w'; simpl.
  - intros [= <-] Hb. exists (session (db w)).
    split; [by rewrite write_deferred_id|].
    split; try done.
    + exists []. by rewrite app_nil_r.
    + exists []. by rewrite app_nil_r.
    + exists []. by rewrite app_nil_r.
    + exists [], []. rewrite app_nil_r. repeat split; constructor.
  - intros Hrun [Hba Hbf].
    apply bind_ok in Hrun as ([] & w1 & Hstep & Hrun).
    apply create_feature_model_ok in Hstep as (auths & file & Hauths & Hname & Hfk & Hw1).
    match type of Hw1 with _ = write false ?S _ => set (s1 := S) in * end.
    subst w1.
    set (s := session (db w)) in *.
    set (m := {| fmmd_id := next_id fm_meta_data_table s;
                 fmmd_fields := get_fmmetadata f |}) in *.
    set (fmrow := {| fm_id := next_id feature_model_table s;
                     fm_data_set_id := ds_id dataset;
                     fm_fm_meta_data_id := fmmd_id m |}) in *.
    destruct (author_rows_data _ _ _ _ Hauths) as [Hdata Hfks].
    rewrite Forall_forall in Hfks.
    apply IH in Hrun as (s' & -> & Hpost).
    2:{ split; simpl.
        - intros a i Hin Hi. apply in_app_or in Hin as [Hin|Hin].
          + specialize (Hba a i Hin Hi). next_id_lia.
          + apply list_elem_of_In, Hfks in Hin as [_ Hin].
            rewrite Hin in Hi. injection Hi as <-. next_id_lia.
        - intros f0 Hin. apply in_app_or in Hin as [Hin|[<-|[]]].
          + specialize (Hbf f0 Hin). next_id_lia.
          + rewrite Hfk. next_id_lia. }
    exists s'. split; [done|].
    destruct Hpost as [Hdm Hds Hdl Hvw (nmd & Hmd) (na & Ha & Hna)
                         (nf & Hf & Hnf) (nfm & objs & Hfm & Hnfm & Hload & Hobjs) Hb'].
    simpl in *.
    rewrite Forall_forall in Hna. rewrite Forall_forall in Hnf.
    split; try done.
    + exists (m :: nmd). by rewrite Hmd, <- app_assoc.
    + exists (auths ++ na). split; [by rewrite Ha, <- app_assoc|].
      apply Forall_app. split; apply Forall_forall.
      * intros a Hin. apply Hfks in Hin as [-> ->]. split; [done|].
        exists (fmmd_id m). split; [done|]. simpl. lia.
      * intros a Hin. apply Hna in Hin as [-> (i & -> & Hi)]. split; [done|].
        exists i. split; [done|]. next_id_lia.
    + exists (file :: nf). split; [by rewrite Hf, <- app_assoc|].
      constructor.
      * rewrite Hfk. simpl. lia.
      * apply Forall_forall. intros f0 Hin. apply Hnf in Hin. next_id_lia.
    + set (obj := {| fm_row := fmrow;
                     fm_meta_data := {| fmmd_row := m; fmmd_authors := auths |};
                     fm_files := [file] |}).
      exists (fmrow :: nfm), (obj :: objs).
      split; [by rewrite Hfm, <- app_assoc|].
      split; [by constructor|].
      split.
      * apply mapM_Some. constructor; [|by apply mapM_Some].
        eapply (load_feature_model_stable s1 s' fmrow obj nmd na nf); try done.
        -- unfold load_feature_model, load_fm_meta_data. simpl.
           rewrite find_app_r.
           2:{ intros x Hin. apply Nat.eqb_neq.
               apply (next_id_fresh fm_meta_data_table) in Hin. simpl in Hin. lia. }
           simpl. rewrite Nat.eqb_refl. simpl.
           rewrite !List.filter_app.
           rewrite (filter_none _ (author_tbl s)), (filter_all _ auths),
             (filter_none _ (file_tbl s)); simpl.
           ++ rewrite Hfk. simpl. by rewrite Nat.eqb_refl.
           ++ intros x Hin. apply Nat.eqb_neq. specialize (Hbf x Hin). lia.
           ++ intros a Hin. apply bool_decide_eq_true.
              by apply list_elem_of_In, Hfks in Hin as [_ ->].
           ++ intros a Hin. apply bool_decide_eq_false. intros Hi.
              specialize (Hba a _ Hin Hi). lia.
        -- apply Forall_forall. intros a Hin.
           apply Hna in Hin as [_ (i & -> & Hi)]. intros [= ->]. next_id_lia.
        -- apply Forall_forall. intros f0 Hin. apply Hnf in Hin. simpl. next_id_lia.
      * constructor; [|done]. by repeat split; simpl; rewrite ?Hname.
Qed.

End FmLoopFacts.

(** ** The workflow: a successful creation *)

Section CreateFacts.
Context `{Collaborators}.

Lemma referential_integrity_bounded (s : Store) :
  referential_integrity s → ds_fk_bounded s ∧ fm_fk_bounded s.
Proof.
  intros (Hads & Hafm & Hfm & Hf). repeat split.
  - intros a i Hin Hi. destruct (Hads a i Hin Hi) as (md & Hmd & <-).
    apply (next_id_fresh ds_meta_data_table _ _ Hmd).
  - intros fm Hin. destruct (Hfm fm Hin) as (d & Hd & <-).
    apply (next_id_fresh data_set_table _ _ Hd).
  - intros a i Hin Hi. destruct (Hafm a i Hin Hi) as (md & Hmd & <-).
    apply (next_id_fresh fm_meta_data_table _ _ Hmd).
  - intros f Hin. destruct (Hf f Hin) as (fm & Hfm' & <-).
    apply (next_id_fresh feature_model_table _ _ Hfm').
Qed.

Lemma session_write flag s' w : session (db (write flag s' w)) = s'.
Proof. by destruct flag. Qed.

Lemma log_write flag s' w : log (write flag s' w) = log w.
Proof. done. Qed.

(** The dataset that a successful [create_from_form] returns, loaded from the
    session after the call. *)
Lemma create_from_form_ok fs form current_user w dataset w' :
  create_from_form fs form current_user w = (Ok dataset, w') →
  ds_fk_bounded (session (db w)) →
  fm_fk_bounded (session (db w)) →
  committed (db w') = session (db w')
  ∧ ds_user_id dataset = user_id current_user
  ∧ ∃ agg, load_dataset (session (db w')) dataset = Some agg
           ∧ ds_row agg = dataset
           ∧ dsmd_fields (dsmd_row (ds_meta_data agg)) = get_dsmetadata form
           ∧ author_data_of <$> dsmd_authors (ds_meta_data agg)
             = author_list_of form (main_author_of current_user)
           ∧ Forall2 fm_matches (form_feature_models form) (feature_models agg).
Proof.
  intros Hrun [Hba Hbfm] [Hbfa Hbff].
  apply create_from_form_ok_inv in Hrun. unfold create_from_form_try in Hrun.
  apply bind_ok in Hrun as ([] & w0 & Hlog & Hrun).
  unfold logger_info in Hlog. injection Hlog as <-.
  apply bind_ok in Hrun as (md & w1 & Hmd & Hrun).
  apply create_ok in Hmd as (Hmd & _ & Hw1). simpl in Hmd, Hw1.
  apply bind_ok in Hrun as ([] & w2 & Hauth & Hrun).
  apply author_loop_ok in Hauth as (auths & Hw2 & Hauths).
  rewrite Hw1, session_write in Hw2. simpl in Hw2.
  apply bind_ok in Hrun as (ds & w3 & Hds & Hrun).
  apply create_ok in Hds as (Hds & _ & Hw3).
  rewrite Hw2, session_write in Hds, Hw3. simpl in Hds, Hw3.
  apply bind_ok in Hrun as ([] & w4 & Hfms & Hrun).
  destruct (author_rows_data _ _ _ _ Hauths) as [Hdata Hfks].
  rewrite Forall_forall in Hfks.
  set (s := session (db w)) in *.
  apply fm_loop_ok in Hfms as (s' & Hw4 & Hpost).
  2:{ rewrite Hw3, session_write. split; simpl.
      - intros a i Hin Hi. apply in_app_or in Hin as [Hin|Hin].
        + apply (Hbfa a i Hin Hi).
        + apply list_elem_of_In, Hfks in Hin as [_ Hin]. congruence.
      - apply Hbff. }
  rewrite Hw3, session_write in Hpost.
  unfold bind, session_commit, ret in Hrun. injection Hrun as <- <-.
  rewrite Hw4. simpl.
  assert (dsmd_id md = next_id ds_meta_data_table s
          ∧ dsmd_fields md = get_dsmetadata form) as [Hmd_id Hmd_fields]
    by by rewrite Hmd.
  assert (ds_id ds = next_id data_set_table s
          ∧ ds_user_id ds = user_id current_user
          ∧ ds_ds_meta_data_id ds = dsmd_id md) as (Hds_id & Hds_user & Hds_md)
    by by rewrite Hds.
  clear Hmd Hds.
  split; [done|]. split; [done|].
  destruct Hpost as [Hdm _ _ _ _ (na & Ha & Hna) _
                       (nfm & objs & Hfm & Hnfm & Hload & Hobjs) _].
  simpl in *. rewrite Forall_forall in Hna. rewrite Forall_forall in Hnfm.
  exists {| ds_row := ds;
            ds_meta_data := {| dsmd_row := md; dsmd_authors := auths |};
            feature_models := objs |}.
  split; [|done].
  unfold load_dataset, load_ds_meta_data.
  rewrite Hdm, Ha, Hfm, Hds_md.
  rewrite find_app_r.
  2:{ intros x Hin. apply Nat.eqb_neq.
      apply (next_id_fresh ds_meta_data_table) in Hin. simpl in Hin. lia. }
  simpl. rewrite Nat.eqb_refl. simpl.
  rewrite !List.filter_app.
  rewrite (filter_none _ (author_tbl s)), (filter_all _ auths), (filter_none _ na),
    (filter_none _ (feature_model_tbl s)), (filter_all _ nfm); simpl.
  - by rewrite app_nil_r, Hload.
  - intros x Hin. apply Nat.eqb_eq. by apply Hnfm, list_elem_of_In.
  - intros x Hin. apply Nat.eqb_neq. specialize (Hbfm x Hin). lia.
  - intros a Hin. apply bool_decide_eq_false.
    apply list_elem_of_In, Hna in Hin as [-> _]. done.
  - intros a Hin. apply bool_decide_eq_true.
    by apply list_elem_of_In, Hfks in Hin as [-> _].
  - intros a Hin. apply bool_decide_eq_false. intros Hi.
    specialize (Hba a _ Hin Hi). lia.
Qed.

End CreateFacts.

(** ** The workflow: a successful update *)

Section UpdateFacts.
Context `{Collaborators}.

Lemma for_each_ext {A} (l : list A) (body body' : A → M unit) w :
  (∀ x w, body x w = body' x w) → for_each l body w = for_each l body' w.
Proof.
  intros Hext. revert w. induction l as [|x l IH]; intros w; simpl; [done|].
  unfold bind. rewrite Hext. destruct (body' x w) as [[u|exc] w1]; [apply IH|done].
Qed.

Lemma dsmetadata_update_run id fields w :
  (dsmetadata_update id fields w = (Ok None, w))
  ∨ (dsmetadata_update id fields w
     = (Ok (Some {| dsmd_id := id; dsmd_fields := fields |}),
        write default_commit
          (set_rows ds_meta_data_table
             ((λ r, if Nat.eqb (dsmd_id r) id
                    then {| dsmd_id := id; dsmd_fields := fields |} else r)
                <$> ds_meta_data_tbl (session (db w)))
             (session (db w))) w)).
Proof.
  unfold dsmetadata_update. destruct (List.find _ _); [by right|by left].
Qed.

Lemma author_delete_ds_meta_data_id id w :
  author_delete_by_column "ds_meta_data_id" id w
  = (Ok tt,
     write default_commit
       (set_rows author_table
          (List.filter (λ a, negb (bool_decide (author_ds_meta_data_id a = Some id)))
                       (author_tbl (session (db w))))
          (session (db w))) w).
Proof. reflexivity. Qed.

(** The loop of [update_from_form] over the author list. *)
Lemma update_author_loop_ok (dsmetadata : option DSMetaDataRow) (id : nat)
    (l : list AuthorData) w w' :
  (∀ r, dsmetadata = Some r → dsmd_id r = id) →
  for_each l (λ author_data,
    md_id <- id_of dsmetadata ;;
    create author_table false (new_author (Some md_id) None author_data) ;;
    ret tt) w = (Ok tt, w') →
  ∃ new,
    w' = write false (set_rows author_table (author_tbl (session (db w)) ++ new)
                        (session (db w))) w
    ∧ Forall2 (author_row_of (Some id) None) l new.
Proof.
  intros Hid. destruct dsmetadata as [r|].
  - rewrite <- (Hid r eq_refl).
    rewrite (for_each_ext _ _ (λ author_data,
               create author_table false
                 (new_author (Some (dsmd_id r)) None author_data) ;; ret tt));
      [apply author_loop_ok|done].
  - destruct l as [|a l]; [|done]. simpl. intros [= <-].
    exists []. split; [|constructor].
    rewrite app_nil_r. destruct w as [[c s] lg]. by destruct s.
Qed.

Lemma filter_filter_neg {A} (f : A → bool) (l : list A) :
  List.filter f (List.filter (λ x, negb (f x)) l) = [].
Proof.
  apply filter_none. intros x Hin. apply filter_In in Hin as [_ Hx].
  by destruct (f x).
Qed.

(** A successful [update_from_form]: the authors attached to the dataset's
    metadata afterwards are the rows of the resolved author list, in order. *)
Lemma update_from_form_ok form current_user dataset w r w' :
  update_from_form form current_user dataset w = (Ok r, w') →
  let id := dsmd_id (dsmd_row (ds_meta_data dataset)) in
  committed (db w') = session (db w')
  ∧ Forall2 (author_row_of (Some id) None)
      (author_list_of form (main_author_of current_user))
      (persisted_authors (session (db w')) id).
Proof.
  intros Hrun id. unfold update_from_form in Hrun.
  apply bind_ok in Hrun as ([] & w1 & Htry & Hget).
  unfold get_by_id in Hget. injection Hget as _ <-.
  unfold try_except in Htry.
  destruct (update_from_form_try _ _ _ w) as [[[]|exc] w0] eqn:Hbody; [|done].
  injection Htry as <-. unfold update_from_form_try in Hbody. fold id in Hbody.
  apply bind_ok in Hbody as ([] & wa & Hlog & Hbody).
  unfold logger_info in Hlog. injection Hlog as <-.
  apply bind_ok in Hbody as (o & wb & Hupd & Hbody).
  apply bind_ok in Hbody as ([] & wc & Hdel & Hbody).
  rewrite author_delete_ds_meta_data_id in Hdel. injection Hdel as <-.
  apply bind_ok in Hbody as ([] & wd & Hloop & Hcommit).
  assert (∀ r', o = Some r' → dsmd_id r' = id) as Hid.
  { intros r' Ho.
    destruct (dsmetadata_update_run id (get_dsmetadata form)
                {| db := db w; log := log w ++ [LogUpdating (get_dsmetadata form)] |})
      as [Hr|Hr]; rewrite Hr in Hupd; injection Hupd as Ho' _; by simplify_eq. }
  apply (update_author_loop_ok o id _ _ _ Hid) in Hloop as (new & -> & Hnew).
  unfold session_commit in Hcommit. injection Hcommit as <-.
  destruct (author_rows_data _ _ _ _ Hnew) as [_ Hfk].
  rewrite Forall_forall in Hfk.
  split; [done|].
  unfold persisted_authors, write. destruct default_commit; simpl.
  all: rewrite List.filter_app, filter_filter_neg; simpl.
  all: rewrite filter_all; [done|].
  all: intros a Hin; apply bool_decide_eq_true.
  all: by apply list_elem_of_In, Hfk in Hin as [-> _].
Qed.

End UpdateFacts.

(** ** The workflow: what an update leaves alone *)

Section FrameFacts.
Context `{Collaborators}.

Lemma frame_refl id s : frame id s s.
Proof. repeat split; auto. Qed.

Lemma framed_write id s0 flag s' w :
  frame id s0 s' → framed id s0 w → framed id s0 (write flag s' w).
Proof. intros Hs' [Hs Hc]. by destruct flag. Qed.

Lemma keeps_frame_ret {A} id (a : A) : keeps_frame id (ret a).
Proof. by intros s0 w r w' [= <- <-]. Qed.

Lemma keeps_frame_raise {A} id exc : keeps_frame id (@raise A exc).
Proof. by intros s0 w r w' [= <- <-]. Qed.

Lemma keeps_frame_logger_info id entry : keeps_frame id (logger_info entry).
Proof. by intros s0 w r w' [= <- <-]. Qed.

Lemma keeps_frame_commit id : keeps_frame id session_commit.
Proof. intros s0 w r w' [= <- <-] [Hs Hc]. by split. Qed.

Lemma keeps_frame_rollback id : keeps_frame id session_rollback.
Proof. intros s0 w r w' [= <- <-] [Hs Hc]. by split. Qed.

Lemma keeps_frame_get_by_id {R} id (T : Table R) k : keeps_frame id (get_by_id T k).
Proof. by intros s0 w r w' [= <- <-]. Qed.

Lemma keeps_frame_bind {A B} id (m : M A) (k : A → M B) :
  keeps_frame id m → (∀ a, keeps_frame id (k a)) → keeps_frame id (bind m k).
Proof.
  intros Hm Hk s0 w r w'. unfold bind.
  destruct (m w) as [[a|exc] w1] eqn:Hrun; intros Hrun' Hw.
  - eapply Hk; [done|]. by eapply Hm.
  - injection Hrun' as <- <-. by eapply Hm.
Qed.

Lemma keeps_frame_bind_result {A B} id (m : M A) (k : A → M B) (P : A → Prop) :
  (∀ w a w', m w = (Ok a, w') → P a) →
  keeps_frame id m → (∀ a, P a → keeps_frame id (k a)) → keeps_frame id (bind m k).
Proof.
  intros HP Hm Hk s0 w r w'. unfold bind.
  destruct (m w) as [[a|exc] w1] eqn:Hrun; intros Hrun' Hw.
  - eapply Hk; [by eapply HP|done|]. by eapply Hm.
  - injection Hrun' as <- <-. by eapply Hm.
Qed.

Lemma keeps_frame_try_except {A} id (body : M A) (handler : Exn → M A) :
  keeps_frame id body → (∀ exc, keeps_frame id (handler exc)) →
  keeps_frame id (try_except body handler).
Proof.
  intros Hm Hk s0 w r w'. unfold try_except.
  destruct (body w) as [[a|exc] w1] eqn:Hrun; intros Hrun' Hw.
  - injection Hrun' as <- <-. by eapply Hm.
  - eapply Hk; [done|]. by eapply Hm.
Qed.

Lemma keeps_frame_for_each {A} id (l : list A) (body : A → M unit) :
  (∀ x, keeps_frame id (body x)) → keeps_frame id (for_each l body).
Proof.
  intros Hbody. induction l as [|x l IH]; simpl.
  - apply keeps_frame_ret.
  - apply keeps_frame_bind; [apply Hbody|done].
Qed.

Lemma other_owner_fix_filter (id : nat) (l : list AuthorRow) :
  List.filter (other_owner id) (List.filter (other_owner id) l)
  = List.filter (other_owner id) l.
Proof.
  apply filter_all. intros a Hin. by apply filter_In in Hin as [_ Ha].
Qed.

Lemma keeps_frame_dsmetadata_update id fields :
  keeps_frame id (dsmetadata_update id fields).
Proof.
  intros s0 w r w' Hrun Hw.
  destruct (dsmetadata_update_run id fields w) as [Hr|Hr];
    rewrite Hr in Hrun; injection Hrun as <- <-; [done|].
  apply framed_write; [|done].
  destruct Hw as [(Hfm & Hmd & Hf & Hds & Hdl & Hvw & Ha & Hm & Hnew) _].
  repeat split; simpl; try done.
  rewrite <- Hm. clear.
  induction (ds_meta_data_tbl (session (db w))) as [|x l IH]; [done|].
  rewrite fmap_cons. cbn [List.filter].
  destruct (Nat.eqb_spec (dsmd_id x) id); cbn [dsmd_id negb].
  - by rewrite Nat.eqb_refl.
  - destruct (Nat.eqb_spec (dsmd_id x) id); [done|]. cbn [negb]. by rewrite IH.
Qed.

Lemma keeps_frame_author_delete id :
  keeps_frame id (author_delete_by_column "ds_meta_data_id" id).
Proof.
  intros s0 w r w' Hrun Hw.
  rewrite author_delete_ds_meta_data_id in Hrun. injection Hrun as <- <-.
  apply framed_write; [|done].
  destruct Hw as [(Hfm & Hmd & Hf & Hds & Hdl & Hvw & Ha & Hm & Hnew) _].
  repeat split; simpl; try done.
  - fold (other_owner id). by rewrite other_owner_fix_filter.
  - intros a Hin. apply filter_In in Hin as [Hin _]. by apply Hnew.
Qed.

Lemma keeps_frame_create_author id author_data :
  keeps_frame id (create author_table false (new_author (Some id) None author_data)).
Proof.
  intros s0 w r w'. unfold create. destruct (db_accepts _).
  2:{ by intros [= <- <-]. }
  intros [= <- <-] Hw. apply framed_write; [|done].
  destruct Hw as [(Hfm & Hmd & Hf & Hds & Hdl & Hvw & Ha & Hm & Hnew) _].
  repeat split; simpl; try done.
  - rewrite List.filter_app. simpl. unfold other_owner at 2. simpl.
    rewrite bool_decide_eq_true_2 by done. simpl. by rewrite app_nil_r.
  - intros a Hin. apply in_app_or in Hin as [Hin|[<-|[]]]; [by apply Hnew|by right].
Qed.

Lemma keeps_frame_update_from_form form current_user dataset :
  keeps_frame (dsmd_id (dsmd_row (ds_meta_data dataset)))
    (update_from_form form current_user dataset).
Proof.
  unfold update_from_form, update_from_form_try.
  set (id := dsmd_id (dsmd_row (ds_meta_data dataset))).
  apply keeps_frame_bind; [|intros ?; apply keeps_frame_get_by_id].
  apply keeps_frame_try_except.
  - apply keeps_frame_bind; [apply keeps_frame_logger_info|intros _].
    apply (keeps_frame_bind_result _ _ _ (λ o, ∀ r, o = Some r → dsmd_id r = id)).
    { intros w o w' Hrun r ->.
      destruct (dsmetadata_update_run id (get_dsmetadata form) w) as [Hr|Hr];
        rewrite Hr in Hrun; by simplify_eq. }
    { apply keeps_frame_dsmetadata_update. }
    intros o Ho.
    apply keeps_frame_bind; [apply keeps_frame_author_delete|intros _].
    apply keeps_frame_bind; [|intros _; apply keeps_frame_commit].
    apply keeps_frame_for_each. intros author_data.
    destruct o as [md|]; simpl.
    + apply (keeps_frame_bind_result _ _ _ (λ md_id, md_id = id)).
      { intros w a w' [= <- _]. by apply Ho. }
      { apply keeps_frame_ret. }
      intros md_id ->.
      apply keeps_frame_bind; [apply keeps_frame_create_author|intros _].
      apply keeps_frame_ret.
    + apply (keeps_frame_bind_result _ _ _ (λ _, False)); [done| |done].
      apply keeps_frame_raise.
  - intros exc.
    apply keeps_frame_bind; [apply keeps_frame_logger_info|intros _].
    apply keeps_frame_bind; [apply keeps_frame_rollback|intros _].
    apply keeps_frame_raise.
Qed.

End FrameFacts.

(** ** The workflow: author resolution, replacement, frame *)

Section WorkflowTheorems.
Context `{Collaborators}.

(** C2. The author list persisted by a submission, by [create_from_form] and
    by [update_from_form] alike: the form's anonymous-author list when the
    anonymous flag is set; otherwise the explicit co-authors when there are
    any; otherwise the single entry made from the current user's profile, with
    the name "Surname, Name", the affiliation and the ORCID. *)
Theorem persisted_author_list form current_user persisted :
  persisted_by form current_user persisted →
  match form_dataset_anonymous form, get_authors form with
  | true, _ => persisted = get_anonymous_authors form
  | false, _ :: _ => persisted = get_authors form
  | false, [] =>
      persisted
      = [{| ad_name := profile_surname (profile current_user) +:+ ", "
                       +:+ profile_name (profile current_user);
            ad_affiliation := profile_affiliation (profile current_user);
            ad_orcid := profile_orcid (profile current_user) |}]
  end.
Proof.
  intros Hp.
  assert (persisted = author_list_of form (main_author_of current_user)) as ->.
  { destruct Hp as [(fs & w & dataset & w' & agg & Hri & Hrun & Hload & ->)
                   |(dataset & w & r & w' & Hrun & ->)].
    - apply referential_integrity_bounded in Hri as [Hds Hfm].
      destruct (create_from_form_ok _ _ _ _ _ _ Hrun Hds Hfm)
        as (_ & _ & agg' & Hload' & _ & _ & Hauthors & _).
      rewrite Hload in Hload'. by injection Hload' as ->.
    - apply update_from_form_ok in Hrun as [_ Hrows].
      by apply author_rows_data in Hrows as [-> _]. }
  unfold author_list_of. simpl.
  destruct (form_dataset_anonymous form); [done|].
  by destruct (get_authors form).
Qed.

(** C3. [update_from_form] replaces the author list: after two successful
    updates of one dataset, the authors attached to its metadata are the rows
    of the second call's resolved list, as many and in the same order, each
    attached to that metadata and to no feature model. *)
Theorem update_replaces_authors form1 user1 form2 user2 dataset w r1 w1 r2 w2 :
  update_from_form form1 user1 dataset w = (Ok r1, w1) →
  update_from_form form2 user2 dataset w1 = (Ok r2, w2) →
  let id := dsmd_id (dsmd_row (ds_meta_data dataset)) in
  let resolved := author_list_of form2 (main_author_of user2) in
  author_data_of <$> persisted_authors (session (db w2)) id = resolved
  ∧ length (persisted_authors (session (db w2)) id) = length resolved
  ∧ Forall2 (author_row_of (Some id) None) resolved
      (persisted_authors (session (db w2)) id)
  ∧ committed (db w2) = session (db w2)
  ∧ author_data_of <$> persisted_authors (session (db w1)) id
    = author_list_of form1 (main_author_of user1).
Proof.
  intros Hrun1 Hrun2 id resolved.
  apply update_from_form_ok in Hrun1 as [_ Hrows1].
  apply update_from_form_ok in Hrun2 as [Hc Hrows2].
  fold id in Hrows1, Hrows2. fold resolved in Hrows2.
  pose proof (author_rows_data _ _ _ _ Hrows1) as [Hd1 _].
  pose proof (author_rows_data _ _ _ _ Hrows2) as [Hd2 _].
  repeat split; try done.
  symmetry. by apply Forall2_length in Hrows2.
Qed.

Lemma filter_filter_implies {A} (f g : A → bool) (l : list A) :
  (∀ x, In x l → f x = true → g x = true) →
  List.filter f (List.filter g l) = List.filter f l.
Proof.
  induction l as [|x l IH]; simpl; [done|]. intros Hl.
  destruct (g x) eqn:Hg; simpl.
  - destruct (f x); rewrite IH; auto.
  - destruct (f x) eqn:Hf; [|apply IH; auto].
    rewrite (Hl x) in Hg; auto. done.
Qed.

(** Within a frame, a store with exclusively owned authors loads the same
    feature models. *)
Lemma frame_feature_models id s s' :
  exclusive_owner s → frame id s s' →
  (∀ k, List.filter (λ a, bool_decide (author_fm_meta_data_id a = Some k)) (author_tbl s')
        = List.filter (λ a, bool_decide (author_fm_meta_data_id a = Some k)) (author_tbl s))
  ∧ (∀ r, load_feature_model s' r = load_feature_model s r).
Proof.
  intros Hex (Hfm & Hmd & Hf & Hds & Hdl & Hvw & Ha & Hm & Hnew).
  assert (∀ k, List.filter (λ a, bool_decide (author_fm_meta_data_id a = Some k))
                 (author_tbl s')
               = List.filter (λ a, bool_decide (author_fm_meta_data_id a = Some k))
                   (author_tbl s)) as Hauthors.
  { intros k.
    rewrite <- (filter_filter_implies _ (other_owner id) (author_tbl s')).
    2:{ intros a Hin Hk. apply bool_decide_eq_true in Hk.
        destruct (Hnew a Hin) as [Hold|Hnone]; [|congruence].
        unfold other_owner. rewrite (Hex a Hold); [done|by rewrite Hk]. }
    rewrite <- (filter_filter_implies _ (other_owner id) (author_tbl s)).
    2:{ intros a Hin Hk. apply bool_decide_eq_true in Hk.
        unfold other_owner. rewrite (Hex a Hin); [done|by rewrite Hk]. }
    by rewrite Ha. }
  split; [done|]. intros r.
  unfold load_feature_model, load_fm_meta_data. by rewrite Hmd, Hf, Hauthors.
Qed.

(** C8. [update_from_form] leaves the feature models alone.  Started on a
    clean session, whatever the outcome, in the session and in the committed
    view afterwards the feature-model rows, their metadata rows, the file rows
    and the dataset rows are the ones before the call, the authors of every
    feature-model metadata are the same, every feature model loads as before,
    and outside the dataset's own metadata row and the authors attached to it
    no metadata row and no author row has changed. *)
Theorem update_from_form_frame form current_user dataset w r w' s' :
  session (db w) = committed (db w) →
  exclusive_owner (session (db w)) →
  update_from_form form current_user dataset w = (r, w') →
  s' = session (db w') ∨ s' = committed (db w') →
  let s := session (db w) in
  let id := dsmd_id (dsmd_row (ds_meta_data dataset)) in
  feature_model_tbl s' = feature_model_tbl s
  ∧ fm_meta_data_tbl s' = fm_meta_data_tbl s
  ∧ file_tbl s' = file_tbl s
  ∧ data_set_tbl s' = data_set_tbl s
  ∧ (∀ k, List.filter (λ a, bool_decide (author_fm_meta_data_id a = Some k)) (author_tbl s')
          = List.filter (λ a, bool_decide (author_fm_meta_data_id a = Some k)) (author_tbl s))
  ∧ (∀ fm, load_feature_model s' fm = load_feature_model s fm)
  ∧ List.filter (other_owner id) (author_tbl s') = List.filter (other_owner id) (author_tbl s)
  ∧ List.filter (λ md, negb (Nat.eqb (dsmd_id md) id)) (ds_meta_data_tbl s')
    = List.filter (λ md, negb (Nat.eqb (dsmd_id md) id)) (ds_meta_data_tbl s).
Proof.
  intros Hclean Hex Hrun Hs' s id.
  assert (framed id s w) as Hw.
  { split; [apply frame_refl|]. rewrite <- Hclean. apply frame_refl. }
  apply (keeps_frame_update_from_form _ _ _ _ _ _ _ Hrun) in Hw as [Hfs Hfc].
  assert (frame id s s') as Hframe by by destruct Hs' as [->| ->].
  destruct (frame_feature_models _ _ _ Hex Hframe) as [Hauthors Hload].
  destruct Hframe as (Hfm & Hmd & Hf & Hds & Hdl & Hvw & Ha & Hm & Hnew).
  by repeat split.
Qed.

End WorkflowTheorems.

(** ** The form mapper *)

Section MapperFacts.
Context `{Collaborators}.





End MapperFacts.


(** ** The file system *)

Section TreeFacts.
Context `{Collaborators}.





Lemma lookup_node_app (n : node) (p q : path) :
  lookup_node n (p ++ q)
  = match lookup_node n p with
    | Some n' => lookup_node n' q
    | None => None
    end.
Proof.
  revert n. induction p as [|a p IH]; intros n; simpl; [done|].
  destruct (child n a); [apply IH|done].
Qed.


End TreeFacts.

Section PutFacts.
Context `{Collaborators}.

Lemma put_child_is_Some (es : list (string * node)) a c :
  ∃ es', put_child (Dir es) a c = Some (Dir es').
Proof. simpl. by eexists. Qed.

Lemma child_put_child_eq (n n' : node) a c :
  put_child n a c = Some n' → child n' a = Some c.
Proof.
  destruct n as [d|es]; [done|]. simpl. intros [= <-]. simpl.
  induction es as [|[k x] es IH]; csimpl.
  - by rewrite String.eqb_refl.
  - destruct (String.eqb_spec k a) as [->|Hne]; csimpl.
    + by rewrite String.eqb_refl.
    + destruct (existsb _ es) eqn:Hex; csimpl.
      * destruct (String.eqb_spec k a); [done|]. apply IH.
      * destruct (String.eqb_spec k a); [done|]. apply IH.
Qed.

Lemma child_put_child_ne (n n' : node) a b c :
  a ≠ b → put_child n a c = Some n' → child n' b = child n b.
Proof.
  intros Hab. destruct n as [d|es]; [done|]. simpl. intros [= <-]. simpl.
  f_equal.
  induction es as [|[k x] es IH]; csimpl.
  - destruct (String.eqb_spec a b); done.
  - destruct (String.eqb_spec k a) as [->|Hne]; csimpl.
    + destruct (String.eqb_spec a b); [done|].
      clear IH. induction es as [|[k' x'] es IH]; csimpl; [done|].
      destruct (String.eqb_spec k' a) as [->|Hne']; csimpl.
      * destruct (String.eqb_spec a b); [done|]. apply IH.
      * destruct (String.eqb_spec k' b); [done|]. apply IH.
    + destruct (existsb _ es) eqn:Hex; csimpl.
      * destruct (String.eqb_spec k b); [done|]. apply IH.
      * destruct (String.eqb_spec k b); [done|]. apply IH.
Qed.

Lemma put_node_cons (n : node) a (p : path) c :
  put_node n (a :: p) c
  = match p with
    | [] => put_child n a c
    | _ :: _ =>
        match child n a with
        | Some n' =>
            match put_node n' p c with
            | Some n'' => put_child n a n''
            | None => None
            end
        | None => None
        end
    end.
Proof. done. Qed.

Lemma put_node_deep (n : node) a (p : path) c :
  p ≠ [] →
  put_node n (a :: p) c
  = match child n a with
    | Some n' =>
        match put_node n' p c with
        | Some n'' => put_child n a n''
        | None => None
        end
    | None => None
    end.
Proof. by destruct p. Qed.

(** A write at [p] is not seen from a path that parts ways with [p]. *)
Lemma lookup_put_node_diverge (fs fs' : node) (p q : path) c :
  diverge p q → put_node fs p c = Some fs' →
  lookup_node fs' q = lookup_node fs q.
Proof.
  intros (common & a & b & p' & q' & -> & -> & Hab).
  revert fs fs'. induction common as [|x common IH]; intros fs fs'.
  - simpl app. rewrite put_node_cons. intros Hput.
    assert (∃ y, put_child fs a y = Some fs') as [y Hy].
    { destruct p'; [by eexists|].
      destruct (child fs a); [|done]. destruct (put_node _ _ _); [|done].
      by eexists. }
    simpl. by rewrite (child_put_child_ne _ _ _ _ _ Hab Hy).
  - simpl app. rewrite put_node_deep by (by destruct common).
    destruct (child fs x) as [n'|] eqn:Hc; [|done].
    destruct (put_node n' _ c) as [n''|] eqn:Hput; [|done].
    intros Hfs'. simpl.
    rewrite (child_put_child_eq _ _ _ _ Hfs'), Hc. by apply IH.
Qed.

(** A write directly under an existing directory succeeds. *)
Lemma put_node_under (fs : node) (p : path) es z c :
  lookup_node fs p = Some (Dir es) →
  ∃ fs', put_node fs (p ++ [z]) c = Some fs'
         ∧ lookup_node fs' p = put_child (Dir es) z c.
Proof.
  revert fs. induction p as [|x p IH]; intros fs; simpl lookup_node.
  - intros [= ->]. destruct (put_child_is_Some es z c) as [es' Hes'].
    exists (Dir es'). by rewrite <- Hes'.
  - destruct (child fs x) as [n'|] eqn:Hc; [|done].
    intros Hn'. destruct (IH _ Hn') as (n'' & Hput & Hlook).
    simpl app. rewrite put_node_deep by (by destruct p).
    rewrite Hc, Hput.
    destruct fs as [d|es0]; [done|].
    destruct (put_child_is_Some es0 x n'') as [es' Hes'].
    exists (Dir es'). split; [done|].
    change (lookup_node (Dir es') (x :: p))
      with (match child (Dir es') x with
            | Some n' => lookup_node n' p
            | None => None
            end).
    by rewrite (child_put_child_eq _ _ _ _ Hes').
Qed.

Lemma mkdtemp_ok (tmpdir : path) (names : list string) (fs fs1 : node) temp_dir :
  mkdtemp tmpdir names fs = (Ok temp_dir, fs1) →
  ∃ name, temp_dir = tmpdir ++ [name]
          ∧ lookup_node fs temp_dir = None
          ∧ put_node fs temp_dir (Dir []) = Some fs1
          ∧ lookup_node fs1 temp_dir = Some (Dir []).
Proof.
  induction names as [|name names IH]; simpl; [done|].
  destruct (lookup_node fs tmpdir) as [[d|es]|] eqn:Hlook; try done.
  destruct (List.find _ es) as [e|] eqn:Hfind; simpl; [done|].
  destruct (put_node fs (tmpdir ++ [name]) (Dir [])) as [fs'|] eqn:Hput; [|done].
  intros [= <- <-]. exists name. split; [done|]. split.
  - rewrite lookup_node_app, Hlook. simpl. by rewrite Hfind.
  - split; [done|].
    destruct (put_node_under fs tmpdir es name (Dir []) Hlook) as (fs'' & Hput' & Hl).
    rewrite Hput in Hput'. injection Hput' as <-.
    rewrite lookup_node_app, Hl.
    destruct (put_child (Dir es) name (Dir [])) as [n'|] eqn:Hpc; [|done].
    cbn [lookup_node]. by rewrite (child_put_child_eq _ _ _ _ Hpc).
Qed.

End PutFacts.

(** ** The walk *)

Section WalkFacts.
Context `{Collaborators}.












End WalkFacts.

(** ** The archive exporter *)

Section ZipFacts.
Context `{Collaborators}.

Lemma diverge_app (p q p' q' : path) : diverge p q → diverge (p ++ p') (q ++ q').
Proof.
  intros (common & a & b & p0 & q0 & -> & -> & Hab).
  exists common, a, b, (p0 ++ p'), (q0 ++ q').
  by rewrite <- !app_assoc.
Qed.

Lemma diverge_sym (p q : path) : diverge p q → diverge q p.
Proof.
  intros (common & a & b & p0 & q0 & -> & -> & Hab).
  exists common, b, a, q0, p0. by repeat split.
Qed.



End ZipFacts.

(** ** The services on the examples *)

Lemma persisted_author_list_witness :
  author_data_of <$> persisted_authors (session (db example_world)) 1
  = [{| ad_name := "Lovelace, Ada"; ad_affiliation := "Analytical Engines";
        ad_orcid := "0000-0001-2345-6789" |}].
Proof.
  apply (@persisted_author_list (example_collaborators true) example_form example_user).
  left. exists example_fs, empty_world.
  exists {| ds_id := 1; ds_user_id := 7; ds_ds_meta_data_id := 1 |}, example_world.
  eexists. split; [|split; [reflexivity|split; reflexivity]].
  repeat split; intros ? ?; simpl; done.
Defined.

Lemma update_replaces_authors_witness :
  let w1 := snd (@update_from_form (example_collaborators true) example_form
                   example_user example_dataset example_world) in
  let w2 := snd (@update_from_form (example_collaborators true) example_update_form
                   example_user example_dataset w1) in
  author_data_of <$> persisted_authors (session (db w2)) 1
  = [{| ad_name := "Hopper, Grace"; ad_affiliation := "Yale"; ad_orcid := "" |};
     {| ad_name := "Turing, Alan"; ad_affiliation := "Manchester"; ad_orcid := "" |}].
Proof.
  intros w1 w2.
  eapply (@update_replaces_authors (example_collaborators true)
            example_form example_user example_update_form example_user
            example_dataset example_world _ w1 _ w2); reflexivity.
Defined.

Lemma update_from_form_frame_witness :
  let w' := snd (@update_from_form (example_collaborators true) example_update_form
                   example_user example_dataset example_world) in
  feature_model_tbl (session (db w')) = feature_model_tbl (session (db example_world)).
Proof.
  intros w'.
  eapply (@update_from_form_frame (example_collaborators true) example_update_form
            example_user example_dataset example_world _ w' (session (db w'))).
  - reflexivity.
  - intros a Hin Hfm. vm_compute in Hin.
    destruct Hin as [<-|[<-|[]]]; [by destruct Hfm|done].
  - reflexivity.
  - by left.
Defined.




(** ** The trackers: uniqueness and isolation *)

Section TrackerExtras.
Context `{Collaborators}.

(** Every run of [create_cookie]: the session after it. *)
Lemma create_cookie_cases (k : TrackerKind) (cookies : gmap string string)
    (uuid4 : string) (now : nat) (dataset : DataSet) (w w' : World) r :
  create_cookie k cookies uuid4 now dataset w = (r, w') →
  let token := resolved_cookie k cookies uuid4 in
  let tbl := rows (tracker_table k) (session (db w)) in
  log w' = log w
  ∧ ((session (db w') = session (db w)
      ∧ (is_Some (List.find (tracks dataset token) tbl) ∧ r = Ok token
         ∨ List.find (tracks dataset token) tbl = None ∧ ∃ exc, r = Raise exc))
     ∨ (List.find (tracks dataset token) tbl = None ∧ r = Ok token
        ∧ session (db w')
          = set_rows (tracker_table k)
              (tbl ++ [{| tr_id := next_id (tracker_table k) (session (db w));
                          tr_dataset_id := ds_id (ds_row dataset);
                          tr_date := now; tr_cookie := token |}])
              (session (db w)))).
Proof.
  assert (create_cookie k = create_cookie_on (tracker_table k) (tracker_cookie_name k))
    as -> by by destruct k.
  intros Hrun token tbl. revert Hrun.
  unfold create_cookie_on, the_record_exists, create_new_record, create, bind, ret.
  change (match cookies !! tracker_cookie_name k with
          | Some (String c rest) => String c rest
          | Some EmptyString | None => uuid4
          end) with token.
  fold (tracks dataset token). fold tbl.
  destruct (List.find (tracks dataset token) tbl) as [r0|] eqn:Hfind.
  - intros [= <- <-]. split; [done|]. left. split; [done|]. left. split; [by eexists|done].
  - destruct (db_accepts _).
    + intros [= <- <-]. split; [done|]. right. split; [done|]. split; [done|].
      by rewrite session_write.
    + intros [= <- <-]. split; [done|]. left. split; [done|]. right. split; [done|].
      by eexists.
Qed.

Lemma not_tracked_key (dataset : DataSet) (token : string) (l : list TrackingRow) :
  List.find (tracks dataset token) l = None →
  (ds_id (ds_row dataset), token) ∉ tracking_key <$> l.
Proof.
  intros Hfind Hin. apply list_elem_of_fmap in Hin as (r & Hkey & Hin).
  apply list_elem_of_In in Hin.
  pose proof (find_none _ _ Hfind r Hin) as Hr.
  unfold tracking_key in Hkey. injection Hkey as Hd Hc.
  unfold tracks in Hr. by rewrite <- Hd, <- Hc, Nat.eqb_refl, String_eqb_refl in Hr.
Qed.

Lemma tracker_rows_set_rows (k : TrackerKind) (l : list TrackingRow) (s : Store) :
  rows (tracker_table k) (set_rows (tracker_table k) l s) = l.
Proof. by destruct k. Qed.

Lemma other_tracker_rows_set_rows (k : TrackerKind) (l : list TrackingRow) (s : Store) :
  rows (tracker_table (other_tracker k)) (set_rows (tracker_table k) l s)
  = rows (tracker_table (other_tracker k)) s.
Proof. by destruct k. Qed.

(** X1. A tracker keeps its table free of duplicates: whatever the cookie, the
    draw of [uuid4] and the outcome, if no two records of the table were of
    the same dataset and token before [create_cookie], none are afterwards,
    and the keys of the records stay distinct. *)
Theorem create_cookie_keeps_unique (k : TrackerKind) (cookies : gmap string string)
    (uuid4 : string) (now : nat) (dataset : DataSet) (w w' : World) r :
  create_cookie k cookies uuid4 now dataset w = (r, w') →
  unique_tracking (rows (tracker_table k) (session (db w))) →
  unique_tracking (rows (tracker_table k) (session (db w'))).
Proof.
  intros Hrun [Hkeys Hids].
  apply create_cookie_cases in Hrun as [_ [[-> _]|(Hnone & _ & ->)]]; [done|].
  rewrite tracker_rows_set_rows. unfold unique_tracking.
  rewrite !fmap_app. split.
  - apply NoDup_app. split; [done|]. split; [|apply NoDup_singleton].
    intros key Hin Hin'. apply list_elem_of_singleton in Hin' as ->.
    by apply (not_tracked_key _ _ _ Hnone).
  - apply NoDup_app. split; [done|]. split; [|apply NoDup_singleton].
    intros i Hin Hin'. apply list_elem_of_singleton in Hin' as ->.
    apply max_list_elem_of_le in Hin. unfold next_id in Hin.
    destruct k; simpl in Hin; lia.
Qed.

(** X2. The trackers do not disturb one another, nor anything else: a run of
    [create_cookie] of one tracker, whatever its outcome, leaves the table of
    the other tracker and the tables of datasets, metadata, authors, feature
    models and files of the session as they were, and writes nothing to the
    log. *)
Theorem create_cookie_isolated (k : TrackerKind) (cookies : gmap string string)
    (uuid4 : string) (now : nat) (dataset : DataSet) (w w' : World) r :
  create_cookie k cookies uuid4 now dataset w = (r, w') →
  let s := session (db w) in
  let s' := session (db w') in
  rows (tracker_table (other_tracker k)) s' = rows (tracker_table (other_tracker k)) s
  ∧ ds_meta_data_tbl s' = ds_meta_data_tbl s
  ∧ fm_meta_data_tbl s' = fm_meta_data_tbl s
  ∧ author_tbl s' = author_tbl s
  ∧ data_set_tbl s' = data_set_tbl s
  ∧ feature_model_tbl s' = feature_model_tbl s
  ∧ file_tbl s' = file_tbl s
  ∧ log w' = log w.
Proof.
  intros Hrun s s'.
  apply create_cookie_cases in Hrun as [Hlog [[Hs _]|(_ & _ & Hs)]];
    subst s'; rewrite Hs; [done|].
  rewrite other_tracker_rows_set_rows. by destruct k.
Qed.

(** X3. The totals follow the trackers. After a [create_cookie] of the
    download tracker that returns, [total_dataset_downloads] has grown by one
    if the token was not yet recorded for the dataset and is unchanged if it
    was; [total_dataset_views] is unchanged either way. *)
Theorem total_dataset_downloads_after_cookie (cookies : gmap string string)
    (uuid4 : string) (now : nat) (dataset : DataSet) (w w' : World) token :
  DSDownloadRecordService_create_cookie cookies uuid4 now dataset w = (Ok token, w') →
  let recorded :=
    List.find (tracks dataset token) (ds_download_record_tbl (session (db w))) in
  ∃ n v,
    total_dataset_downloads DataSetService_init w = (Ok n, w)
    ∧ total_dataset_views DataSetService_init w = (Ok v, w)
    ∧ total_dataset_downloads DataSetService_init w'
      = (Ok (match recorded with Some _ => n | None => S n end), w')
    ∧ total_dataset_views DataSetService_init w' = (Ok v, w').
Proof.
  intros Hrun recorded.
  exists (length (ds_download_record_tbl (session (db w)))),
         (length (ds_view_record_tbl (session (db w)))).
  split; [reflexivity|]. split; [reflexivity|].
  change (DSDownloadRecordService_create_cookie cookies uuid4 now dataset w)
    with (create_cookie DownloadTracker cookies uuid4 now dataset w) in Hrun.
  apply create_cookie_cases in Hrun as [_ Hcases]. simpl in Hcases.
  rewrite total_dataset_downloads_ok, total_dataset_views_ok.
  destruct Hcases as [[Hs [[Hsome [= Htok]]|[_ [exc [=]]]]]|(Hnone & [= Htok] & Hs)].
  - rewrite Hs. subst recorded. rewrite Htok. by destruct Hsome as [r0 ->].
  - rewrite Hs. subst recorded. rewrite Htok, Hnone. simpl.
    rewrite length_app. simpl. by rewrite Nat.add_1_r.
Qed.

End TrackerExtras.

Lemma create_cookie_keeps_unique_witness :
  unique_tracking
    (ds_download_record_tbl
       (session (db (snd (@create_cookie (example_collaborators true) DownloadTracker
                            ∅ "uuid-1" 10 example_dataset example_world))))).
Proof.
  apply (@create_cookie_keeps_unique (example_collaborators true) DownloadTracker
           ∅ "uuid-1" 10 example_dataset example_world _ (Ok "uuid-1")).
  - by vm_compute.
  - split; constructor.
Defined.

Lemma create_cookie_isolated_witness :
  ds_view_record_tbl
    (session (db (snd (@create_cookie (example_collaborators true) DownloadTracker
                         ∅ "uuid-1" 10 example_dataset example_world))))
  = ds_view_record_tbl (session (db example_world)).
Proof.
  apply (@create_cookie_isolated (example_collaborators true) DownloadTracker
           ∅ "uuid-1" 10 example_dataset example_world _ (Ok "uuid-1")).
  by vm_compute.
Defined.

Lemma total_dataset_downloads_after_cookie_witness :
  ∃ n v,
    @total_dataset_downloads (example_collaborators true) DataSetService_init
      example_world = (Ok n, example_world)
    ∧ @total_dataset_views (example_collaborators true) DataSetService_init
        example_world = (Ok v, example_world)
    ∧ @total_dataset_downloads (example_collaborators true) DataSetService_init
        (snd (@DSDownloadRecordService_create_cookie (example_collaborators true)
                ∅ "uuid-1" 10 example_dataset example_world))
      = (Ok (S n),
         snd (@DSDownloadRecordService_create_cookie (example_collaborators true)
                ∅ "uuid-1" 10 example_dataset example_world))
    ∧ @total_dataset_views (example_collaborators true) DataSetService_init
        (snd (@DSDownloadRecordService_create_cookie (example_collaborators true)
                ∅ "uuid-1" 10 example_dataset example_world))
      = (Ok v,
         snd (@DSDownloadRecordService_create_cookie (example_collaborators true)
                ∅ "uuid-1" 10 example_dataset example_world)).
Proof.
  apply (@total_dataset_downloads_after_cookie (example_collaborators true)
           ∅ "uuid-1" 10 example_dataset example_world _ "uuid-1").
  by vm_compute.
Defined.

(** ** The workflow: the rows of a creation *)

Section CreateExtras.
Context `{Collaborators}.

Lemma fm_rows_list_length fs current_user dsid fms mds rows files :
  fm_rows_list fs current_user dsid fms mds rows files →
  length mds = length fms ∧ length rows = length fms ∧ length files = length fms.
Proof. induction 1; simpl; [done|]. lia. Qed.


(** One round of the loop over the feature models, with the file it read. *)
Lemma create_feature_model_rows fs current_user dataset f w w' :
  create_feature_model fs current_user dataset f w = (Ok tt, w') →
  let s := session (db w) in
  ∃ m auths r file,
    fm_rows fs current_user (ds_id dataset) f m r file
    ∧ length auths = length (fmform_authors f)
    ∧ Forall (λ a, author_ds_meta_data_id a = None) auths
    ∧ w' = write false
             {| ds_meta_data_tbl := ds_meta_data_tbl s;
                fm_meta_data_tbl := fm_meta_data_tbl s ++ [m];
                author_tbl := author_tbl s ++ auths;
                data_set_tbl := data_set_tbl s;
                feature_model_tbl := feature_model_tbl s ++ [r];
                file_tbl := file_tbl s ++ [file];
                ds_download_record_tbl := ds_download_record_tbl s;
                ds_view_record_tbl := ds_view_record_tbl s |} w.
Proof.
  intros Hrun s. unfold create_feature_model in Hrun.
  apply bind_ok in Hrun as (m & w1 & Hm & Hrun).
  apply create_ok in Hm as (-> & _ & ->).
  apply bind_ok in Hrun as ([] & w2 & Hauth & Hrun).
  apply author_loop_ok in Hauth as (auths & -> & Hauths).
  apply bind_ok in Hrun as (r & w3 & Hfm & Hrun).
  apply create_ok in Hfm as (-> & _ & ->).
  apply bind_ok in Hrun as (cs & w4 & Hcs & Hrun).
  unfold lift in Hcs. injection Hcs as Hcs <-.
  apply bind_ok in Hrun as (file & w5 & Hfile & [= <-]).
  apply create_ok in Hfile as (-> & _ & ->).
  unfold calculate_checksum_and_size in Hcs.
  destruct (lookup_node fs _) as [[d|es]|] eqn:Hlook; try done.
  injection Hcs as <-.
  destruct (author_rows_data _ _ _ _ Hauths) as [Hdata Hfks].
  do 4 eexists. split; [|split; [|split; [|reflexivity]]].
  - split; try reflexivity. exists d. by repeat split.
  - apply Forall2_length in Hauths. unfold fm_get_authors in Hauths.
    by rewrite length_fmap in Hauths.
  - eapply Forall_impl; [exact Hfks|]. by intros a [? _].
Qed.

(** The loop over the feature models: the rows it has added. *)
Lemma fm_loop_rows fs current_user dataset (fms : list FeatureModelForm) w w' :
  for_each fms (create_feature_model fs current_user dataset) w = (Ok tt, w') →
  let s := session (db w) in
  ∃ mds auths rows files,
    fm_rows_list fs current_user (ds_id dataset) fms mds rows files
    ∧ length auths = fm_author_count fms
    ∧ Forall (λ a, author_ds_meta_data_id a = None) auths
    ∧ w' = write false
             {| ds_meta_data_tbl := ds_meta_data_tbl s;
                fm_meta_data_tbl := fm_meta_data_tbl s ++ mds;
                author_tbl := author_tbl s ++ auths;
                data_set_tbl := data_set_tbl s;
                feature_model_tbl := feature_model_tbl s ++ rows;
                file_tbl := file_tbl s ++ files;
                ds_download_record_tbl := ds_download_record_tbl s;
                ds_view_record_tbl := ds_view_record_tbl s |} w.
Proof.
  revert w w'. induction fms as [|f fms IH]; intros w w'; simpl.
  - intros [= <-]. exists [], [], [], []. split; [constructor|].
    split; [done|]. split; [done|].
    rewrite !app_nil_r. destruct w as [[c s] lg]. by destruct s.
  - intros Hrun.
    apply bind_ok in Hrun as ([] & w1 & Hstep & Hrun).
    apply create_feature_model_rows in Hstep
      as (m & auths & r & file & Hrows & Hlen & Hnone & ->).
    apply IH in Hrun as (mds & auths' & rows & files & Hrest & Hlen' & Hnone' & ->).
    exists (m :: mds), (auths ++ auths'), (r :: rows), (file :: files).
    split; [by constructor|]. split.
    { rewrite length_app, Hlen, Hlen'. unfold fm_author_count. by csimpl. }
    split; [by apply Forall_app|].
    unfold write. simpl. by rewrite <- !app_assoc.
Qed.

(** A successful [create_from_form]: the session after it, table by table. *)
Lemma create_from_form_tables fs form current_user w dataset w' :
  create_from_form fs form current_user w = (Ok dataset, w') →
  let s := session (db w) in
  ∃ ds_auths mds fm_auths rows files,
    session (db w')
    = {| ds_meta_data_tbl := ds_meta_data_tbl s ++ [new_dsmetadata form w];
         fm_meta_data_tbl := fm_meta_data_tbl s ++ mds;
         author_tbl := author_tbl s ++ ds_auths ++ fm_auths;
         data_set_tbl := data_set_tbl s ++ [dataset];
         feature_model_tbl := feature_model_tbl s ++ rows;
         file_tbl := file_tbl s ++ files;
         ds_download_record_tbl := ds_download_record_tbl s;
         ds_view_record_tbl := ds_view_record_tbl s |}
    ∧ committed (db w') = session (db w')
    ∧ log w' = log w ++ [LogCreating (get_dsmetadata form)]
    ∧ dataset = {| ds_id := next_id data_set_table s;
                   ds_user_id := user_id current_user;
                   ds_ds_meta_data_id := next_id ds_meta_data_table s |}
    ∧ Forall2 (author_row_of (Some (next_id ds_meta_data_table s)) None)
        (author_list_of form (main_author_of current_user)) ds_auths
    ∧ fm_rows_list fs current_user (ds_id dataset) (form_feature_models form)
        mds rows files
    ∧ length fm_auths = fm_author_count (form_feature_models form)
    ∧ Forall (λ a, author_ds_meta_data_id a = None) fm_auths.
Proof.
  intros Hrun s.
  apply create_from_form_ok_inv in Hrun. unfold create_from_form_try in Hrun.
  apply bind_ok in Hrun as ([] & w0 & Hlog & Hrun).
  unfold logger_info in Hlog. injection Hlog as <-.
  apply bind_ok in Hrun as (md & w1 & Hmd & Hrun).
  apply create_ok in Hmd as (Hmd & _ & Hw1). simpl in Hmd, Hw1.
  fold s in Hmd, Hw1. fold (new_dsmetadata form w) in Hmd. subst md.
  apply bind_ok in Hrun as ([] & w2 & Hauth & Hrun).
  apply author_loop_ok in Hauth as (auths & Hw2 & Hauths).
  rewrite Hw1, session_write in Hw2. simpl in Hw2.
  apply bind_ok in Hrun as (ds & w3 & Hds & Hrun).
  apply create_ok in Hds as (Hds & _ & Hw3).
  rewrite Hw2, session_write in Hds, Hw3. simpl in Hds, Hw3.
  apply bind_ok in Hrun as ([] & w4 & Hfms & Hrun).
  apply fm_loop_rows in Hfms as (mds & fm_auths & rows & files & Hrows & Hlen & Hnone & Hw4).
  rewrite Hw3, session_write in Hw4. simpl in Hw4.
  unfold bind, session_commit, ret in Hrun. injection Hrun as <- <-.
  exists auths, mds, fm_auths, rows, files.
  rewrite Hw4. simpl. rewrite <- app_assoc.
  unfold next_id in Hds. simpl in Hds.
  by repeat split.
Qed.

End CreateExtras.

(** ** The workflow: what a creation adds and what a failure leaves *)

Section CreateTheorems.
Context `{Collaborators}.

(** X4. A successful [create_from_form] adds exactly the rows of one dataset:
    one metadata row and one dataset row, owned by the current user and linked
    to that metadata row, one metadata row, one feature-model row and one file
    row per feature-model entry, one author row per resolved author and per
    author entry of the feature models. The rows that were there come first
    and unchanged, the tracking tables are untouched, everything is committed,
    and the log has one more entry. *)
Theorem create_from_form_adds_rows fs form current_user w dataset w' :
  create_from_form fs form current_user w = (Ok dataset, w') →
  let s := session (db w) in
  let s' := session (db w') in
  let n := length (form_feature_models form) in
  ds_meta_data_tbl s' = ds_meta_data_tbl s ++ [new_dsmetadata form w]
  ∧ data_set_tbl s' = data_set_tbl s ++ [dataset]
  ∧ ds_user_id dataset = user_id current_user
  ∧ ds_ds_meta_data_id dataset = dsmd_id (new_dsmetadata form w)
  ∧ (fm_meta_data_tbl s `prefix_of` fm_meta_data_tbl s'
     ∧ length (fm_meta_data_tbl s') = length (fm_meta_data_tbl s) + n)
  ∧ (feature_model_tbl s `prefix_of` feature_model_tbl s'
     ∧ length (feature_model_tbl s') = length (feature_model_tbl s) + n)
  ∧ (file_tbl s `prefix_of` file_tbl s'
     ∧ length (file_tbl s') = length (file_tbl s) + n)
  ∧ (author_tbl s `prefix_of` author_tbl s'
     ∧ length (author_tbl s')
       = length (author_tbl s)
         + length (author_list_of form (main_author_of current_user))
         + fm_author_count (form_feature_models form))
  ∧ ds_download_record_tbl s' = ds_download_record_tbl s
  ∧ ds_view_record_tbl s' = ds_view_record_tbl s
  ∧ committed (db w') = s'
  ∧ log w' = log w ++ [LogCreating (get_dsmetadata form)].
Proof.
  intros Hrun s s' n.
  apply create_from_form_tables in Hrun
    as (ds_auths & mds & fm_auths & rows & files & Hs' & Hc & Hlog & Hds & Hauths
        & Hrows & Hlen & _).
  fold s in Hs', Hds, Hauths. subst s'. rewrite Hc, Hs'. simpl.
  apply fm_rows_list_length in Hrows as (Hmds & Hrws & Hfiles).
  apply Forall2_length in Hauths.
  rewrite !length_app, Hmds, Hrws, Hfiles, Hlen, <- Hauths.
  repeat split; try done; try (by eexists); try by rewrite Hds.
  lia.
Qed.


(** Every failure of [create_from_form]: what is committed afterwards, with
    nothing pending. *)
Lemma create_from_form_failure fs form current_user w exc w' :
  create_from_form fs form current_user w = (Raise exc, w') →
  session (db w') = committed (db w')
  ∧ log w' = log w ++ [LogCreating (get_dsmetadata form); LogCreateException exc]
  ∧ (committed (db w') = committed (db w)
     ∨ committed (db w')
       = set_rows ds_meta_data_table
           (ds_meta_data_tbl (session (db w)) ++ [new_dsmetadata form w])
           (session (db w))).
Proof.
  intros Hrun.
  apply create_from_form_raise_inv in Hrun as (w0 & Hrun & ->). simpl.
  unfold create_from_form_try in Hrun.
  apply bind_raise in Hrun as [Hrun|(u & w1 & Hlog & Hrun)]; [done|].
  unfold logger_info in Hlog. simplify_eq.
  apply bind_raise in Hrun as [Hrun|(md & w2 & Hmd & Hrun)].
  { apply create_raise in Hrun as [-> _]. simpl.
    split; [done|]. split; [by rewrite <- app_assoc|]. by left. }
  apply create_ok in Hmd as (-> & _ & ->).
  apply create_from_form_rest_clean in Hrun as [-> ->].
  rewrite log_write. simpl. split; [done|]. split; [by rewrite <- app_assoc|].
  unfold write. destruct default_commit; simpl; [by right|by left].
Qed.

(** X6. A failed [create_from_form] leaves no dataset behind. Started on a
    clean session, whatever step raised, afterwards nothing is pending, no
    author, dataset, feature-model, feature-model metadata or file row of the
    call is committed and the tracking tables are untouched; of the whole call
    at most its metadata row remains; the log has the entry of the call and
    the entry of the exception. *)
Theorem create_from_form_failure_leaves fs form current_user w exc w' :
  session (db w) = committed (db w) →
  create_from_form fs form current_user w = (Raise exc, w') →
  let s := session (db w) in
  let c' := committed (db w') in
  session (db w') = c'
  ∧ author_tbl c' = author_tbl s
  ∧ data_set_tbl c' = data_set_tbl s
  ∧ feature_model_tbl c' = feature_model_tbl s
  ∧ fm_meta_data_tbl c' = fm_meta_data_tbl s
  ∧ file_tbl c' = file_tbl s
  ∧ ds_download_record_tbl c' = ds_download_record_tbl s
  ∧ ds_view_record_tbl c' = ds_view_record_tbl s
  ∧ (ds_meta_data_tbl c' = ds_meta_data_tbl s
     ∨ ds_meta_data_tbl c' = ds_meta_data_tbl s ++ [new_dsmetadata form w])
  ∧ log w' = log w ++ [LogCreating (get_dsmetadata form); LogCreateException exc].
Proof.
  intros Hclean Hrun s c'.
  apply create_from_form_failure in Hrun as (Hs & Hlog & [Hc|Hc]);
    subst c'; rewrite Hs, Hc, <- ?Hclean; simpl; repeat split; auto.
Qed.






End CreateTheorems.

(** ** The workflow: what an update writes *)

Section UpdateExtras.
Context `{Collaborators}.

Lemma overwrite_fields_absent id fields (tbl : list DSMetaDataRow) :
  List.find (λ r, Nat.eqb (dsmd_id r) id) tbl = None →
  overwrite_fields id fields tbl = tbl.
Proof.
  unfold overwrite_fields. induction tbl as [|r tbl IH]; [done|].
  cbn [List.find]. rewrite fmap_cons.
  destruct (Nat.eqb (dsmd_id r) id); [done|]. intros Hfind. by rewrite IH.
Qed.

Lemma overwrite_fields_keys id fields (tbl : list DSMetaDataRow) :
  dsmd_id <$> overwrite_fields id fields tbl = dsmd_id <$> tbl.
Proof.
  unfold overwrite_fields. rewrite <- list_fmap_compose.
  apply list_fmap_ext. intros i r _. simpl.
  destruct (Nat.eqb_spec (dsmd_id r) id); done.
Qed.

Lemma overwrite_fields_find id fields (tbl : list DSMetaDataRow) :
  is_Some (List.find (λ r, Nat.eqb (dsmd_id r) id) tbl) →
  List.find (λ r, Nat.eqb (dsmd_id r) id) (overwrite_fields id fields tbl)
  = Some {| dsmd_id := id; dsmd_fields := fields |}.
Proof.
  unfold overwrite_fields. induction tbl as [|r tbl IH]; [by intros [? ?]|].
  cbn [List.find]. rewrite fmap_cons. cbn [List.find].
  destruct (Nat.eqb (dsmd_id r) id) eqn:Hr; cbn [dsmd_id].
  - by rewrite Nat.eqb_refl.
  - rewrite Hr. apply IH.
Qed.

Lemma dsmetadata_update_session id fields w o w' :
  dsmetadata_update id fields w = (Ok o, w') →
  session (db w')
  = set_rows ds_meta_data_table
      (overwrite_fields id fields (ds_meta_data_tbl (session (db w)))) (session (db w))
  ∧ log w' = log w
  ∧ (o = None ↔ List.find (λ r, Nat.eqb (dsmd_id r) id)
                  (ds_meta_data_tbl (session (db w))) = None).
Proof.
  unfold dsmetadata_update.
  destruct (List.find _ _) as [r|] eqn:Hfind.
  - intros [= <- <-]. rewrite session_write. by repeat split.
  - intros [= <- <-]. rewrite overwrite_fields_absent by done.
    split; [|done]. destruct w as [[c s] lg]. by destruct s.
Qed.

(** The [try] block of [update_from_form] when it ends well. *)
Lemma update_from_form_try_ok form current_user dataset w w' :
  update_from_form_try form current_user dataset w = (Ok tt, w') →
  let id := dsmd_id (dsmd_row (ds_meta_data dataset)) in
  let s := session (db w) in
  ∃ new,
    session (db w')
    = {| ds_meta_data_tbl :=
           overwrite_fields id (get_dsmetadata form) (ds_meta_data_tbl s);
         fm_meta_data_tbl := fm_meta_data_tbl s;
         author_tbl := List.filter (other_owner id) (author_tbl s) ++ new;
         data_set_tbl := data_set_tbl s;
         feature_model_tbl := feature_model_tbl s;
         file_tbl := file_tbl s;
         ds_download_record_tbl := ds_download_record_tbl s;
         ds_view_record_tbl := ds_view_record_tbl s |}
    ∧ committed (db w') = session (db w')
    ∧ log w' = log w ++ [LogUpdating (get_dsmetadata form)]
    ∧ Forall2 (author_row_of (Some id) None)
        (author_list_of form (main_author_of current_user)) new.
Proof.
  intros Hbody id s. unfold update_from_form_try in Hbody. fold id in Hbody.
  apply bind_ok in Hbody as ([] & wa & Hlog & Hbody).
  unfold logger_info in Hlog. injection Hlog as <-.
  apply bind_ok in Hbody as (o & wb & Hupd & Hbody).
  pose proof (dsmetadata_update_session _ _ _ _ _ Hupd) as (Hsb & Hlb & _).
  simpl in Hsb, Hlb.
  assert (∀ r', o = Some r' → dsmd_id r' = id) as Hid.
  { intros r' Ho.
    destruct (dsmetadata_update_run id (get_dsmetadata form)
                {| db := db w; log := log w ++ [LogUpdating (get_dsmetadata form)] |})
      as [Hr|Hr]; rewrite Hr in Hupd; injection Hupd as Ho' _; by simplify_eq. }
  apply bind_ok in Hbody as ([] & wc & Hdel & Hbody).
  rewrite author_delete_ds_meta_data_id in Hdel. injection Hdel as <-.
  apply bind_ok in Hbody as ([] & wd & Hloop & Hcommit).
  apply (update_author_loop_ok o id _ _ _ Hid) in Hloop as (new & -> & Hnew).
  unfold session_commit in Hcommit. injection Hcommit as <-.
  exists new. destruct default_commit; simpl; rewrite Hsb, Hlb; simpl.
  all: by repeat split.
Qed.

Lemma update_from_form_ok_inv form current_user dataset w r w' :
  update_from_form form current_user dataset w = (Ok r, w') →
  update_from_form_try form current_user dataset w = (Ok tt, w')
  ∧ r = List.find (λ d, Nat.eqb (ds_id d) (ds_id (ds_row dataset)))
          (data_set_tbl (session (db w'))).
Proof.
  intros Hrun. unfold update_from_form in Hrun.
  apply bind_ok in Hrun as ([] & w1 & Htry & Hget).
  unfold get_by_id in Hget. injection Hget as <- <-.
  unfold try_except in Htry.
  destruct (update_from_form_try _ _ _ w) as [[[]|exc] w0]; [|done].
  by injection Htry as <-.
Qed.

Lemma update_from_form_raise_inv form current_user dataset w exc w' :
  update_from_form form current_user dataset w = (Raise exc, w') →
  ∃ w0, update_from_form_try form current_user dataset w = (Raise exc, w0)
        ∧ w' = {| db := rollback (db w0); log := log w0 ++ [LogUpdateException exc] |}.
Proof.
  intros Hrun. unfold update_from_form in Hrun.
  apply bind_raise in Hrun as [Htry|([] & w1 & Htry & Hget)]; [|done].
  unfold try_except in Htry.
  destruct (update_from_form_try _ _ _ w) as [[[]|exc0] w0]; [done|].
  unfold bind, logger_info, session_rollback, raise in Htry.
  injection Htry as <- <-. eauto.
Qed.

Lemma update_from_form_except form current_user dataset w exc w0 :
  update_from_form_try form current_user dataset w = (Raise exc, w0) →
  update_from_form form current_user dataset w
  = (Raise exc, {| db := rollback (db w0); log := log w0 ++ [LogUpdateException exc] |}).
Proof.
  intros Hrun. unfold update_from_form, try_except, bind at 1. by rewrite Hrun.
Qed.

(** X8. A successful [update_from_form] overwrites the metadata row in place
    and returns the dataset row reloaded by its key: the metadata table keeps
    its keys and its length, the row of the dataset's metadata, when there is
    one, carries the fields of the form, the other metadata rows, the dataset
    rows, feature models, files and tracking records of the session are as
    before, everything is committed and the log has one more entry. *)
Theorem update_from_form_overwrites form current_user dataset w r w' :
  update_from_form form current_user dataset w = (Ok r, w') →
  let id := dsmd_id (dsmd_row (ds_meta_data dataset)) in
  let s := session (db w) in
  let s' := session (db w') in
  ds_meta_data_tbl s' = overwrite_fields id (get_dsmetadata form) (ds_meta_data_tbl s)
  ∧ dsmd_id <$> ds_meta_data_tbl s' = dsmd_id <$> ds_meta_data_tbl s
  ∧ (is_Some (List.find (λ md, Nat.eqb (dsmd_id md) id) (ds_meta_data_tbl s)) →
     List.find (λ md, Nat.eqb (dsmd_id md) id) (ds_meta_data_tbl s')
     = Some {| dsmd_id := id; dsmd_fields := get_dsmetadata form |})
  ∧ r = List.find (λ d, Nat.eqb (ds_id d) (ds_id (ds_row dataset))) (data_set_tbl s)
  ∧ data_set_tbl s' = data_set_tbl s
  ∧ feature_model_tbl s' = feature_model_tbl s
  ∧ fm_meta_data_tbl s' = fm_meta_data_tbl s
  ∧ file_tbl s' = file_tbl s
  ∧ ds_download_record_tbl s' = ds_download_record_tbl s
  ∧ ds_view_record_tbl s' = ds_view_record_tbl s
  ∧ committed (db w') = s'
  ∧ log w' = log w ++ [LogUpdating (get_dsmetadata form)].
Proof.
  intros Hrun id s s'.
  apply update_from_form_ok_inv in Hrun as [Htry ->].
  apply update_from_form_try_ok in Htry as (new & Hs' & Hc & Hlog & _).
  fold id s in Hs'. subst s'. rewrite Hc, Hs'. simpl.
  repeat split; try done.
  - apply overwrite_fields_keys.
  - apply overwrite_fields_find.
Qed.

(** A failing author loop of [update_from_form] writes nothing to the log. *)
Lemma update_author_loop_raise_log (dsmetadata : option DSMetaDataRow)
    (l : list AuthorData) w exc w' :
  for_each l (λ author_data,
    md_id <- id_of dsmetadata ;;
    create author_table false (new_author (Some md_id) None author_data) ;;
    ret tt) w = (Raise exc, w') →
  log w' = log w.
Proof.
  revert w. induction l as [|a l IH]; intros w; simpl; [done|].
  intros Hrun. apply bind_raise in Hrun as [Hrun|([] & w4 & Hstep & Hrun)].
  - apply bind_raise in Hrun as [Hrun|(md_id & w4 & Hid & Hrun)].
    + unfold id_of, raise, ret in Hrun. destruct dsmetadata; by simplify_eq.
    + assert (w4 = w) as ->
        by (unfold id_of, raise, ret in Hid; destruct dsmetadata; by simplify_eq).
      apply bind_raise in Hrun as [Hrun|(? & w5 & _ & Hrun)]; [|done].
      by apply create_raise in Hrun as [-> _].
  - apply IH in Hrun as ->.
    apply bind_ok in Hstep as (md_id & w5 & Hid & Hstep).
    assert (w5 = w) as ->
      by (unfold id_of, raise, ret in Hid; destruct dsmetadata; by simplify_eq).
    apply bind_ok in Hstep as (? & w6 & Hcreate & [= <-]).
    by apply create_ok in Hcreate as (_ & _ & ->).
Qed.

(** X9. A failed [update_from_form] is logged and rolled back, and the
    exception of the [try] block is the one that is raised: afterwards nothing
    is pending and the log has the entry of the call and the entry of the
    exception. *)
Theorem update_from_form_failure form current_user dataset w exc w' :
  update_from_form form current_user dataset w = (Raise exc, w') →
  (∃ w0, update_from_form_try form current_user dataset w = (Raise exc, w0))
  ∧ session (db w') = committed (db w')
  ∧ log w' = log w ++ [LogUpdating (get_dsmetadata form); LogUpdateException exc].
Proof.
  intros Hrun.
  apply update_from_form_raise_inv in Hrun as (w0 & Hrun & ->).
  split; [by eexists|]. split; [done|]. simpl.
  assert (log w0 = log w ++ [LogUpdating (get_dsmetadata form)]) as ->;
    [|by rewrite <- app_assoc].
  unfold update_from_form_try in Hrun.
  apply bind_raise in Hrun as [Hrun|(u & w1 & Hlog & Hrun)]; [done|].
  unfold logger_info in Hlog. simplify_eq.
  apply bind_raise in Hrun as [Hrun|(o & w2 & Hupd & Hrun)].
  { destruct (dsmetadata_update_run (dsmd_id (dsmd_row (ds_meta_data dataset)))
                (get_dsmetadata form)
                {| db := db w; log := log w ++ [LogUpdating (get_dsmetadata form)] |})
      as [Hr|Hr]; by rewrite Hr in Hrun. }
  apply dsmetadata_update_session in Hupd as (_ & Hl2 & _). simpl in Hl2.
  apply bind_raise in Hrun as [Hrun|([] & w3 & Hdel & Hrun)].
  { by rewrite author_delete_ds_meta_data_id in Hrun. }
  rewrite author_delete_ds_meta_data_id in Hdel. injection Hdel as <-.
  apply bind_raise in Hrun as [Hrun|([] & w4 & Hloop & Hrun)]; [|done].
  apply update_author_loop_raise_log in Hrun as ->.
  by rewrite log_write.
Qed.

(** X10. [update_from_form] on a dataset whose metadata row is gone: when the
    resolved author list is not empty, the first author finds no metadata to
    attach to and the call raises [AttributeError]; nothing is pending
    afterwards. *)
Theorem update_from_form_missing_metadata form current_user dataset w :
  List.find (λ md, Nat.eqb (dsmd_id md) (dsmd_id (dsmd_row (ds_meta_data dataset))))
    (ds_meta_data_tbl (session (db w))) = None →
  author_list_of form (main_author_of current_user) ≠ [] →
  ∃ w', update_from_form form current_user dataset w = (Raise (AttributeError "id"), w')
        ∧ session (db w') = committed (db w').
Proof.
  intros Hfind Hne.
  assert (∃ w0, update_from_form_try form current_user dataset w
                = (Raise (AttributeError "id"), w0)) as [w0 Hw0].
  { unfold update_from_form_try.
    unfold bind at 1, logger_info.
    unfold bind at 1, dsmetadata_update. cbn [session db]. rewrite Hfind.
    unfold bind at 1. rewrite author_delete_ds_meta_data_id.
    destruct (author_list_of form (main_author_of current_user)) as [|a l]; [done|].
    eexists. reflexivity. }
  eexists. split; [by apply update_from_form_except|done].
Qed.

End UpdateExtras.

(** ** The form mapper after an update *)

Section UpdateMapper.
Context `{Collaborators}.





End UpdateMapper.

(** ** The archive exporter: what it leaves alone *)

Section ZipExtras.
Context `{Collaborators}.

Lemma mkdtemp_raise (tmpdir : path) (names : list string) (fs fs1 : node) exc :
  mkdtemp tmpdir names fs = (Raise exc, fs1) → fs1 = fs.
Proof.
  induction names as [|name names IH]; simpl; [by intros [= _ <-]|].
  destruct (lookup_node fs tmpdir) as [[d|es]|]; try by intros [= _ <-].
  destruct (List.find _ es); simpl; [done|].
  destruct (put_node fs (tmpdir ++ [name]) (Dir [])); by intros [= _ <-].
Qed.

Lemma mkdtemp_name (tmpdir : path) (names : list string) (fs fs1 : node) temp_dir :
  mkdtemp tmpdir names fs = (Ok temp_dir, fs1) →
  ∃ name, temp_dir = tmpdir ++ [name] ∧ In name names.
Proof.
  induction names as [|name names IH]; simpl; [done|].
  destruct (lookup_node fs tmpdir) as [[d|es]|]; try done.
  destruct (List.find _ es); simpl.
  - intros Hrun. destruct (IH Hrun) as (name' & -> & Hin). eauto.
  - destruct (put_node fs (tmpdir ++ [name]) (Dir [])); [|done].
    intros [= <- <-]. eauto.
Qed.

(** The file systems that [zip_dataset] can leave: the one it started from
    when no directory could be made, otherwise the one with the new directory
    and up to two writes of the archive below it. *)
Lemma zip_dataset_cases cwd tmpdir names dataset fs r fs' :
  zip_dataset cwd tmpdir names dataset fs = (r, fs') →
  (fs' = fs ∧ ∃ exc, r = Raise exc)
  ∨ ∃ name fs1,
      In name names
      ∧ mkdtemp tmpdir names fs = (Ok (tmpdir ++ [name]), fs1)
      ∧ (fs' = fs1 ∧ (∃ exc, r = Raise exc)
         ∨ ∃ fs2, put_node fs1 (tmpdir ++ [name] ++ [zip_name dataset])
                    (File (Archive [])) = Some fs2
             ∧ (fs' = fs2 ∧ (∃ exc, r = Raise exc)
                ∨ ∃ entries,
                    put_node fs2 (tmpdir ++ [name] ++ [zip_name dataset])
                      (File (Archive entries)) = Some fs'
                    ∧ r = Ok (tmpdir ++ [name]))).
Proof.
  unfold zip_dataset.
  destruct (mkdtemp tmpdir names fs) as [[temp_dir|exc] fs1] eqn:Hmk.
  2:{ intros [= <- <-]. left. apply mkdtemp_raise in Hmk as ->. eauto. }
  destruct (mkdtemp_name _ _ _ _ _ Hmk) as (name & -> & Hin).
  intros Hrun. right. exists name, fs1. split; [done|]. split; [done|].
  rewrite <- app_assoc in Hrun.
  destruct (put_node fs1 _ (File (Archive []))) as [fs2|] eqn:Hput1.
  2:{ injection Hrun as <- <-. left. eauto. }
  right. exists fs2. split; [done|].
  destruct (collect _ _) as [entries|exc].
  2:{ injection Hrun as <- <-. left. eauto. }
  destruct (put_node fs2 _ (File (Archive entries))) as [fs3|] eqn:Hput2.
  - injection Hrun as <- <-. right. eauto.
  - injection Hrun as <- <-. left. eauto.
Qed.

Lemma put_below_dir (p : path) (z : string) (fsa fsb c : node) :
  is_Some (lookup_node fsa p) →
  put_node fsa (p ++ [z]) c = Some fsb →
  is_Some (lookup_node fsb p)
  ∧ ∀ q, diverge p q → lookup_node fsb q = lookup_node fsa q.
Proof.
  intros Hsome Hp. split.
  - destruct Hsome as [[d|es] Hn].
    + exfalso. revert fsa fsb Hn Hp.
      induction p as [|x p IH]; intros fsa fsb; simpl lookup_node.
      * intros [= ->]. done.
      * destruct (child fsa x) as [n'|] eqn:Hc; [|done]. intros Hn'.
        simpl app. rewrite put_node_deep by (by destruct p). rewrite Hc.
        destruct (put_node n' (p ++ [z]) c) as [n''|] eqn:Hp'; [|done].
        intros _. by apply (IH _ _ Hn' Hp').
    + destruct (put_node_under fsa _ es z c Hn) as (fsb' & Hp' & Hl).
      rewrite Hp in Hp'. injection Hp' as <-.
      rewrite Hl. destruct (put_child_is_Some es z c) as [es' ->].
      by eexists.
  - intros q Hq. eapply lookup_put_node_diverge; [|exact Hp].
    rewrite <- (app_nil_r q). by apply diverge_app.
Qed.

(** Once the directory is made, every file system that [zip_dataset] can
    leave has it, and differs from the first one below it only. *)
Lemma zip_dataset_below tmpdir names dataset fs name fs1 r fs' :
  mkdtemp tmpdir names fs = (Ok (tmpdir ++ [name]), fs1) →
  (fs' = fs1 ∧ (∃ exc, r = Raise exc)
   ∨ ∃ fs2, put_node fs1 (tmpdir ++ [name] ++ [zip_name dataset])
              (File (Archive [])) = Some fs2
       ∧ (fs' = fs2 ∧ (∃ exc, r = Raise exc)
          ∨ ∃ entries,
              put_node fs2 (tmpdir ++ [name] ++ [zip_name dataset])
                (File (Archive entries)) = Some fs'
              ∧ r = Ok (tmpdir ++ [name]))) →
  lookup_node fs (tmpdir ++ [name]) = None
  ∧ is_Some (lookup_node fs' (tmpdir ++ [name]))
  ∧ ∀ q, diverge (tmpdir ++ [name]) q → lookup_node fs' q = lookup_node fs q.
Proof.
  intros Hmk Hrun.
  destruct (mkdtemp_ok _ _ _ _ _ Hmk) as (name' & _ & Hfresh & Hput & Hlook1).
  split; [done|].
  assert (∀ q, diverge (tmpdir ++ [name]) q → lookup_node fs1 q = lookup_node fs q)
    as Hframe1.
  { intros q Hq. by apply (lookup_put_node_diverge _ _ _ _ _ Hq Hput). }
  destruct Hrun as [[-> [exc ->]]|(fs2 & Hput1 & Hrun)].
  { split; [by rewrite Hlook1|]. exact Hframe1. }
  rewrite app_assoc in Hput1.
  destruct (put_below_dir _ _ fs1 fs2 _ (mk_is_Some _ _ Hlook1) Hput1)
    as [Hsome2 Hframe2].
  destruct Hrun as [[-> [exc ->]]|(entries & Hput2 & ->)].
  { split; [done|]. intros q Hq. by rewrite Hframe2, Hframe1. }
  rewrite app_assoc in Hput2.
  destruct (put_below_dir _ _ fs2 fs' _ Hsome2 Hput2) as [Hsome3 Hframe3].
  split; [done|].
  intros q Hq. by rewrite Hframe3, Hframe2, Hframe1.
Qed.

(** X12. [zip_dataset] writes below the directory it has made and nowhere
    else. Whatever the outcome, either the file system is the one of before,
    or a directory [tmpdir/name], absent before, has been made for one of the
    candidate names, and every path that parts ways with it leads to what it
    led to before; a call that returns a path returns that directory. *)
Theorem zip_dataset_writes_below_temp_dir cwd tmpdir names dataset fs r fs' :
  zip_dataset cwd tmpdir names dataset fs = (r, fs') →
  (fs' = fs ∧ ∃ exc, r = Raise exc)
  ∨ ∃ name,
      In name names
      ∧ lookup_node fs (tmpdir ++ [name]) = None
      ∧ is_Some (lookup_node fs' (tmpdir ++ [name]))
      ∧ (∀ temp_dir, r = Ok temp_dir → temp_dir = tmpdir ++ [name])
      ∧ ∀ q, diverge (tmpdir ++ [name]) q → lookup_node fs' q = lookup_node fs q.
Proof.
  intros Hrun. apply zip_dataset_cases in Hrun as [Hrun|(name & fs1 & Hin & Hmk & Hrun)];
    [by left|right].
  exists name. split; [done|].
  destruct (zip_dataset_below _ _ _ _ _ _ _ _ Hmk Hrun) as (Hfresh & Hsome & Hframe).
  repeat split; try done.
  intros temp_dir ->.
  destruct Hrun as [[_ [? ?]]|(? & _ & [[_ [? ?]]|(? & _ & ?)])]; by simplify_eq.
Qed.

(** X13. Two exports in a row. When both calls of [zip_dataset] return, they
    return different directories, and everything at or below the directory of
    the first call, its archive included, is after the second call what the
    first call left. *)
Theorem zip_dataset_twice cwd tmpdir names1 names2 dataset1 dataset2 fs d1 fs1 d2 fs2 :
  zip_dataset cwd tmpdir names1 dataset1 fs = (Ok d1, fs1) →
  zip_dataset cwd tmpdir names2 dataset2 fs1 = (Ok d2, fs2) →
  d1 ≠ d2
  ∧ ∀ rel, lookup_node fs2 (d1 ++ rel) = lookup_node fs1 (d1 ++ rel).
Proof.
  intros Hrun1 Hrun2.
  apply zip_dataset_cases in Hrun1 as [[_ [? ?]]|(n1 & fsa & _ & Hmk1 & Hrun1)];
    [done|].
  apply zip_dataset_cases in Hrun2 as [[_ [? ?]]|(n2 & fsb & _ & Hmk2 & Hrun2)];
    [done|].
  destruct (zip_dataset_below _ _ _ _ _ _ _ _ Hmk1 Hrun1) as (_ & Hsome1 & _).
  destruct (zip_dataset_below _ _ _ _ _ _ _ _ Hmk2 Hrun2) as (Hfresh2 & _ & Hframe2).
  assert (d1 = tmpdir ++ [n1]) as ->.
  { destruct Hrun1 as [[_ [? ?]]|(? & _ & [[_ [? ?]]|(? & _ & ?)])]; by simplify_eq. }
  assert (d2 = tmpdir ++ [n2]) as ->.
  { destruct Hrun2 as [[_ [? ?]]|(? & _ & [[_ [? ?]]|(? & _ & ?)])]; by simplify_eq. }
  assert (n1 ≠ n2) as Hne.
  { intros ->. rewrite Hfresh2 in Hsome1. by destruct Hsome1. }
  split.
  - intros Heq. by apply app_inj_1 in Heq as [_ [= ?]].
  - intros rel. apply Hframe2.
    rewrite <- (app_nil_r (tmpdir ++ [n2])).
    apply diverge_app. exists tmpdir, n2, n1, [], []. by repeat split.
Qed.

End ZipExtras.

(** ** The file system: removing, making directories, moving *)

Section MoveTreeFacts.
Context `{Collaborators}.

(** Two paths: one leads to the other, or they part ways. *)
Lemma path_trichotomy (p q : path) :
  q `prefix_of` p ∨ (∃ r, r ≠ [] ∧ q = p ++ r) ∨ diverge p q.
Proof.
  revert q. induction p as [|a p IH]; intros [|b q].
  - left. done.
  - right. left. by exists (b :: q).
  - left. apply prefix_nil.
  - destruct (decide (a = b)) as [->|Hab].
    + destruct (IH q) as [Hpre|[(r & Hr & ->)|(c & x & y & p' & q' & -> & -> & Hxy)]].
      * left. by apply prefix_cons.
      * right. left. by exists r.
      * right. right. by exists (b :: c), x, y, p', q'.
    + right. right. by exists [], a, b, p, q.
Qed.

Lemma diverge_not_prefix (p q : path) : diverge p q → ¬ q `prefix_of` p.
Proof.
  intros (c & a & b & p' & q' & -> & -> & Hab) [r Hr].
  rewrite <- app_assoc in Hr. apply app_inv_head in Hr. simpl in Hr.
  by injection Hr.
Qed.

Lemma diverge_ne (p q : path) : diverge p q → p ≠ q.
Proof.
  intros Hd ->. by apply (diverge_not_prefix _ _ Hd).
Qed.

Lemma basename_snoc (p : path) (f : string) : basename (p ++ [f]) = f.
Proof. unfold basename. apply last_last. Qed.

Lemma child_remove_child_eq (n : node) a : child (remove_child n a) a = None.
Proof.
  destruct n as [d|es]; [done|]. simpl.
  induction es as [|[k x] es IH]; csimpl; [done|].
  destruct (String.eqb_spec k a) as [->|Hne]; csimpl; [apply IH|].
  destruct (String.eqb_spec k a); [done|]. apply IH.
Qed.

Lemma child_remove_child_ne (n : node) a b :
  a ≠ b → child (remove_child n a) b = child n b.
Proof.
  intros Hab. destruct n as [d|es]; [done|]. simpl. f_equal.
  induction es as [|[k x] es IH]; csimpl; [done|].
  destruct (String.eqb_spec k a) as [->|Hne]; csimpl.
  - destruct (String.eqb_spec a b); [done|]. apply IH.
  - destruct (String.eqb_spec k b); [done|]. apply IH.
Qed.

Lemma remove_node_deep (n : node) a (p : path) :
  p ≠ [] →
  remove_node n (a :: p)
  = match child n a with
    | Some n' =>
        match put_child n a (remove_node n' p) with
        | Some n'' => n''
        | None => n
        end
    | None => n
    end.
Proof. by destruct p. Qed.

Lemma child_is_Some_put_child (n : node) a n' c :
  child n a = Some n' → ∃ n'', put_child n a c = Some n''.
Proof. destruct n as [d|es]; [done|]. intros _. simpl. by eexists. Qed.

(** What is taken out is not there any more. *)
Lemma lookup_remove_node_self (fs : node) (p : path) :
  p ≠ [] → lookup_node (remove_node fs p) p = None.
Proof.
  revert fs. induction p as [|a p IH]; intros fs Hp; [done|].
  destruct (decide (p = [])) as [->|Hne].
  - simpl. by rewrite child_remove_child_eq.
  - rewrite remove_node_deep by done.
    destruct (child fs a) as [n'|] eqn:Hc; [|by simpl; rewrite Hc].
    destruct (child_is_Some_put_child fs a n' (remove_node n' p) Hc) as [n'' Hn''].
    rewrite Hn''. simpl.
    rewrite (child_put_child_eq _ _ _ _ Hn''). by apply IH.
Qed.

(** Taking out the node at [p] is not seen from a path that parts ways
    with [p]. *)
Lemma lookup_remove_node_diverge (fs : node) (p q : path) :
  diverge p q → lookup_node (remove_node fs p) q = lookup_node fs q.
Proof.
  intros (common & a & b & p' & q' & -> & -> & Hab).
  revert fs. induction common as [|x common IH]; intros fs.
  - simpl app. destruct (decide (p' = [])) as [->|Hne].
    + simpl. by rewrite child_remove_child_ne.
    + rewrite remove_node_deep by done.
      destruct (child fs a) as [n'|] eqn:Hc; [|done].
      destruct (child_is_Some_put_child fs a n' (remove_node n' p') Hc) as [n'' Hn''].
      rewrite Hn''. simpl. by rewrite (child_put_child_ne _ _ _ _ _ Hab Hn'').
  - simpl app. rewrite remove_node_deep by (by destruct common).
    destruct (child fs x) as [n'|] eqn:Hc; [|done].
    destruct (child_is_Some_put_child fs x n' (remove_node n' (common ++ a :: p')) Hc)
      as [n'' Hn''].
    rewrite Hn''. simpl.
    rewrite (child_put_child_eq _ _ _ _ Hn''), Hc. apply IH.
Qed.

(** A write is read back. *)
Lemma lookup_put_node_eq (fs fs' : node) (p : path) c :
  put_node fs p c = Some fs' → lookup_node fs' p = Some c.
Proof.
  revert fs fs'. induction p as [|a p IH]; intros fs fs'.
  - simpl. by intros [= ->].
  - destruct (decide (p = [])) as [->|Hne].
    + simpl. intros Hput. by rewrite (child_put_child_eq _ _ _ _ Hput).
    + rewrite put_node_deep by done.
      destruct (child fs a) as [n'|]; [|done].
      destruct (put_node n' p c) as [n''|] eqn:Hput; [|done].
      intros Hfs'. simpl. rewrite (child_put_child_eq _ _ _ _ Hfs').
      by apply (IH n').
Qed.

Lemma lookup_empty_dir (r : path) : r ≠ [] → lookup_node (Dir []) r = None.
Proof. by destruct r. Qed.

Lemma mkdir_ok (p : path) (fs fs' : node) :
  mkdir p fs = (Ok tt, fs') →
  lookup_node fs p = None ∧ put_node fs p (Dir []) = Some fs'.
Proof.
  unfold mkdir. destruct (lookup_node fs p); [done|].
  destruct (put_node fs p (Dir [])); [|done]. by intros [= <-].
Qed.

Lemma mkdir_raise (p : path) (fs fs' : node) exc :
  mkdir p fs = (Raise exc, fs') → fs' = fs.
Proof.
  unfold mkdir. destruct (lookup_node fs p); [by intros [= _ <-]|].
  destruct (put_node fs p (Dir [])); [done|]. by intros [= _ <-].
Qed.

(** A new directory is seen only from the paths that lead to it. *)
Lemma mkdir_frame (p q : path) (fs fs' : node) :
  mkdir p fs = (Ok tt, fs') → ¬ q `prefix_of` p →
  lookup_node fs' q = lookup_node fs q.
Proof.
  intros Hmk Hq. apply mkdir_ok in Hmk as [Hnone Hput].
  destruct (path_trichotomy p q) as [Hpre|[(r & Hr & ->)|Hdiv]]; [done| |].
  - rewrite !lookup_node_app, Hnone, (lookup_put_node_eq _ _ _ _ Hput).
    by apply lookup_empty_dir.
  - by apply (lookup_put_node_diverge _ _ _ _ _ Hdiv Hput).
Qed.

Lemma makedirs_frame (start rest q : path) (fs fs' : node) r :
  makedirs start rest fs = (r, fs') → ¬ q `prefix_of` (start ++ rest) →
  lookup_node fs' q = lookup_node fs q.
Proof.
  revert start fs. induction rest as [|name rest IH]; intros start fs; simpl.
  - by intros [= _ <-].
  - rewrite (cons_middle name start rest), app_assoc.
    destruct (lookup_node fs (start ++ [name])) as [[d|es]|] eqn:Hhere.
    + destruct rest; by intros [= _ <-].
    + apply IH.
    + destruct (mkdir (start ++ [name]) fs) as [[[]|exc] fs1] eqn:Hmk.
      * intros Hrun Hq. rewrite (IH _ _ Hrun Hq).
        apply (mkdir_frame _ _ _ _ Hmk). intros Hpre. apply Hq.
        etrans; [exact Hpre|]. by apply prefix_app_r.
      * intros [= _ <-] _. by apply mkdir_raise in Hmk as ->.
Qed.

(** [makedirs], when it returns, leaves a directory. *)
Lemma makedirs_ok_is_dir (start rest : path) (fs fs' : node) :
  makedirs start rest fs = (Ok tt, fs') →
  (∃ es, lookup_node fs start = Some (Dir es)) ∨ rest ≠ [] →
  ∃ es, lookup_node fs' (start ++ rest) = Some (Dir es).
Proof.
  revert start fs. induction rest as [|name rest IH]; intros start fs; simpl.
  - intros [= <-] [Hdir|?]; [|done]. by rewrite app_nil_r.
  - rewrite (cons_middle name start rest), app_assoc.
    destruct (lookup_node fs (start ++ [name])) as [[d|es]|] eqn:Hhere.
    + by destruct rest.
    + intros Hrun _. apply (IH _ _ Hrun). left. eauto.
    + destruct (mkdir (start ++ [name]) fs) as [[[]|exc] fs1] eqn:Hmk; [|done].
      intros Hrun _. apply (IH _ _ Hrun). left. exists [].
      apply mkdir_ok in Hmk as [_ Hput]. by apply (lookup_put_node_eq _ _ _ _ Hput).
Qed.

(** [makedirs] returns when it starts in a directory and meets no file. *)
Lemma makedirs_succeeds (start rest : path) (fs : node) :
  (∃ es, lookup_node fs start = Some (Dir es)) →
  (∀ p d, p `prefix_of` rest → lookup_node fs (start ++ p) ≠ Some (File d)) →
  ∃ fs', makedirs start rest fs = (Ok tt, fs').
Proof.
  revert start fs. induction rest as [|name rest IH]; intros start fs [es Hstart] Hfiles;
    simpl; [by eexists|].
  destruct (lookup_node fs (start ++ [name])) as [[d|es']|] eqn:Hhere.
  - exfalso. apply (Hfiles [name] d); [|done]. by apply prefix_cons, prefix_nil.
  - apply IH; [by eexists|]. intros p d Hp. rewrite <- app_assoc.
    apply Hfiles. by apply prefix_cons.
  - destruct (put_node_under fs start es name (Dir []) Hstart) as (fs1 & Hput & _).
    unfold mkdir. rewrite Hhere, Hput.
    apply IH.
    + exists []. by apply (lookup_put_node_eq _ _ _ _ Hput).
    + intros p d Hp. rewrite lookup_node_app, (lookup_put_node_eq _ _ _ _ Hput).
      destruct p; [done|]. done.
Qed.


(** What [shutil_move] touches, whatever the outcome. *)
Lemma shutil_move_frame (src dst q : path) (fs fs' : node) o :
  shutil_move src dst fs = (o, fs') →
  diverge src q → diverge (dst ++ [basename src]) q →
  lookup_node fs' q = lookup_node fs q.
Proof.
  unfold shutil_move. case_bool_decide; [by intros [= _ <-]|].
  destruct (lookup_node fs (dst ++ [basename src])); [by intros [= _ <-]|].
  destruct (lookup_node fs src) as [n|]; [|by intros [= _ <-]].
  case_bool_decide; [by intros [= _ <-]|].
  destruct (put_node _ _ n) as [fs1|] eqn:Hput; [|by intros [= _ <-]].
  intros [= _ <-] Hsrc Hdst.
  rewrite (lookup_put_node_diverge _ _ _ _ _ Hdst Hput).
  by apply lookup_remove_node_diverge.
Qed.

(** A move that returns, from a staging folder into a directory that lies
    apart from it. *)
Lemma shutil_move_returned (S D : path) (f : string) (fs fs' : node) es :
  diverge S D →
  lookup_node fs D = Some (Dir es) →
  shutil_move (S ++ [f]) D fs = (Returned, fs') →
  ∃ n es',
    lookup_node fs (S ++ [f]) = Some n
    ∧ lookup_node fs (D ++ [f]) = None
    ∧ lookup_node fs' (D ++ [f]) = Some n
    ∧ lookup_node fs' (S ++ [f]) = None
    ∧ lookup_node fs' D = Some (Dir es').
Proof.
  intros Hdiv HD. unfold shutil_move. rewrite basename_snoc.
  assert (diverge (S ++ [f]) D) as Hsrc.
  { rewrite <- (app_nil_r D). by apply diverge_app. }
  case_bool_decide as Heq; [by apply diverge_ne in Hsrc|].
  destruct (lookup_node fs (D ++ [f])) eqn:Hdst; [done|].
  destruct (lookup_node fs (S ++ [f])) as [n|] eqn:Hn; [|done].
  case_bool_decide as Hpre; [done|].
  destruct (put_node _ _ n) as [fs1|] eqn:Hput; [|done].
  intros [= <-].
  assert (lookup_node (remove_node fs (S ++ [f])) D = Some (Dir es)) as HD'.
  { by rewrite lookup_remove_node_diverge. }
  destruct (put_node_under _ _ _ f n HD') as (fs2 & Hput' & Hl).
  rewrite Hput in Hput'. injection Hput' as <-.
  destruct (put_child_is_Some es f n) as [es' Hes'].
  exists n, es'. repeat split; try done.
  - by apply (lookup_put_node_eq _ _ _ _ Hput).
  - assert (diverge (D ++ [f]) (S ++ [f])) as Hds
      by (by apply diverge_sym, diverge_app).
    rewrite (lookup_put_node_diverge _ _ _ _ _ Hds Hput).
    apply lookup_remove_node_self. by destruct S.
  - by rewrite Hl.
Qed.

(** A move of a staged node into a directory where its name is free. *)
Lemma shutil_move_succeeds (S D : path) (f : string) (fs : node) n es :
  diverge S D →
  lookup_node fs D = Some (Dir es) →
  lookup_node fs (S ++ [f]) = Some n →
  lookup_node fs (D ++ [f]) = None →
  ∃ fs', shutil_move (S ++ [f]) D fs = (Returned, fs').
Proof.
  intros Hdiv HD Hn Hfree. unfold shutil_move. rewrite basename_snoc, Hfree, Hn.
  assert (diverge (S ++ [f]) D) as Hsrc.
  { rewrite <- (app_nil_r D). by apply diverge_app. }
  case_bool_decide as Heq; [by apply diverge_ne in Hsrc|].
  case_bool_decide as Hpre.
  { by apply diverge_sym, diverge_not_prefix in Hsrc. }
  assert (lookup_node (remove_node fs (S ++ [f])) D = Some (Dir es)) as HD'.
  { by rewrite lookup_remove_node_diverge. }
  destruct (put_node_under _ _ _ f n HD') as (fs2 & -> & _). by eexists.
Qed.

End MoveTreeFacts.

(** ** Filing the uploads: the loop *)

Section MoveFacts.
Context `{Collaborators}.


Lemma diverge_snoc_ne (p : path) (f g : string) (r : path) :
  f ≠ g → diverge (p ++ [f]) (p ++ g :: r).
Proof. intros Hfg. by exists p, f, g, [], r. Qed.

Lemma diverge_snoc (p q : path) (f g : string) :
  diverge p q → diverge (p ++ [f]) (q ++ [g]).
Proof. apply diverge_app. Qed.

(** The loop of [move_feature_models] touches the staged nodes and their
    places in the destination only. *)
Lemma move_each_frame (S D : path) (l : list FeatureModel) (fs fs' : node) o q :
  move_each l (λ fm, shutil_move (S ++ [uvl_filename_of fm]) D) fs = (o, fs') →
  (∀ f, In f (uvl_filename_of <$> l) →
        diverge (S ++ [f]) q ∧ diverge (D ++ [f]) q) →
  lookup_node fs' q = lookup_node fs q.
Proof.
  revert fs. induction l as [|fm l IH]; intros fs; simpl.
  - by intros [= _ <-].
  - destruct (shutil_move _ D fs) as [o1 fs1] eqn:Hmove.
    intros Hrun Hq.
    assert (lookup_node fs1 q = lookup_node fs q) as Hstep.
    { destruct (Hq (uvl_filename_of fm)) as [Hs Hd]; [by left|].
      apply (shutil_move_frame _ _ _ _ _ _ Hmove); [done|].
      by rewrite basename_snoc. }
    destruct o1; [|by injection Hrun as _ <-..].
    rewrite <- Hstep. apply (IH _ Hrun). intros f Hf. apply Hq. by right.
Qed.

(** The loop, when it returns: the names are distinct and every staged node
    has gone to the destination. *)
Lemma move_each_returned (S D : path) (l : list FeatureModel) (fs fs' : node) es :
  diverge S D →
  lookup_node fs D = Some (Dir es) →
  move_each l (λ fm, shutil_move (S ++ [uvl_filename_of fm]) D) fs = (Returned, fs') →
  NoDup (uvl_filename_of <$> l)
  ∧ (∀ f, In f (uvl_filename_of <$> l) →
          lookup_node fs (D ++ [f]) = None ∧ moved fs fs' S D f)
  ∧ ∃ es', lookup_node fs' D = Some (Dir es').
Proof.
  intros Hdiv. revert fs es. induction l as [|fm l IH]; intros fs es HD; csimpl.
  - intros [= <-]. split; [constructor|]. split; [done|]. eauto.
  - destruct (shutil_move _ D fs) as [o1 fs1] eqn:Hmove.
    destruct o1; [|done..]. intros Hrun.
    destruct (shutil_move_returned _ _ _ _ _ _ Hdiv HD Hmove)
      as (n & es1 & Hn & Hfree & Hdst & Hsrc & HD1).
    destruct (IH _ _ HD1 Hrun) as (Hnd & Hall & HD').
    set (f0 := uvl_filename_of fm) in *.
    assert (¬ In f0 (uvl_filename_of <$> l)) as Hfresh.
    { intros Hin. destruct (Hall _ Hin) as [_ (n' & Hn' & _)]. congruence. }
    split; [|split; [|exact HD']].
    + apply NoDup_cons. split; [|done]. by rewrite list_elem_of_In.
    + intros f [<-|Hin].
      * split; [done|]. exists n. split; [done|].
        assert (∀ g, In g (uvl_filename_of <$> l) → g ≠ f0) as Hne.
        { intros g Hg Heq. apply Hfresh. by rewrite <- Heq. }
        split.
        -- rewrite (move_each_frame _ _ _ _ _ _ _ Hrun); [done|].
           intros g Hg. split.
           ++ by apply diverge_snoc.
           ++ by apply diverge_snoc_ne, Hne.
        -- rewrite (move_each_frame _ _ _ _ _ _ _ Hrun); [done|].
           intros g Hg. split.
           ++ by apply diverge_snoc_ne, Hne.
           ++ by apply diverge_snoc, diverge_sym.
      * assert (f0 ≠ f) as Hne.
        { intros Heq. apply Hfresh. by rewrite Heq. }
        destruct (Hall _ Hin) as [Hfree' (n' & Hn' & Hdst' & Hsrc')].
        assert (∀ q, diverge (S ++ [f0]) q → diverge (D ++ [f0]) q →
                     lookup_node fs1 q = lookup_node fs q) as Hframe.
        { intros q Hq1 Hq2. apply (shutil_move_frame _ _ _ _ _ _ Hmove); [done|].
          by rewrite basename_snoc. }
        split.
        -- rewrite <- Hfree'. symmetry. apply Hframe.
           ++ by apply diverge_snoc.
           ++ by apply diverge_snoc_ne.
        -- exists n'. split; [|done]. rewrite <- Hn'. symmetry. apply Hframe.
           ++ by apply diverge_snoc_ne.
           ++ by apply diverge_snoc, diverge_sym.
Qed.

End MoveFacts.

(** ** Filing the uploads: the method *)

Section MoveTheorems.
Context `{Collaborators}.




(** The loop returns when the names are distinct, the staged nodes are there
    and their names are free in the destination. *)
Lemma move_each_succeeds (S D : path) (l : list FeatureModel) (fs : node) es :
  diverge S D →
  lookup_node fs D = Some (Dir es) →
  NoDup (uvl_filename_of <$> l) →
  movable fs S D (uvl_filename_of <$> l) →
  ∃ fs', move_each l (λ fm, shutil_move (S ++ [uvl_filename_of fm]) D) fs
         = (Returned, fs').
Proof.
  intros Hdiv. revert fs es. induction l as [|fm l IH]; intros fs es HD Hnd Hmv;
    csimpl; [by eexists|].
  apply NoDup_cons in Hnd as [Hfresh Hnd]. rewrite list_elem_of_In in Hfresh.
  destruct (Hmv (uvl_filename_of fm)) as [[n Hn] Hfree]; [by left|].
  destruct (shutil_move_succeeds _ _ _ _ _ _ Hdiv HD Hn Hfree) as [fs1 Hmove].
  rewrite Hmove.
  destruct (shutil_move_returned _ _ _ _ _ _ Hdiv HD Hmove)
    as (_ & es1 & _ & _ & _ & _ & HD1).
  apply (IH _ _ HD1 Hnd). intros f Hf.
  assert (uvl_filename_of fm ≠ f) as Hne by (by intros <-).
  assert (∀ q, diverge (S ++ [uvl_filename_of fm]) q →
               diverge (D ++ [uvl_filename_of fm]) q →
               lookup_node fs1 q = lookup_node fs q) as Hframe.
  { intros q Hq1 Hq2. apply (shutil_move_frame _ _ _ _ _ _ Hmove); [done|].
    by rewrite basename_snoc. }
  destruct (Hmv f) as [Hsome Hnone]; [by right|].
  rewrite !Hframe; [done|..].
  - by apply diverge_snoc.
  - by apply diverge_snoc_ne.
  - by apply diverge_snoc_ne.
  - by apply diverge_snoc, diverge_sym.
Qed.

Lemma not_prefix_snoc (p : path) (f : string) : ¬ (p ++ [f]) `prefix_of` p.
Proof.
  intros Hpre. apply prefix_length in Hpre. rewrite length_app in Hpre.
  simpl in Hpre. lia.
Qed.

Lemma staged_not_prefix (S D : path) (f : string) :
  diverge S D → ¬ (S ++ [f]) `prefix_of` D.
Proof.
  intros Hdiv. apply diverge_not_prefix. rewrite <- (app_nil_r D).
  by apply diverge_sym, diverge_app.
Qed.

(** [makedirs] keeps what can be moved. *)
Lemma makedirs_movable (start rest S : path) (names : list string) (fs fs1 : node) r :
  diverge S (start ++ rest) →
  makedirs start rest fs = (r, fs1) →
  movable fs S (start ++ rest) names → movable fs1 S (start ++ rest) names.
Proof.
  intros Hdiv Hmk Hmv f Hf. destruct (Hmv f Hf) as [Hsome Hfree].
  rewrite (makedirs_frame _ _ _ _ _ _ Hmk) by (by apply staged_not_prefix).
  rewrite (makedirs_frame _ _ _ _ _ _ Hmk) by apply not_prefix_snoc.
  done.
Qed.

Lemma dest_names_ne working_dir current_user dataset :
  dest_names working_dir current_user dataset ≠ [].
Proof. unfold dest_names. by destruct (components working_dir). Qed.

(** [move_feature_models] with its two steps named. *)
Lemma move_feature_models_run environ cwd current_user dataset fs :
  move_feature_models environ cwd (Some current_user) dataset fs
  = match makedirs (start_of cwd (working_dir_of environ))
            (dest_names (working_dir_of environ) current_user dataset) fs with
    | (Raise exc, fs1) => (Raised exc, fs1)
    | (Ok _, fs1) =>
        move_each (feature_models dataset) (λ fm,
          shutil_move (temp_folder current_user ++ [uvl_filename_of fm])
            (dest_dir_of environ cwd current_user dataset)) fs1
    end.
Proof. done. Qed.

(** The sufficient condition of a complete move, with what it leaves. *)
Lemma move_feature_models_complete environ cwd current_user dataset fs :
  let S := temp_folder current_user in
  let D := dest_dir_of environ cwd current_user dataset in
  diverge S D →
  dest_dir_makeable environ cwd current_user dataset fs →
  NoDup (staged_names dataset) →
  movable fs S D (staged_names dataset) →
  ∃ fs', move_feature_models environ cwd (Some current_user) dataset fs
         = (Returned, fs')
         ∧ ∀ f, In f (staged_names dataset) → moved fs fs' S D f.
Proof.
  intros S D Hdiv [Hstart Hway] Hnd Hmv. rewrite move_feature_models_run.
  destruct (makedirs_succeeds _ _ _ Hstart Hway) as [fs1 Hmk]. rewrite Hmk.
  destruct (makedirs_ok_is_dir _ _ _ _ Hmk) as [es HD];
    [right; apply dest_names_ne|].
  pose proof (makedirs_movable _ _ _ _ _ _ _ Hdiv Hmk Hmv) as Hmv1.
  destruct (move_each_succeeds _ _ _ _ _ Hdiv HD Hnd Hmv1) as [fs' Hrun].
  exists fs'. split; [exact Hrun|].
  destruct (move_each_returned _ _ _ _ _ _ Hdiv HD Hrun) as (_ & Hall & _).
  intros f Hf. destruct (Hall f Hf) as [_ (n & Hn & Hdst & Hsrc)].
  exists n. split; [|done].
  rewrite <- Hn. symmetry. apply (makedirs_frame _ _ _ _ _ _ Hmk).
  by apply staged_not_prefix.
Qed.




End MoveTheorems.

(** ** From the staging folder to the upload directory *)

Section UploadTheorems.
Context `{Collaborators}.

(** With [WORKING_DIR] unset and the owner of the dataset logged in,
    [dest_dir] is the directory that [zip_dataset] reads. *)
Lemma dest_dir_unset environ cwd current_user dataset :
  environ !! "WORKING_DIR" = None →
  user_id current_user = ds_user_id (ds_row dataset) →
  start_of cwd (working_dir_of environ) = cwd
  ∧ dest_names (working_dir_of environ) current_user dataset = upload_dir dataset
  ∧ dest_dir_of environ cwd current_user dataset = cwd ++ upload_dir dataset.
Proof.
  intros Henv Hid. unfold dest_dir_of, working_dir_of, getenv. rewrite Henv.
  unfold dest_names, upload_dir. rewrite Hid. done.
Qed.



(** X17. The files land where the archive exporter reads. With [WORKING_DIR]
    unset and the owner of the dataset logged in, when the working directory
    is a directory, no file lies on the way to
    [uploads/user_{user_id}/dataset_{id}], the names of the feature models are
    distinct, staged, and free in that directory, [move_feature_models]
    returns, and the node staged under each name is afterwards in
    [uploads/user_{user_id}/dataset_{id}] below the working directory, the
    directory of [zip_dataset], and gone from the staging folder. *)
Theorem move_feature_models_fills_upload_dir environ cwd current_user dataset fs :
  let S := temp_folder current_user in
  let D := cwd ++ upload_dir dataset in
  environ !! "WORKING_DIR" = None →
  user_id current_user = ds_user_id (ds_row dataset) →
  diverge S D →
  (∃ es, lookup_node fs cwd = Some (Dir es)) →
  no_file_on fs cwd (upload_dir dataset) →
  NoDup (staged_names dataset) →
  movable fs S D (staged_names dataset) →
  ∃ fs', move_feature_models environ cwd (Some current_user) dataset fs
         = (Returned, fs')
         ∧ ∀ f, In f (staged_names dataset) → moved fs fs' S D f.
Proof.
  intros S D Henv Hid Hdiv Hcwd Hway Hnd Hmv.
  destruct (dest_dir_unset environ cwd current_user dataset Henv Hid)
    as (Hstart & Hnames & Hdest).
  subst S D. rewrite <- Hdest in *.
  apply move_feature_models_complete; try done.
  split; [by rewrite Hstart|]. by rewrite Hstart, Hnames.
Qed.


End UploadTheorems.

(** ** The counters and the size formatter, revisited *)

Section StatisticsExtras.
Context `{Collaborators}.

(** X19. The counters follow the workflow. After a successful
    [create_from_form], [count_dsmetadata] has grown by one and
    [count_authors] by the number of resolved authors of the dataset plus the
    number of author entries of its feature models. *)
Theorem counts_after_create fs form current_user w dataset w' :
  create_from_form fs form current_user w = (Ok dataset, w') →
  ∃ a m,
    count_authors DataSetService_init w = (Ok a, w)
    ∧ count_dsmetadata DataSetService_init w = (Ok m, w)
    ∧ count_authors DataSetService_init w'
      = (Ok (a + length (author_list_of form (main_author_of current_user))
             + fm_author_count (form_feature_models form)), w')
    ∧ count_dsmetadata DataSetService_init w' = (Ok (S m), w').
Proof.
  intros Hrun.
  exists (length (author_tbl (session (db w)))),
         (length (ds_meta_data_tbl (session (db w)))).
  split; [reflexivity|]. split; [reflexivity|].
  destruct (create_from_form_tables _ _ _ _ _ _ Hrun)
    as (ds_auths & mds & fm_auths & rows & files & Hs & _ & _ & _ & Hds & _ & Hfm & _).
  rewrite count_authors_ok, count_dsmetadata_ok, Hs. simpl.
  rewrite !length_app, Hfm. simpl.
  apply Forall2_length in Hds. rewrite <- Hds.
  split; f_equal; f_equal; lia.
Qed.

(** X20. After a successful [update_from_form], [count_dsmetadata] is what it
    was, and [count_authors] is the number of authors that are not attached to
    the metadata of the dataset plus the number of resolved authors of the
    submission. *)
Theorem counts_after_update form current_user dataset w r w' :
  update_from_form form current_user dataset w = (Ok r, w') →
  let id := dsmd_id (dsmd_row (ds_meta_data dataset)) in
  ∃ m,
    count_dsmetadata DataSetService_init w = (Ok m, w)
    ∧ count_dsmetadata DataSetService_init w' = (Ok m, w')
    ∧ count_authors DataSetService_init w'
      = (Ok (length (List.filter (other_owner id) (author_tbl (session (db w))))
             + length (author_list_of form (main_author_of current_user))), w').
Proof.
  intros Hrun id.
  exists (length (ds_meta_data_tbl (session (db w)))).
  split; [reflexivity|].
  apply update_from_form_ok_inv in Hrun as [Htry _].
  apply update_from_form_try_ok in Htry as (new & Hs & _ & _ & Hnew).
  rewrite count_authors_ok, count_dsmetadata_ok, Hs. simpl.
  apply Forall2_length in Hnew.
  unfold overwrite_fields. rewrite length_fmap, length_app, <- Hnew. done.
Qed.

End StatisticsExtras.

(** X21. The units do not meet: a size that is within five bytes of a mebibyte
    from below is shown as 1024.0 KB, not as 1.0 MB, and a size within 5242
    bytes of a gibibyte from below as 1024.0 MB, because the unit is picked
    before the quotient is rounded. *)
Theorem get_human_readable_size_rounds_up (size : Z) :
  ((1024 ^ 2 - 5 ≤ size < 1024 ^ 2)%Z →
   SizeService.get_human_readable_size size = "1024.0 KB")
  ∧ ((1024 ^ 3 - 5242 ≤ size < 1024 ^ 3)%Z →
     SizeService.get_human_readable_size size = "1024.0 MB").
Proof.
  unfold SizeService.get_human_readable_size.
  change (1024 ^ 2)%Z with 1048576%Z. change (1024 ^ 3)%Z with 1073741824%Z.
  split; intros [Hge Hlt].
  - destruct (Z.ltb_spec size 1024); [lia|].
    destruct (Z.ltb_spec size 1048576); [|lia].
    assert (SizeService.round2 size 1024 = 102400%Z) as ->; [|by vm_compute].
    unfold SizeService.round2.
    destruct (Z.ltb_spec (2 * (100 * size mod 1024)) 1024);
      [|destruct (Z.ltb_spec 1024 (2 * (100 * size mod 1024)));
        [|destruct (Z.even (100 * size / 1024)) eqn:Hev]];
      Z.div_mod_to_equations; lia.
  - destruct (Z.ltb_spec size 1024); [lia|].
    destruct (Z.ltb_spec size 1048576); [lia|].
    destruct (Z.ltb_spec size 1073741824); [|lia].
    assert (SizeService.round2 size 1048576 = 102400%Z) as ->; [|by vm_compute].
    unfold SizeService.round2.
    destruct (Z.ltb_spec (2 * (100 * size mod 1048576)) 1048576);
      [|destruct (Z.ltb_spec 1048576 (2 * (100 * size mod 1048576)));
        [|destruct (Z.even (100 * size / 1048576)) eqn:Hev]];
      Z.div_mod_to_equations; lia.
Qed.

(** ** The further properties on the examples *)

Lemma create_from_form_adds_rows_witness :
  data_set_tbl (session (db example_world))
  = [{| ds_id := 1; ds_user_id := 7; ds_ds_meta_data_id := 1 |}].
Proof.
  destruct (@create_from_form_adds_rows (example_collaborators true) example_fs
              example_form example_user empty_world
              {| ds_id := 1; ds_user_id := 7; ds_ds_meta_data_id := 1 |}
              example_world)
    as (_ & Hds & _); [reflexivity|exact Hds].
Defined.


Lemma create_from_form_failure_leaves_witness :
  data_set_tbl
    (committed (db (snd (@create_from_form (example_collaborators true) (Dir [])
                           example_form example_user empty_world))))
  = [].
Proof.
  destruct (@create_from_form_failure_leaves (example_collaborators true) (Dir [])
              example_form example_user empty_world
              (FileNotFoundError ["uploads"; "temp"; "7"; "model.uvl"])
              (snd (@create_from_form (example_collaborators true) (Dir [])
                      example_form example_user empty_world)))
    as (_ & _ & Hds & _); [reflexivity|reflexivity|exact Hds].
Defined.


Lemma update_from_form_overwrites_witness :
  let w' := snd (@update_from_form (example_collaborators true) example_update_form
                   example_user example_dataset example_world) in
  List.find (λ md, Nat.eqb (dsmd_id md) 1) (ds_meta_data_tbl (session (db w')))
  = Some {| dsmd_id := 1;
            dsmd_fields :=
              @get_dsmetadata (example_collaborators true) example_update_form |}.
Proof.
  intros w'.
  destruct (@update_from_form_overwrites (example_collaborators true)
              example_update_form example_user example_dataset example_world
              (Some {| ds_id := 1; ds_user_id := 7; ds_ds_meta_data_id := 1 |}) w')
    as (_ & _ & Hrow & _); [reflexivity|].
  apply Hrow. by eexists.
Defined.

Lemma update_from_form_failure_witness :
  let w' := snd (@update_from_form (example_collaborators true) example_update_form
                   example_user example_dataset empty_world) in
  log w'
  = [LogUpdating (@get_dsmetadata (example_collaborators true) example_update_form);
     LogUpdateException (AttributeError "id")].
Proof.
  intros w'.
  destruct (@update_from_form_failure (example_collaborators true)
              example_update_form example_user example_dataset empty_world
              (AttributeError "id") w')
    as (_ & _ & Hlog); [reflexivity|exact Hlog].
Defined.

Lemma update_from_form_missing_metadata_witness :
  ∃ w', @update_from_form (example_collaborators true) example_update_form
          example_user example_dataset empty_world
        = (Raise (AttributeError "id"), w')
        ∧ session (db w') = committed (db w').
Proof.
  apply (@update_from_form_missing_metadata (example_collaborators true)
           example_update_form example_user example_dataset empty_world).
  - reflexivity.
  - by vm_compute.
Defined.


Lemma zip_dataset_writes_below_temp_dir_witness :
  let C := example_collaborators true in
  let fs' := snd (zip_dataset [] ["tmp"] ["tmpa1b2c3"] example_dataset example_uploads) in
  lookup_node fs' ["uploads"] = lookup_node example_uploads ["uploads"].
Proof.
  intros C fs'.
  destruct (@zip_dataset_writes_below_temp_dir C [] ["tmp"] ["tmpa1b2c3"]
              example_dataset example_uploads (Ok ["tmp"; "tmpa1b2c3"]) fs')
    as [[_ [exc Hexc]]|(name & Hin & _ & _ & _ & Hframe)];
    [reflexivity|discriminate|].
  destruct Hin as [<-|[]]. apply Hframe.
  exists [], "tmp", "uploads", ["tmpa1b2c3"], []. by repeat split.
Defined.

Lemma zip_dataset_twice_witness :
  let C := example_collaborators true in
  let r1 := zip_dataset [] ["tmp"] ["tmpa"] example_dataset example_uploads in
  let r2 := zip_dataset [] ["tmp"] ["tmpa"; "tmpb"] example_dataset (snd r1) in
  lookup_node (snd r2) ["tmp"; "tmpa"; "dataset_1.zip"]
  = lookup_node (snd r1) ["tmp"; "tmpa"; "dataset_1.zip"].
Proof.
  intros C r1 r2.
  destruct (@zip_dataset_twice C [] ["tmp"] ["tmpa"] ["tmpa"; "tmpb"]
              example_dataset example_dataset example_uploads
              ["tmp"; "tmpa"] (snd r1) ["tmp"; "tmpb"] (snd r2))
    as [_ Hsame]; [reflexivity|reflexivity|].
  apply (Hsame ["dataset_1.zip"]).
Defined.




Lemma move_feature_models_fills_upload_dir_witness :
  let C := example_collaborators true in
  ∃ fs', move_feature_models ∅ [] (Some example_user) example_aggregate example_fs
         = (Returned, fs')
         ∧ moved example_fs fs' ["uploads"; "temp"; "7"]
             ["uploads"; "user_7"; "dataset_1"] "model.uvl".
Proof.
  intros C.
  destruct (@move_feature_models_fills_upload_dir C ∅ [] example_user
              example_aggregate example_fs)
    as (fs' & Hrun & Hall).
  - reflexivity.
  - reflexivity.
  - exists ["uploads"], "temp", "user_7", ["7"], ["dataset_1"]. by repeat split.
  - by eexists.
  - intros p d [k Hk]. vm_compute in Hk.
    destruct p as [|a [|b [|c [|e p]]]]; simplify_eq/=; by vm_compute.
  - apply (bool_decide_unpack _). by vm_compute.
  - intros f Hf. vm_compute in Hf. destruct Hf as [<-|[]].
    split; [by eexists|reflexivity].
  - exists fs'. split; [exact Hrun|]. apply Hall. by left.
Defined.


Lemma counts_after_create_witness :
  @count_dsmetadata (example_collaborators true) DataSetService_init example_world
  = (Ok 1, example_world).
Proof.
  destruct (@counts_after_create (example_collaborators true) example_fs example_form
              example_user empty_world
              {| ds_id := 1; ds_user_id := 7; ds_ds_meta_data_id := 1 |}
              example_world)
    as (a & m & _ & Hm & _ & Hm'); [reflexivity|].
  vm_compute in Hm. injection Hm as <-. exact Hm'.
Defined.

Lemma counts_after_update_witness :
  let w' := snd (@update_from_form (example_collaborators true) example_update_form
                   example_user example_dataset example_world) in
  @count_authors (example_collaborators true) DataSetService_init w' = (Ok 3, w').
Proof.
  intros w'.
  destruct (@counts_after_update (example_collaborators true) example_update_form
              example_user example_dataset example_world
              (Some {| ds_id := 1; ds_user_id := 7; ds_ds_meta_data_id := 1 |}) w')
    as (m & _ & _ & Ha); [reflexivity|exact Ha].
Defined.

Lemma get_human_readable_size_rounds_up_witness :
  SizeService.get_human_readable_size 1048575 = "1024.0 KB".
Proof.
  apply (proj1 (get_human_readable_size_rounds_up 1048575)). by vm_compute.
Defined.
